(** * ai-monitoring-agent: the query orchestration layer, embedded in Rocq

    The development follows the layout of [backend/app]:
    - [Py]            the fragment of Python the code relies on (exceptions,
                      [str] methods, decoded JSON values, the two regular
                      expressions of the parser);
    - [Models]        [models.py], the pydantic models;
    - [Azure], [Prometheus], [Manager]   [connectors/];
    - [NLP]           [ai/nlp_processor.py];
    - [Engine]        [ai/conversation_engine.py].
    Definitions come first, the properties of the specification after them. *)

From Stdlib Require Import String Ascii ZArith QArith DecimalString Sorted.
From stdpp Require Import base option list strings gmap.

Set Warnings "-register-all".
Open Scope string_scope.

(* ===================================================================== *)
(** * Python fragment                                                     *)
(* ===================================================================== *)
Module Py.

(** The exception classes that occur. [ValidationError] is pydantic's and
    [JSONDecodeError] is [json]'s; both derive from [ValueError].
    [TimeoutError] stands for [asyncio.TimeoutError], [OtherError] for any
    other subclass of [Exception] (a network failure, an API error). *)
Inductive exn :=
  | ValidationError
  | JSONDecodeError
  | ValueError
  | TypeError
  | AttributeError
  | KeyError
  | IndexError
  | TimeoutError
  | OtherError.

(** [isa e cls]: an [except cls] clause catches [e]. *)
Definition isa (e cls : exn) : bool :=
  match cls, e with
  | ValueError, (ValueError | ValidationError | JSONDecodeError) => true
  | ValidationError, ValidationError => true
  | JSONDecodeError, JSONDecodeError => true
  | TypeError, TypeError => true
  | AttributeError, AttributeError => true
  | KeyError, KeyError => true
  | IndexError, IndexError => true
  | TimeoutError, TimeoutError => true
  | OtherError, OtherError => true
  | _, _ => false
  end.

(** A computation either returns or raises. *)
Inductive result (A : Type) :=
  | Ok (a : A)
  | Raise (e : exn).
Arguments Ok {A} a.
Arguments Raise {A} e.

#[global] Instance result_ret : MRet result := fun A a => Ok a.
#[global] Instance result_bind : MBind result := fun A B f m =>
  match m with Ok a => f a | Raise e => Raise e end.
#[global] Instance result_fmap : FMap result := fun A B f m =>
  match m with Ok a => Ok (f a) | Raise e => Raise e end.

(** [try: m  except Exception: h] *)
Definition try_except {A} (m : result A) (h : exn → result A) : result A :=
  match m with Ok a => Ok a | Raise e => h e end.

(** [try: m  except (c1, c2, ...): h] *)
Definition try_except_only {A} (cls : list exn) (m : result A)
    (h : exn → result A) : result A :=
  match m with
  | Ok a => Ok a
  | Raise e => if existsb (isa e) cls then h e else Raise e
  end.

(** ** Strings *)

(** The double quote, for string constants that contain one. *)
Definition dq : string := String (ascii_of_nat 34) EmptyString.
Definition sq : string := String (ascii_of_nat 39) EmptyString.

Definition is_upper (c : ascii) : bool :=
  let n := nat_of_ascii c in (65 <=? n)%nat && (n <=? 90)%nat.

Definition lower_char (c : ascii) : ascii :=
  if is_upper c then ascii_of_nat (nat_of_ascii c + 32) else c.

(** [s.lower()], on ASCII text. *)
Fixpoint lower (s : string) : string :=
  match s with
  | EmptyString => EmptyString
  | String c r => String (lower_char c) (lower r)
  end.

(** [needle in hay] for two [str]. *)
Fixpoint str_in (needle hay : string) : bool :=
  String.prefix needle hay ||
  match hay with
  | EmptyString => false
  | String _ r => str_in needle r
  end.

(** [c in s] for a one-character needle. *)
Fixpoint has_char (c : ascii) (s : string) : bool :=
  match s with
  | EmptyString => false
  | String d r => Ascii.eqb c d || has_char c r
  end.

(** [sep.join(xs)] *)
Definition join (sep : string) (xs : list string) : string :=
  String.concat sep xs.

Fixpoint drop_chars (n : nat) (s : string) : string :=
  match n, s with
  | O, _ => s
  | S k, String _ r => drop_chars k r
  | S _, EmptyString => EmptyString
  end.

(** [s.replace(old, new, 1)] for a non-empty [old]. *)
Fixpoint replace_first (old new s : string) : string :=
  match s with
  | EmptyString => EmptyString
  | String c r =>
      if String.prefix old s
      then new +:+ drop_chars (String.length old) s
      else String c (replace_first old new r)
  end.

(** [s.replace(old, new)], every occurrence, for a non-empty [old]; the
    fuel bounds the number of characters still to scan. *)
Fixpoint replace_all_fuel (fuel : nat) (old new s : string) : string :=
  match fuel with
  | O => s
  | S k =>
      match s with
      | EmptyString => EmptyString
      | String c r =>
          if String.prefix old s
          then new +:+ replace_all_fuel k old new
                         (drop_chars (String.length old) s)
          else String c (replace_all_fuel k old new r)
      end
  end.

Definition replace_all (old new s : string) : string :=
  replace_all_fuel (String.length s) old new s.

(** [str(n)] and the [{n}] of an f-string, for a natural number. *)
Definition str_of_nat (n : nat) : string :=
  NilEmpty.string_of_uint (Nat.to_uint n).

(** [list(set(xs))]: the distinct elements of [xs]. CPython enumerates a
    set in hash order, which the source does not control; the model fixes
    the order of first occurrence, and the properties below that mention
    such a list do not depend on that choice. *)
Fixpoint list_set (xs : list string) : list string :=
  match xs with
  | [] => []
  | x :: r => x :: filter (λ y, y ≠ x) (list_set r)
  end.

(** [not xs] for a list. *)
Definition is_empty {A} (xs : list A) : bool :=
  match xs with [] => true | _ => false end.

(** ** The two regular expressions of the parser *)

Definition is_digit (c : ascii) : bool :=
  let n := nat_of_ascii c in (48 <=? n)%nat && (n <=? 57)%nat.

(** [\s] on ASCII text: tab, line feed, vertical tab, form feed, carriage
    return, the four separators 0x1c-0x1f, and the space. *)
Definition is_space (c : ascii) : bool :=
  let n := nat_of_ascii c in
  ((9 <=? n)%nat && (n <=? 13)%nat) || ((28 <=? n)%nat && (n <=? 32)%nat).

(** [s.strip()] *)
Fixpoint lstrip (s : string) : string :=
  match s with
  | EmptyString => EmptyString
  | String c r => if is_space c then lstrip r else s
  end.

Fixpoint rstrip (s : string) : string :=
  match s with
  | EmptyString => EmptyString
  | String c r =>
      match rstrip r with
      | EmptyString => if is_space c then EmptyString else String c EmptyString
      | r' => String c r'
      end
  end.

Definition strip (s : string) : string := rstrip (lstrip s).

Definition is_quote (c : ascii) : bool :=
  let n := nat_of_ascii c in (n =? 34)%nat || (n =? 39)%nat.

(** The longest prefix of [s] whose characters satisfy [p], and the rest. *)
Fixpoint span (p : ascii → bool) (s : string) : string * string :=
  match s with
  | EmptyString => (EmptyString, EmptyString)
  | String c r =>
      if p c then let '(a, b) := span p r in (String c a, b)
      else (EmptyString, s)
  end.

(** [re.findall] with the pattern of [_extract_services]: a quote (single
    or double), a group of one or more non-quote characters, a quote. The
    result lists the groups. At a quote, the run of
    non-quote characters after it is a match when it is not empty and a
    quote closes it, and scanning resumes after that quote; otherwise
    scanning resumes one character further. Greedy [+] cannot give back
    characters here, the character after a shorter run is not a quote. *)
Fixpoint findall_quoted_fuel (fuel : nat) (s : string) : list string :=
  match fuel with
  | O => []
  | S k =>
      match s with
      | EmptyString => []
      | String c r =>
          if is_quote c then
            match span (λ x, negb (is_quote x)) r with
            | (String a run, String _ rest) =>
                String a run :: findall_quoted_fuel k rest
            | _ => findall_quoted_fuel k r
            end
          else findall_quoted_fuel k r
      end
  end.

Definition findall_quoted (s : string) : list string :=
  findall_quoted_fuel (String.length s) s.

Definition is_time_unit (c : ascii) : bool :=
  existsb (Ascii.eqb c) ["m"; "h"; "d"; "s"]%char.

(** [re.search(r'(\d+)\s*(m|h|d|s)', s)], as the pair of its two groups:
    the leftmost digit from which a run of digits, then white space, then
    a unit letter can be read. Neither [\d+] nor [\s*] can give back
    characters: what follows a shorter run is a digit or white space. *)
Fixpoint search_time (s : string) : option (string * ascii) :=
  match s with
  | EmptyString => None
  | String c r =>
      if is_digit c then
        let '(ds, rest) := span is_digit s in
        let '(_, rest2) := span is_space rest in
        match rest2 with
        | String u _ => if is_time_unit u then Some (ds, u) else search_time r
        | EmptyString => search_time r
        end
      else search_time r
  end.

(** ** Values: decoded JSON and the objects built from it *)

(** A [dict] keeps its items in insertion order; a decoded JSON object has
    [VStr] keys. A number, [int] or [float], is kept as a rational. A
    datetime is kept as its ISO-8601 text. *)
Inductive obj :=
  | VNone
  | VBool (b : bool)
  | VNum (q : Q)
  | VStr (s : string)
  | VList (l : list obj)
  | VDict (kv : list (obj * obj))
  | VDatetime (iso : string).

(** A decoded JSON object, from its members. *)
Definition jobj (kv : list (string * obj)) : obj :=
  VDict (prod_map VStr id <$> kv).

(** Truth value of an object in a condition, an [or] or a [not]. *)
Definition truthy (v : obj) : bool :=
  match v with
  | VNone => false
  | VBool b => b
  | VNum q => negb (Qeq_bool q 0)
  | VStr s => negb (String.eqb s EmptyString)
  | VList l => match l with [] => false | _ => true end
  | VDict kv => match kv with [] => false | _ => true end
  | VDatetime _ => true
  end.

(** [a or b] *)
Definition py_or (a b : obj) : obj := if truthy a then a else b.

Definition is_none (v : obj) : bool :=
  match v with VNone => true | _ => false end.

Definition as_number (v : obj) : option Q :=
  match v with
  | VNum q => Some q
  | VBool b => Some (if b then 1 else 0)%Q
  | _ => None
  end.

(** [a == b] between hashable objects; a bool is the number 0 or 1. *)
Definition key_eqb (a b : obj) : bool :=
  match as_number a, as_number b with
  | Some x, Some y => Qeq_bool x y
  | None, None =>
      match a, b with
      | VStr s, VStr t => String.eqb s t
      | VNone, VNone => true
      | VDatetime s, VDatetime t => String.eqb s t
      | _, _ => false
      end
  | _, _ => false
  end.

Definition hashable (v : obj) : bool :=
  match v with VList _ | VDict _ => false | _ => true end.

(** Lookup of a hashable key among the items of a dict. *)
Fixpoint assoc (k : obj) (kv : list (obj * obj)) : option obj :=
  match kv with
  | [] => None
  | (k', v) :: r => if key_eqb k k' then Some v else assoc k r
  end.

(** [d.get(k, dflt)] with a [str] key; only a dict has the method. *)
Definition get (d : obj) (k : string) (dflt : obj) : result obj :=
  match d with
  | VDict kv => Ok (default dflt (assoc (VStr k) kv))
  | _ => Raise AttributeError
  end.

(** [d[k]] for a dict and a [str] key. *)
Definition getitem (d : obj) (k : string) : result obj :=
  match d with
  | VDict kv =>
      match assoc (VStr k) kv with Some v => Ok v | None => Raise KeyError end
  | _ => Raise TypeError
  end.

(** [k in d] for a dict and a [str] key. *)
Definition has_key (kv : list (obj * obj)) (k : string) : bool :=
  bool_decide (is_Some (assoc (VStr k) kv)).

(** [d[k] = v] on the items of a dict: an existing key keeps its place. *)
Fixpoint setitem_items (k v : obj) (kv : list (obj * obj)) : list (obj * obj) :=
  match kv with
  | [] => [(k, v)]
  | (k', v') :: r =>
      if key_eqb k k' then (k', v) :: r else (k', v') :: setitem_items k v r
  end.

Definition setitem (k v : obj) (kv : list (obj * obj))
    : result (list (obj * obj)) :=
  if hashable k then Ok (setitem_items k v kv) else Raise TypeError.

Fixpoint chars (s : string) : list obj :=
  match s with
  | EmptyString => []
  | String c r => VStr (String c EmptyString) :: chars r
  end.

(** The items a [for x in v] loop visits. *)
Definition iter (v : obj) : result (list obj) :=
  match v with
  | VList l => Ok l
  | VDict kv => Ok (fst <$> kv)
  | VStr s => Ok (chars s)
  | _ => Raise TypeError
  end.

(** [v.lower()] *)
Definition lower_obj (v : obj) : result obj :=
  match v with VStr s => Ok (VStr (lower s)) | _ => Raise AttributeError end.

(** [v.replace(old, new)] *)
Definition replace_obj (old new : string) (v : obj) : result obj :=
  match v with
  | VStr s => Ok (VStr (replace_all old new s))
  | _ => Raise AttributeError
  end.

(** A loop that appends to a list: the items contributed by each
    iteration, in order; the first exception ends the loop. *)
Fixpoint for_each {A B} (f : A → result (list B)) (l : list A)
    : result (list B) :=
  match l with
  | [] => Ok []
  | x :: r =>
      match f x with
      | Ok ys =>
          match for_each f r with
          | Ok zs => Ok (ys ++ zs)%list
          | Raise e => Raise e
          end
      | Raise e => Raise e
      end
  end.

(** ** Library functions taken as given

    [fromisoformat] and [float] on a [str] are parsers of the Python
    library, whose accepted texts vary with the interpreter version;
    [fromtimestamp] converts POSIX seconds, [format_2f] prints a float
    with two decimals, [json_dumps] and [json_loads] are the JSON codec,
    [repr] prints a value and [exn_str] is [str(e)] for an exception.
    [None] stands for the [ValueError] of a rejected text. *)
Record stdlib := {
  fromisoformat : string → option string;
  float_of_str : string → option Q;
  fromtimestamp : Q → result string;
  format_2f : Q → string;
  json_dumps : obj → result string;
  json_loads : string → result obj;
  repr : obj → string;
  exn_str : exn → string
}.

(** [str(v)], and [{v}] in an f-string; [repr] prints what is not a [str]. *)
Definition py_str (L : stdlib) (v : obj) : string :=
  match v with VStr s => s | _ => repr L v end.

(** The line feed. *)
Definition nl : string := String (ascii_of_nat 10) EmptyString.

(** [datetime.fromisoformat(v)] *)
Definition py_fromisoformat (L : stdlib) (v : obj) : result obj :=
  match v with
  | VStr s =>
      match fromisoformat L s with
      | Some t => Ok (VDatetime t)
      | None => Raise ValueError
      end
  | _ => Raise TypeError
  end.

(** [float(v)] *)
Definition py_float (L : stdlib) (v : obj) : result obj :=
  match v with
  | VNum q => Ok (VNum q)
  | VBool b => Ok (VNum (if b then 1 else 0))
  | VStr s =>
      match float_of_str L s with
      | Some q => Ok (VNum q)
      | None => Raise ValueError
      end
  | _ => Raise TypeError
  end.

(** [datetime.fromtimestamp(v)] *)
Definition py_fromtimestamp (L : stdlib) (v : obj) : result obj :=
  match as_number v with
  | Some q => VDatetime <$> fromtimestamp L q
  | None => Raise TypeError
  end.

(** Lookup in a dict from [str] to [str]. *)
Fixpoint lookup_str (k : string) (kv : list (string * string)) : option string :=
  match kv with
  | [] => None
  | (k', v) :: r => if String.eqb k k' then Some v else lookup_str k r
  end.

(** A loop that updates an accumulator. *)
Fixpoint for_fold {A S} (f : S → A → result S) (s : S) (l : list A)
    : result S :=
  match l with
  | [] => Ok s
  | x :: r => match f s x with Ok s' => for_fold f s' r | Raise e => Raise e end
  end.

(** [s.split(c)] for a one-character separator: the pieces between the
    separators, at least one piece. *)
Fixpoint split_char (c : ascii) (s : string) : list string :=
  match s with
  | EmptyString => [EmptyString]
  | String d r =>
      if Ascii.eqb c d then EmptyString :: split_char c r
      else match split_char c r with
           | p :: ps => String d p :: ps
           | [] => [String d EmptyString]
           end
  end.

(** [xs[-2]] *)
Definition penultimate (xs : list string) : result string :=
  match rev xs with
  | _ :: x :: _ => Ok x
  | _ => Raise IndexError
  end.

(** What an HTTP request comes to: the call raises (no connection, a
    timeout), or a response arrives with a status and a body whose JSON
    decoding returns or raises. *)
Inductive http_outcome :=
  | HttpFail (e : exn)
  | HttpResp (status : nat) (json : result obj).

End Py.

(* ===================================================================== *)
(** * models.py                                                           *)
(* ===================================================================== *)
Module Models.
Import Py.

(** The keyword arguments of a call, in the order they are written; a
    keyword occurs once. *)
Definition kwargs := list (string * obj).

Fixpoint kwarg (k : string) (kw : kwargs) : option obj :=
  match kw with
  | [] => None
  | (k', v) :: r => if String.eqb k k' then Some v else kwarg k r
  end.

#[global] Instance kwargs_lookup : Lookup string obj kwargs := kwarg.

(** ** pydantic

    A call [Model(k1=v1, ...)] validates its keywords [kw] against the declared fields: a declared
    field is read from [kw] and checked against its annotation, or takes its
    default when [kw] lacks it; a field declared without a default is
    required. Keywords that name no declared field are ignored (pydantic's
    default [extra] setting). Any missing or ill-typed field makes the call
    raise [ValidationError]. A datetime is kept as its ISO-8601 text. *)

(** One declared field: [parse] checks the annotation, [dflt] is the
    default, [None] for a required field. *)
Definition field {A} (kw : kwargs) (name : string)
    (parse : obj → option A) (dflt : option A) : option A :=
  match kw !! name with
  | Some v => parse v
  | None => dflt
  end.

Definition as_str (v : obj) : option string :=
  match v with VStr s => Some s | _ => None end.

Definition as_datetime (v : obj) : option string :=
  match v with VDatetime t => Some t | _ => None end.

Definition as_float (v : obj) : option Q :=
  match v with VNum q => Some q | _ => None end.

(** [Dict[str, Any]] *)
Definition as_dict (v : obj) : option (list (string * obj)) :=
  match v with
  | VDict kv => mapM (λ '(k, x), (λ s, (s, x)) <$> as_str k) kv
  | _ => None
  end.

(** [Optional[T]] *)
Definition as_optional {A} (parse : obj → option A) (v : obj)
    : option (option A) :=
  match v with VNone => Some None | _ => Some <$> parse v end.

(** [Dict[str, str]] *)
Definition as_str_dict (v : obj) : option (list (string * string)) :=
  match v with
  | VDict kv =>
      mapM (λ '(k, x), k' ← as_str k; x' ← as_str x; Some (k', x')) kv
  | _ => None
  end.

(** [List[Dict[str, Any]]] *)
Definition as_dict_list (v : obj) : option (list (list (string * obj))) :=
  match v with VList l => mapM as_dict l | _ => None end.

(** [class MessageType(str, Enum)] *)
Inductive MessageType := USER | ASSISTANT | SYSTEM | ERROR.

Definition MessageType_value (t : MessageType) : string :=
  match t with
  | USER => "user" | ASSISTANT => "assistant"
  | SYSTEM => "system" | ERROR => "error"
  end.

Definition as_MessageType (v : obj) : option MessageType :=
  match v with
  | VStr s =>
      List.find (λ t, String.eqb (MessageType_value t) s)
                [USER; ASSISTANT; SYSTEM; ERROR]
  | _ => None
  end.

(** [class ChatMessage(BaseModel)]:
      type: MessageType
      content: str
      timestamp: datetime = Field(default_factory=datetime.utcnow)
      metadata: Optional[Dict[str, Any]] = None *)
Record ChatMessage := {
  type : MessageType;
  content : string;
  timestamp : string;
  metadata : option (list (string * obj))
}.

(** The constructor call with keywords [kw]; [now] is the clock reading a default factory
    would take. *)
Definition ChatMessage_new (now : string) (kw : kwargs) : result ChatMessage :=
  match field kw "type" as_MessageType None,
        field kw "content" as_str None,
        field kw "timestamp" as_datetime (Some now),
        field kw "metadata" (as_optional as_dict) (Some None) with
  | Some t, Some c, Some ts, Some md =>
      Ok {| type := t; content := c; timestamp := ts; metadata := md |}
  | _, _, _, _ => Raise ValidationError
  end.

(** [m.attr]: a declared field, or [AttributeError]. *)
Definition ChatMessage_getattr (m : ChatMessage) (attr : string) : result obj :=
  if String.eqb attr "type" then Ok (VStr (MessageType_value (type m)))
  else if String.eqb attr "content" then Ok (VStr (content m))
  else if String.eqb attr "timestamp" then Ok (VDatetime (timestamp m))
  else if String.eqb attr "metadata" then
    Ok (match metadata m with Some d => jobj d | None => VNone end)
  else Raise AttributeError.

(** [class MetricData(BaseModel)]:
      metric_name: str
      values: List[Dict[str, Any]]
      labels: Dict[str, str] = Field(default_factory=dict)
      query: str
      timestamp: datetime = Field(default_factory=datetime.utcnow)
      unit: Optional[str] = None
      description: Optional[str] = None *)
Record MetricData := {
  metric_name : string;
  values : list (list (string * obj));
  m_labels : list (string * string);
  query : string;
  m_timestamp : string;
  unit : option string;
  description : option string
}.

Definition MetricData_new (now : string) (kw : kwargs) : result MetricData :=
  match field kw "metric_name" as_str None,
        field kw "values" as_dict_list None,
        field kw "labels" as_str_dict (Some []),
        field kw "query" as_str None,
        field kw "timestamp" as_datetime (Some now),
        field kw "unit" (as_optional as_str) (Some None),
        field kw "description" (as_optional as_str) (Some None) with
  | Some n, Some vs, Some ls, Some q, Some ts, Some u, Some d =>
      Ok {| metric_name := n; values := vs; m_labels := ls; query := q;
            m_timestamp := ts; unit := u; description := d |}
  | _, _, _, _, _, _, _ => Raise ValidationError
  end.

Definition str_dict_obj (d : list (string * string)) : obj :=
  VDict (prod_map VStr VStr <$> d).

Definition opt_str_obj (o : option string) : obj :=
  match o with Some s => VStr s | None => VNone end.

Definition MetricData_getattr (m : MetricData) (attr : string) : result obj :=
  if String.eqb attr "metric_name" then Ok (VStr (metric_name m))
  else if String.eqb attr "values" then Ok (VList (jobj <$> values m))
  else if String.eqb attr "labels" then Ok (str_dict_obj (m_labels m))
  else if String.eqb attr "query" then Ok (VStr (query m))
  else if String.eqb attr "timestamp" then Ok (VDatetime (m_timestamp m))
  else if String.eqb attr "unit" then Ok (opt_str_obj (unit m))
  else if String.eqb attr "description" then Ok (opt_str_obj (description m))
  else Raise AttributeError.

(** [class AlertData(BaseModel)]:
      alert_name: str
      severity: str
      status: str
      labels: Dict[str, str]
      annotations: Dict[str, str] = Field(default_factory=dict)
      active_at: datetime
      value: Optional[float] = None
      fingerprint: Optional[str] = None *)
Record AlertData := {
  alert_name : string;
  severity : string;
  status : string;
  a_labels : list (string * string);
  annotations : list (string * string);
  active_at : string;
  value : option Q;
  fingerprint : option string
}.

Definition AlertData_new (kw : kwargs) : result AlertData :=
  match field kw "alert_name" as_str None,
        field kw "severity" as_str None,
        field kw "status" as_str None,
        field kw "labels" as_str_dict None,
        field kw "annotations" as_str_dict (Some []),
        field kw "active_at" as_datetime None,
        field kw "value" (as_optional as_float) (Some None),
        field kw "fingerprint" (as_optional as_str) (Some None) with
  | Some n, Some sv, Some st, Some ls, Some an, Some t, Some v, Some f =>
      Ok {| alert_name := n; severity := sv; status := st; a_labels := ls;
            annotations := an; active_at := t; value := v; fingerprint := f |}
  | _, _, _, _, _, _, _, _ => Raise ValidationError
  end.

Definition AlertData_getattr (a : AlertData) (attr : string) : result obj :=
  if String.eqb attr "alert_name" then Ok (VStr (alert_name a))
  else if String.eqb attr "severity" then Ok (VStr (severity a))
  else if String.eqb attr "status" then Ok (VStr (status a))
  else if String.eqb attr "labels" then Ok (str_dict_obj (a_labels a))
  else if String.eqb attr "annotations" then Ok (str_dict_obj (annotations a))
  else if String.eqb attr "active_at" then Ok (VDatetime (active_at a))
  else if String.eqb attr "value" then
    Ok (match value a with Some q => VNum q | None => VNone end)
  else if String.eqb attr "fingerprint" then Ok (opt_str_obj (fingerprint a))
  else Raise AttributeError.

End Models.

(* ===================================================================== *)
(** * connectors/azure_monitor.py                                         *)
(* ===================================================================== *)
Module Azure.
Import Py Models.

Record AzureMonitorConnector := {
  name : string;
  subscription_id : string;
  client_id : string;
  client_secret : string;
  tenant_id : string;
  access_token : obj;
  token_expires : option string
}.

(** What the connector meets during one call. [_get_access_token] catches
    every exception and returns the token or [None]: [token] is what it
    returns. [alerts_http] is the outcome of the request to the alerts
    management endpoint, [now_iso] the text of [datetime.now().isoformat()]. *)
Record world := {
  token : obj;
  now_iso : string;
  alerts_http : http_outcome
}.

Definition common_metrics : list string :=
  [ "Percentage CPU";
    "Network In Total";
    "Network Out Total";
    "Disk Read Bytes";
    "Disk Write Bytes";
    "Available Memory Bytes";
    "Total Requests";
    "Response Time";
    "Failed Requests";
    "Successful Requests";
    "CPU Credits Consumed";
    "CPU Credits Remaining";
    "Data Disk IOPS Consumed Percentage";
    "OS Disk IOPS Consumed Percentage" ].

(** [get_metrics_list]: the body builds the list and returns it. *)
Definition get_metrics_list (self : AzureMonitorConnector) (w : world)
    : result (list string) :=
  Ok common_metrics.

Definition unit_mapping : list (string * string) :=
  [ ("Percent", "percent");
    ("Count", "count");
    ("Bytes", "bytes");
    ("Seconds", "seconds");
    ("BytesPerSecond", "bytes_per_second");
    ("CountPerSecond", "per_second");
    ("Milliseconds", "milliseconds") ].

(** [_convert_azure_unit]: [unit_mapping.get(unit, unit.lower())]; the
    default is evaluated first, so only a [str] gets through. *)
Definition _convert_azure_unit (unit : obj) : result obj :=
  match unit with
  | VStr s => Ok (VStr (default (lower s) (lookup_str s unit_mapping)))
  | _ => Raise AttributeError
  end.

(** Line 275:
    [point.get('average') or point.get('maximum') or point.get('minimum')
     or point.get('total')]. *)
Definition point_value (point : obj) : result obj :=
  a ← get point "average" VNone;
  if truthy a then Ok a else
  b ← get point "maximum" VNone;
  if truthy b then Ok b else
  c ← get point "minimum" VNone;
  if truthy c then Ok c else
  get point "total" VNone.

(** The label set of one time series (lines 255-266). *)
Definition timeseries_labels (timeseries : obj) (resource_id : string)
    : result (list (obj * obj)) :=
  dims ← get timeseries "metadatavalues" (VList []) ≫= iter;
  labels ← for_fold (λ labels dimension,
      name ← get dimension "name" (VDict []) ≫= (λ n, get n "value" (VStr EmptyString));
      value ← get dimension "value" (VStr EmptyString);
      if truthy name && truthy value then setitem name value labels
      else Ok labels) [] dims;
  labels ← setitem (VStr "resource_id") (VStr resource_id) labels;
  resource_type ←
    (if has_char "/" resource_id
     then penultimate (split_char "/" resource_id)
     else Ok "unknown");
  setitem (VStr "resource_type") (VStr resource_type) labels.

(** One data point (lines 270-284): nothing without a time stamp, nothing
    when the selected value is [None], one sample otherwise. *)
Definition parse_point (L : stdlib) (now : string) (metric_name unit : obj)
    (labels : list (obj * obj)) (point : obj) : result (list MetricData) :=
  timestamp_str ← get point "timeStamp" VNone;
  if truthy timestamp_str then
    timestamp ← replace_obj "Z" "+00:00" timestamp_str ≫= py_fromisoformat L;
    value ← point_value point;
    if is_none value then Ok []
    else
      v ← py_float L value;
      u ← _convert_azure_unit unit;
      m ← MetricData_new now
            [ ("name", metric_name); ("value", v); ("timestamp", timestamp);
              ("labels", VDict labels); ("unit", u) ];
      Ok [m]
  else Ok [].

Definition _parse_azure_metrics (L : stdlib) (now : string) (data : obj)
    (resource_id : string) : result (list MetricData) :=
  ms ← get data "value" (VList []) ≫= iter;
  for_each (λ metric,
    metric_name ← get metric "name" (VDict []) ≫= (λ n, get n "value" (VStr "unknown"));
    unit ← get metric "unit" (VStr "count");
    tss ← get metric "timeseries" (VList []) ≫= iter;
    for_each (λ timeseries,
      labels ← timeseries_labels timeseries resource_id;
      points ← get timeseries "data" (VList []) ≫= iter;
      for_each (parse_point L now metric_name unit labels) points) tss) ms.

(** The keyword arguments [_parse_azure_alerts] builds for one alert
    (lines 339-351), evaluated in the order they are written. *)
Definition alert_kwargs (L : stdlib) (w : world) (alert : obj) : result kwargs :=
  properties ← get alert "properties" (VDict []);
  essentials ← get properties "essentials" (VDict []);
  name ← get essentials "alertRule" (VStr "Unknown");
  severity ← get essentials "severity" (VStr "Sev3") ≫= lower_obj;
  description ← get properties "context" (VDict [])
                  ≫= (λ c, get c "description" (VStr EmptyString));
  service ← get essentials "targetResourceName" (VStr "unknown");
  timestamp ← (get essentials "firedDateTime" (VStr (now_iso w))
                 ≫= replace_obj "Z" "+00:00") ≫= py_fromisoformat L;
  Ok [ ("name", name); ("severity", severity); ("description", description);
       ("service", service); ("timestamp", timestamp); ("labels", essentials) ].

Definition _parse_azure_alerts (L : stdlib) (w : world) (data : obj)
    : result (list AlertData) :=
  alerts ← get data "value" (VList []) ≫= iter;
  for_each (λ alert,
    kw ← alert_kwargs L w alert;
    a ← AlertData_new kw;
    Ok [a]) alerts.

Definition get_active_alerts (L : stdlib) (self : AzureMonitorConnector)
    (w : world) : result (list AlertData) :=
  try_except
    (if negb (truthy (token w)) then Ok []
     else
       match alerts_http w with
       | HttpFail e => Raise e
       | HttpResp status body =>
           if (status =? 200)%nat then data ← body; _parse_azure_alerts L w data
           else Ok []
       end)
    (λ _, Ok []).

End Azure.

(* ===================================================================== *)
(** * connectors/prometheus.py                                            *)
(* ===================================================================== *)
Module Prometheus.
Import Py Models.

Record PrometheusConnector := {
  name : string;
  base_url : string
}.

(** What the connector meets during one call: the outcome of the request
    to Alertmanager, the outcome of a query request (by endpoint and PromQL
    text), and the clock. *)
Record world := {
  now_iso : string;
  alertmanager_http : http_outcome;
  query_http : string → string → http_outcome
}.

(** [v == s] for a [str] constant [s]. *)
Definition eq_str (v : obj) (s : string) : bool :=
  match v with VStr t => String.eqb t s | _ => false end.

(** [a, b = v] *)
Definition unpack2 (v : obj) : result (obj * obj) :=
  items ← iter v;
  match items with
  | [a; b] => Ok (a, b)
  | _ => Raise ValueError
  end.

Definition any_in (words : list string) (s : string) : bool :=
  existsb (λ x, str_in x s) words.

Definition _infer_unit (metric_name : obj) : result obj :=
  m ← lower_obj metric_name;
  match m with
  | VStr metric_lower =>
      Ok (VStr (
        if any_in ["bytes"; "size"; "memory"] metric_lower then "bytes"
        else if any_in ["duration"; "time"; "latency"] metric_lower then "seconds"
        else if any_in ["rate"; "rps"; "qps"] metric_lower then "per_second"
        else if any_in ["percent"; "ratio"] metric_lower then "percent"
        else if any_in ["count"; "total"; "num"] metric_lower then "count"
        else "unknown"))
  | _ => Raise AttributeError
  end.

(** The [try] block around one sample (lines 155-164 and 168-177). *)
Definition sample (L : stdlib) (now : string) (metric_name labels : obj)
    (timestamp value : obj) : result (list MetricData) :=
  try_except_only [ValueError; TypeError]
    (v ← py_float L value;
     t ← py_fromtimestamp L timestamp;
     u ← _infer_unit metric_name;
     m ← MetricData_new now
           [ ("name", metric_name); ("value", v); ("timestamp", t);
             ("labels", labels); ("unit", u) ];
     Ok [m])
    (λ _, Ok []).

Definition _parse_prometheus_response (L : stdlib) (now : string) (data : obj)
    : result (list MetricData) :=
  st ← get data "status" VNone;
  if negb (eq_str st "success") then Ok []
  else
    rs ← (get data "data" (VDict []) ≫= (λ d, get d "result" (VList []))) ≫= iter;
    for_each (λ item,
      metric_name ← get item "metric" (VDict [])
                      ≫= (λ m, get m "__name__" (VStr "unknown"));
      labels ← get item "metric" (VDict []);
      match item with
      | VDict kv =>
          if has_key kv "value" then
            '(timestamp, value) ← getitem item "value" ≫= unpack2;
            sample L now metric_name labels timestamp value
          else if has_key kv "values" then
            pairs ← getitem item "values" ≫= iter;
            for_each (λ p,
              '(timestamp, value) ← unpack2 p;
              sample L now metric_name labels timestamp value) pairs
          else Ok []
      | _ => Raise TypeError
      end) rs.

(** [query_metrics]: the keyword [query_type] selects the endpoint. *)
Definition query_metrics (L : stdlib) (self : PrometheusConnector) (w : world)
    (query : string) (kw : kwargs) : result (list MetricData) :=
  try_except
    (let query_type := default (VStr "instant") (kw !! "query_type") in
     let endpoint :=
       if eq_str query_type "range" then "/api/v1/query_range"
       else "/api/v1/query" in
     match query_http w endpoint query with
     | HttpFail e => Raise e
     | HttpResp status body =>
         if negb (status =? 200)%nat then Ok []
         else data ← body; _parse_prometheus_response L (now_iso w) data
     end)
    (λ _, Ok []).

(** The keyword arguments [_parse_alertmanager_response] builds for one
    active alert (lines 187-199). *)
Definition alertmanager_kwargs (L : stdlib) (now : string) (alert : obj)
    : result kwargs :=
  labels ← get alert "labels" (VDict []);
  annotations ← get alert "annotations" (VDict []);
  name ← get labels "alertname" (VStr "Unknown");
  severity ← get labels "severity" (VStr "warning");
  summary ← get annotations "summary" (VStr EmptyString);
  description ← get annotations "description" summary;
  job ← get labels "job" (VStr "unknown");
  service ← get labels "service" job;
  timestamp ← (get alert "startsAt" (VStr now) ≫= replace_obj "Z" "+00:00")
                ≫= py_fromisoformat L;
  Ok [ ("name", name); ("severity", severity); ("description", description);
       ("service", service); ("timestamp", timestamp); ("labels", labels) ].

Definition _parse_alertmanager_response (L : stdlib) (now : string) (data : obj)
    : result (list AlertData) :=
  alerts ← get data "data" (VList []) ≫= iter;
  for_each (λ alert,
    state ← get alert "status" (VDict []) ≫= (λ s, get s "state" VNone);
    if eq_str state "active" then
      kw ← alertmanager_kwargs L now alert;
      a ← AlertData_new kw;
      Ok [a]
    else Ok []) alerts.

(** The keyword arguments the fallback of [get_active_alerts] builds for
    one firing [ALERTS] sample (lines 86-93). *)
Definition fallback_kwargs (now : string) (metric : MetricData) : result kwargs :=
  labels ← MetricData_getattr metric "labels";
  name ← get labels "alertname" (VStr "Unknown");
  severity ← get labels "severity" (VStr "warning");
  description ← get labels "description" (VStr EmptyString);
  job ← get labels "job" (VStr "unknown");
  service ← get labels "service" job;
  Ok [ ("name", name); ("severity", severity); ("description", description);
       ("service", service); ("timestamp", VDatetime now); ("labels", labels) ].

Definition alert_query : string :=
  "ALERTS{alertstate=" +:+ dq +:+ "firing" +:+ dq +:+ "}".

Definition get_active_alerts (L : stdlib) (self : PrometheusConnector)
    (w : world) : result (list AlertData) :=
  let fallback :=
    metrics ← query_metrics L self w alert_query [];
    for_each (λ metric,
      kw ← fallback_kwargs (now_iso w) metric;
      a ← AlertData_new kw;
      Ok [a]) metrics in
  try_except
    (match alertmanager_http w with
     | HttpFail e => Raise e
     | HttpResp status body =>
         if (status =? 200)%nat
         then data ← body; _parse_alertmanager_response L (now_iso w) data
         else fallback
     end)
    (λ _, Ok []).

End Prometheus.

(* ===================================================================== *)
(** * connectors/base.py and connectors/manager.py                        *)
(* ===================================================================== *)
Module Manager.
Import Py Models.

(** [BaseConnector]: a name and the five operations. An operation is an
    awaited call on a remote system; what it comes to in the current turn
    (a value, or an exception such as a timeout) is part of the connector. *)
Record BaseConnector := {
  name : string;
  health_check : result bool;
  query_metrics : string → kwargs → result (list MetricData);
  get_active_alerts : result (list AlertData);
  get_services : result (list string);
  get_metrics_list : result (list string)
}.

(** The dict [get_metrics_summary] returns. *)
Record summary := {
  s_connector : string;
  s_error : option exn;
  s_services : list string;
  s_metric_names : list string;
  s_service_count : option nat;
  s_metric_count : option nat
}.

Definition error_summary (c : BaseConnector) (e : exn) : summary :=
  {| s_connector := name c; s_error := Some e; s_services := [];
     s_metric_names := []; s_service_count := None; s_metric_count := None |}.

(** [BaseConnector.get_metrics_summary] *)
Definition get_metrics_summary (c : BaseConnector) : result summary :=
  try_except
    (services ← get_services c;
     metrics ← get_metrics_list c;
     Ok {| s_connector := name c; s_error := None;
           s_services := take 50 services;
           s_metric_names := take 100 metrics;
           s_service_count := Some (length services);
           s_metric_count := Some (length metrics) |})
    (λ e, Ok (error_summary c e)).

(** The settings [_initialize_connectors] reads. *)
Record Settings := {
  prometheus_url : string;
  prometheus_username : option string;
  prometheus_password : option string;
  azure_subscription_id : option string;
  azure_client_id : option string;
  azure_client_secret : option string;
  azure_tenant_id : option string
}.

(** Truth value of an optional setting. *)
Definition configured (o : option string) : bool :=
  match o with
  | Some s => negb (String.eqb s EmptyString)
  | None => false
  end.

Definition rename (n : string) (c : BaseConnector) : BaseConnector :=
  {| name := n; health_check := health_check c;
     query_metrics := query_metrics c;
     get_active_alerts := get_active_alerts c;
     get_services := get_services c;
     get_metrics_list := get_metrics_list c |}.

(** [self.connectors], a dict from name to connector, as its items in
    insertion order. [_initialize_connectors] enters the Prometheus
    connector under [prometheus] when a URL is configured and the Azure
    connector under [azure_monitor] when all four credentials are; each
    constructor gives its connector that same name. [prom] and [azure] are
    the behaviours of the two connectors. *)
Definition _initialize_connectors (s : Settings) (prom azure : BaseConnector)
    : list (string * BaseConnector) :=
  (if negb (String.eqb (prometheus_url s) EmptyString)
   then [("prometheus", rename "prometheus" prom)] else [])
  ++
  (if configured (azure_subscription_id s) && configured (azure_client_id s)
      && configured (azure_client_secret s) && configured (azure_tenant_id s)
   then [("azure_monitor", rename "azure_monitor" azure)] else []).

Definition passed (c : BaseConnector) : bool :=
  match health_check c with Ok b => b | Raise _ => false end.

Definition health_check_all (connectors : list (string * BaseConnector))
    : gmap string bool :=
  foldl (λ results '(n, c), <[n := passed c]> results) ∅ connectors.

Definition get_healthy_connectors (connectors : list (string * BaseConnector))
    : list BaseConnector :=
  List.filter passed (snd <$> connectors).

(** The entry a connector gets in a fan-out: what the call returned, or
    the value of the [except] branch. *)
Definition entry {A} (r : result A) (dflt : A) : A :=
  match r with Ok a => a | Raise _ => dflt end.

(** The loop of a fan-out: [results[f(connector)] = g(connector)] for each
    connector of the list in turn. *)
Definition fan {B V} (f : B → string) (g : B → V)
    (results : gmap string V) (l : list B) : gmap string V :=
  foldl (λ results connector, <[f connector := g connector]> results) results l.

Definition query_all_connectors (connectors : list (string * BaseConnector))
    (query : string) (kw : kwargs) : gmap string (list MetricData) :=
  fan name (λ connector, entry (query_metrics connector query kw) [])
      ∅ (get_healthy_connectors connectors).

Definition get_all_alerts (connectors : list (string * BaseConnector))
    : gmap string (list AlertData) :=
  fan name (λ connector, entry (get_active_alerts connector) [])
      ∅ (get_healthy_connectors connectors).

(** The fan-outs whose result is iterated keep the insertion order of the
    dict: items in the order of first insertion, a repeated name
    overwriting the value in place. *)
Fixpoint dict_set {A} (k : string) (v : A) (d : list (string * A))
    : list (string * A) :=
  match d with
  | [] => [(k, v)]
  | (k', v') :: r =>
      if String.eqb k k' then (k', v) :: r else (k', v') :: dict_set k v r
  end.

Definition get_all_services (connectors : list (string * BaseConnector))
    : list (string * list string) :=
  foldl (λ results connector,
           dict_set (name connector) (entry (get_services connector) []) results)
        [] (get_healthy_connectors connectors).

Definition get_all_metrics_summary (connectors : list (string * BaseConnector))
    : list (string * summary) :=
  foldl (λ results connector,
           dict_set (name connector)
             (match get_metrics_summary connector with
              | Ok s => s
              | Raise e => error_summary connector e
              end) results)
        [] (get_healthy_connectors connectors).

Definition list_connectors (connectors : list (string * BaseConnector))
    : list string :=
  fst <$> connectors.

(** [get_connector]: [self.connectors.get(name)]. *)
Definition get_connector (connectors : list (string * BaseConnector))
    (n : string) : option BaseConnector :=
  snd <$> List.find (λ p, String.eqb (fst p) n) connectors.

End Manager.

(* ===================================================================== *)
(** * ai/nlp_processor.py                                                 *)
(* ===================================================================== *)
Module NLP.
Import Py Models.

Definition metric_patterns : list (string * list string) :=
  [ ("cpu", ["cpu"; "processor"; "computation"]);
    ("memory", ["memory"; "ram"; "mem"]);
    ("disk", ["disk"; "storage"; "io"; "filesystem"]);
    ("network", ["network"; "net"; "bandwidth"; "traffic"]);
    ("latency", ["latency"; "response time"; "delay"]);
    ("throughput", ["throughput"; "requests per second"; "rps"; "qps"]);
    ("errors", ["error"; "failure"; "exception"; "fault"]) ].

(** [time_patterns], each entry with the code line 258 maps its key to. *)
Definition time_patterns : list (string * list string) :=
  [ ("1m", ["last minute"; "1m"; "60s"]);
    ("1h", ["last hour"; "1h"; "hour ago"]);
    ("24h", ["today"; "last day"; "24h"; "day ago"]);
    ("7d", ["this week"; "last week"; "7d"; "week ago"]) ].

(** [any(p in text for p in patterns)] *)
Definition any_in (patterns : list string) (text : string) : bool :=
  existsb (λ p, str_in p text) patterns.

(** [x in xs] for a list of [str]. *)
Definition mem (x : string) (xs : list string) : bool :=
  existsb (String.eqb x) xs.

Definition _extract_metrics (query : string) (available_metrics : list string)
    : list string :=
  let query_lower := lower query in
  let direct :=
    List.filter (λ metric, str_in (lower metric) query_lower) available_metrics in
  let by_category :=
    flat_map (λ '(category, patterns),
      if any_in patterns query_lower
      then take 3 (List.filter (λ m, str_in category (lower m)) available_metrics)
      else []) metric_patterns in
  list_set (direct ++ by_category)%list.

Definition _extract_services (query : string) (available_services : list string)
    : list string :=
  let query_lower := lower query in
  let direct :=
    List.filter (λ service, str_in (lower service) query_lower) available_services in
  let quoted :=
    List.filter (λ m, mem m available_services) (findall_quoted query) in
  list_set (direct ++ quoted)%list.

Definition _extract_time_range (query : string) : string :=
  let query_lower := lower query in
  match List.find (λ '(_, patterns), any_in patterns query_lower) time_patterns with
  | Some (code, _) => code
  | None =>
      match search_time query_lower with
      | Some (digits, u) => digits +:+ String u EmptyString
      | None => "1h"
      end
  end.

Definition _extract_aggregation (query : string) : string :=
  let query_lower := lower query in
  if any_in ["average"; "avg"; "mean"] query_lower then "avg"
  else if any_in ["sum"; "total"] query_lower then "sum"
  else if any_in ["max"; "maximum"; "peak"] query_lower then "max"
  else if any_in ["min"; "minimum"; "lowest"] query_lower then "min"
  else "avg".

(** The dict [_analyze_intent_with_ai] returns: the JSON object decoded
    from the model's reply. A key is absent ([None]) or present with a
    value of the type the prompt asks for, which may be empty. *)
Record Intent := {
  i_intent : option string;
  i_metrics : option (list string);
  i_services : option (list string);
  i_time_range : option string;
  i_aggregation : option string;
  i_filters : option (list (string * string));
  i_query_type : option string
}.

(** [{}] *)
Definition no_intent : Intent :=
  {| i_intent := None; i_metrics := None; i_services := None;
     i_time_range := None; i_aggregation := None; i_filters := None;
     i_query_type := None |}.

(** What the language-model stage comes to. The call itself, the search
    for a brace-delimited object in the reply and its JSON decoding are
    outside this development: the call or the decoding raises, the reply
    holds no object, or an object is decoded. *)
Inductive ai_outcome :=
  | AIRaises (e : exn)
  | AINoObject
  | AIObject (d : Intent).

(** [_analyze_intent_with_ai]: the decoded object, [{}] when the reply
    holds none, [{}] from the [except] branch. *)
Definition _analyze_intent_with_ai (o : ai_outcome) : Intent :=
  match o with
  | AIObject d => d
  | AINoObject => no_intent
  | AIRaises _ => no_intent
  end.

(** The descriptor [parse_user_query] returns. *)
Record Components := {
  intent : string;
  metrics : list string;
  services : list string;
  time_range : string;
  aggregation : string;
  filters : list (string * string);
  query_type : string;
  original_query : string
}.

(** [parse_user_query]. With values of these types no statement of the
    [try] block raises, so the [except] branch does not appear. *)
Definition parse_user_query (o : ai_outcome) (query : string)
    (available_services available_metrics : list string) : Components :=
  let intent := _analyze_intent_with_ai o in
  {| intent := default "unknown" (i_intent intent);
     metrics := default (_extract_metrics query available_metrics) (i_metrics intent);
     services := default (_extract_services query available_services) (i_services intent);
     time_range := default (_extract_time_range query) (i_time_range intent);
     aggregation := default (_extract_aggregation query) (i_aggregation intent);
     filters := default [] (i_filters intent);
     query_type := default "metrics" (i_query_type intent);
     original_query := query |}.

Definition nonempty (s : string) : bool := negb (String.eqb s EmptyString).

(** Lines 87-99: the query returned at once, or the base query. *)
Inductive selection :=
  | Return (q : string)
  | Base (q : string).

Definition select_query (c : Components) : selection :=
  let intent := intent c in
  let metrics := metrics c in
  if String.eqb intent "alerts" then
    Return ("ALERTS{alertstate=" +:+ dq +:+ "firing" +:+ dq +:+ "}")
  else if String.eqb intent "health" || str_in "health" (lower (original_query c)) then
    Return "up"
  else if String.eqb intent "cpu" || existsb (λ m, str_in "cpu" (lower m)) metrics then
    Base (if mem "cpu_usage_percent" metrics then "cpu_usage_percent"
          else "rate(cpu_seconds_total[5m]) * 100")
  else if String.eqb intent "memory" || existsb (λ m, str_in "memory" (lower m)) metrics then
    Base (if mem "memory_usage_percent" metrics then "memory_usage_percent"
          else "memory_working_set_bytes")
  else if String.eqb intent "network" || existsb (λ m, str_in "network" (lower m)) metrics then
    Base "rate(network_receive_bytes_total[5m])"
  else
    Base (match metrics with m :: _ => m | [] => "up" end).

(** Lines 102-109 *)
Definition add_service_filter (services : list string) (base_query : string)
    : string :=
  match services with
  | [] => base_query
  | _ =>
      let service_filter := join "|" services in
      if has_char "{" base_query then
        replace_first "{" ("{job=~" +:+ dq +:+ service_filter +:+ dq +:+ ",") base_query
      else
        base_query +:+ "{job=~" +:+ dq +:+ service_filter +:+ dq +:+ "}"
  end.

Definition agg_func (aggregation : string) : string :=
  if String.eqb aggregation "avg" then "avg"
  else if String.eqb aggregation "sum" then "sum"
  else if String.eqb aggregation "max" then "max"
  else if String.eqb aggregation "min" then "min"
  else "avg".

(** Lines 112-124 *)
Definition add_aggregation (aggregation : string) (services : list string)
    (base_query : string) : string :=
  if nonempty aggregation && negb (String.eqb aggregation "raw") then
    match services with
    | [] => agg_func aggregation +:+ "(" +:+ base_query +:+ ")"
    | _ => agg_func aggregation +:+ " by (job) (" +:+ base_query +:+ ")"
    end
  else base_query.

(** [generate_prometheus_query]; [None] is Python's [None]. With values
    of these types no statement of the [try] block raises. *)
Definition generate_prometheus_query (c : Components) : option string :=
  if is_empty (metrics c) && negb (String.eqb (intent c) "alerts") then None
  else
    match select_query c with
    | Return q => Some q
    | Base q =>
        Some (add_aggregation (aggregation c) (services c)
                (add_service_filter (services c) q))
    end.

Definition _fallback_response (query : string) (metrics : list MetricData)
    (alerts : list AlertData) : string :=
  match alerts, metrics with
  | _ :: _, _ =>
      "Found " +:+ str_of_nat (length alerts)
        +:+ " active alerts. The most critical ones need attention."
  | [], _ :: _ =>
      "Retrieved " +:+ str_of_nat (length metrics)
        +:+ " metrics for your query. The data shows recent activity across your monitored services."
  | [], [] =>
      "No data found for query " +:+ sq +:+ query +:+ sq
        +:+ ". Please check if the services are running and metrics are available."
  end.

(** [f"{v:.2f}"] *)
Definition format_float (L : stdlib) (v : obj) : result string :=
  match as_number v, v with
  | Some q, _ => Ok (format_2f L q)
  | None, VStr _ => Raise ValueError
  | None, _ => Raise TypeError
  end.

Definition _format_sample_metrics (L : stdlib) (metrics : list MetricData)
    : result string :=
  match metrics with
  | [] => Ok "No metrics found."
  | _ =>
      formatted ← for_each (λ metric,
        labels ← MetricData_getattr metric "labels";
        service ← (if truthy labels then get labels "job" (VStr "unknown")
                   else Ok (VStr "unknown"));
        n ← MetricData_getattr metric "name";
        v ← MetricData_getattr metric "value" ≫= format_float L;
        u ← MetricData_getattr metric "unit";
        Ok [ "- " +:+ py_str L n +:+ ": " +:+ v +:+ " " +:+ py_str L u
             +:+ " (service: " +:+ py_str L service +:+ ")" ]) (take 3 metrics);
      Ok (join nl formatted)
  end.

Definition _format_sample_alerts (L : stdlib) (alerts : list AlertData)
    : result string :=
  match alerts with
  | [] => Ok "No active alerts."
  | _ =>
      formatted ← for_each (λ alert,
        n ← AlertData_getattr alert "name";
        sv ← AlertData_getattr alert "severity";
        d ← AlertData_getattr alert "description";
        s ← AlertData_getattr alert "service";
        Ok [ "- " +:+ py_str L n +:+ " (" +:+ py_str L sv +:+ "): "
             +:+ py_str L d +:+ " (service: " +:+ py_str L s +:+ ")" ]) (take 3 alerts);
      Ok (join nl formatted)
  end.

(** [data_summary] of [generate_response] (lines 136-142). *)
Record summary := {
  metrics_count : nat;
  alerts_count : nat;
  sum_services : list string;
  metric_names : list string;
  sum_time_range : string
}.

Definition data_summary (L : stdlib) (metrics : list MetricData)
    (alerts : list AlertData) (context : obj) : result summary :=
  svcs ← for_each (λ m,
    labels ← MetricData_getattr m "labels";
    if truthy labels
    then j ← get labels "job" (VStr "unknown"); Ok [py_str L j]
    else Ok []) metrics;
  names ← for_each (λ m,
    n ← MetricData_getattr m "name"; Ok [py_str L n]) metrics;
  tr ← (if truthy context then get context "time_range" (VStr "1h")
        else Ok (VStr "1h"));
  Ok {| metrics_count := length metrics; alerts_count := length alerts;
        sum_services := list_set svcs; metric_names := list_set names;
        sum_time_range := py_str L tr |}.

Definition indent : string := "        ".

Definition _build_response_prompt (L : stdlib) (query : string) (d : summary)
    (sample_metrics : list MetricData) (sample_alerts : list AlertData)
    : result string :=
  fm ← _format_sample_metrics L sample_metrics;
  fa ← _format_sample_alerts L sample_alerts;
  Ok (join nl (
    [ EmptyString;
      indent +:+ "User asked: " +:+ dq +:+ query +:+ dq;
      indent;
      indent +:+ "Data summary:";
      indent +:+ "- Found " +:+ str_of_nat (metrics_count d) +:+ " metrics";
      indent +:+ "- Found " +:+ str_of_nat (alerts_count d) +:+ " alerts";
      indent +:+ "- Services: " +:+ join ", " (take 5 (sum_services d));
      indent +:+ "- Metrics: " +:+ join ", " (take 5 (metric_names d));
      indent +:+ "- Time range: " +:+ sum_time_range d;
      indent;
      indent +:+ "Sample metrics (showing first few):";
      indent +:+ fm;
      indent;
      indent +:+ "Sample alerts (showing first few):";
      indent +:+ fa;
      indent;
      indent +:+ "Generate a helpful, conversational response that:";
      indent +:+ "1. Answers the user" +:+ sq +:+ "s question directly";
      indent +:+ "2. Highlights important findings or anomalies";
      indent +:+ "3. Suggests next steps if relevant";
      indent +:+ "4. Keeps technical details accessible";
      indent;
      indent +:+ "Be concise but informative.";
      indent ])).

(** [generate_response]. [llm prompt] is what
    [openai.ChatCompletion.acreate] followed by
    [response.choices[0].message.content] comes to: the reply text, or an
    exception (the call fails, the reply has no choice or no content). *)
Definition generate_response (L : stdlib) (llm : string → result string)
    (query : string) (metrics : list MetricData) (alerts : list AlertData)
    (context : obj) : string :=
  match
    (d ← data_summary L metrics alerts context;
     prompt ← _build_response_prompt L query d (take 5 metrics) (take 3 alerts);
     content ← llm prompt;
     Ok (strip content))
  with
  | Ok text => text
  | Raise _ => _fallback_response query metrics alerts
  end.

End NLP.

(* ===================================================================== *)
(** * ai/conversation_engine.py                                           *)
(* ===================================================================== *)
Module Engine.
Import Py Models.

(** ** The session store

    The Redis client behind [self.redis]: the lists it holds by key, the
    expiry set on a key, and whether its operations go through. When [up]
    is false every operation raises; that also covers a handle on which
    the methods cannot be called at all. *)
Record redis := {
  up : bool;
  lists : gmap string (list string);
  expiry : gmap string Z
}.

Definition stored (r : redis) (key : string) : list string :=
  default [] (lists r !! key).

(** The items from index 0 to [stop] inclusive; a negative [stop] counts
    from the end. *)
Definition upto {A} (stop : Z) (l : list A) : list A :=
  if (stop <? 0)%Z then take (Z.to_nat (Z.of_nat (length l) + stop + 1)) l
  else take (Z.to_nat (stop + 1)) l.

Definition lpush (key value : string) (r : redis) : result redis :=
  if up r then
    Ok {| up := true; lists := <[key := value :: stored r key]> (lists r);
          expiry := expiry r |}
  else Raise OtherError.

(** [ltrim(key, 0, stop)] *)
Definition ltrim (key : string) (stop : Z) (r : redis) : result redis :=
  if up r then
    Ok {| up := true;
          lists := match lists r !! key with
                   | Some l => <[key := upto stop l]> (lists r)
                   | None => lists r
                   end;
          expiry := expiry r |}
  else Raise OtherError.

Definition expire (key : string) (seconds : Z) (r : redis) : result redis :=
  if up r then
    Ok {| up := true; lists := lists r;
          expiry := match lists r !! key with
                    | Some _ => <[key := seconds]> (expiry r)
                    | None => expiry r
                    end |}
  else Raise OtherError.

(** [lrange(key, 0, stop)] *)
Definition lrange (key : string) (stop : Z) (r : redis) : result (list string) :=
  if up r then Ok (upto stop (stored r key)) else Raise OtherError.

Definition max_conversation_length : nat := 50.
Definition context_retention_hours : nat := 24.

Definition conversation_key (session_id : string) : string :=
  "conversation:" +:+ session_id.

(** [v.isoformat()] *)
Definition isoformat (v : obj) : result obj :=
  match v with VDatetime t => Ok (VStr t) | _ => Raise AttributeError end.

(** [_store_message]: the store after the call. The [except] branch only
    logs, so the call itself never raises. The operations of one client
    all go through or all raise, so a raise leaves the store as it was. *)
Definition _store_message (L : stdlib) (r : redis) (session_id : string)
    (message : ChatMessage) : redis :=
  match
    (let key := conversation_key session_id in
     content ← ChatMessage_getattr message "content";
     sender ← ChatMessage_getattr message "sender";
     timestamp ← ChatMessage_getattr message "timestamp" ≫= isoformat;
     metadata ← ChatMessage_getattr message "metadata";
     let message_data :=
       jobj [ ("content", content); ("sender", sender);
              ("timestamp", timestamp);
              ("metadata", py_or metadata (VDict [])) ] in
     text ← json_dumps L message_data;
     r1 ← lpush key text r;
     r2 ← ltrim key (Z.of_nat max_conversation_length - 1) r1;
     expire key (Z.of_nat context_retention_hours * 3600) r2)
  with
  | Ok r' => r'
  | Raise _ => r
  end.

(** [_get_conversation_history]; [now] is the clock a default factory of
    the model would read. *)
Definition _get_conversation_history (L : stdlib) (now : string) (r : redis)
    (session_id : string) (limit : Z) : list ChatMessage :=
  match
    (let key := conversation_key session_id in
     messages_data ← lrange key (limit - 1) r;
     messages ← for_each (λ msg_data,
       try_except_only [JSONDecodeError; KeyError]
         (msg_dict ← json_loads L msg_data;
          content ← getitem msg_dict "content";
          sender ← getitem msg_dict "sender";
          timestamp ← getitem msg_dict "timestamp" ≫= py_fromisoformat L;
          metadata ← get msg_dict "metadata" VNone;
          message ← ChatMessage_new now
                      [ ("content", content); ("sender", sender);
                        ("timestamp", timestamp); ("metadata", metadata) ];
          Ok [message])
         (λ _, Ok [])) messages_data;
     Ok (rev messages))
  with
  | Ok messages => messages
  | Raise _ => []
  end.

(** ** One turn *)

(** The four handlers [_execute_query_and_respond] dispatches to. Each
    wraps its whole body in [try/except Exception] and returns a [str] from
    both branches; what they return is left open here. *)
Record handlers := {
  _handle_alerts_query : NLP.Components → obj → string;
  _handle_health_query : NLP.Components → obj → string;
  _handle_services_query : NLP.Components → obj → string;
  _handle_metrics_query : NLP.Components → obj → string
}.

Definition _execute_query_and_respond (H : handlers)
    (parsed_query : NLP.Components) (history : list ChatMessage)
    (context : obj) : string :=
  let intent := NLP.intent parsed_query in
  let query_type := NLP.query_type parsed_query in
  if String.eqb query_type "alerts" || String.eqb intent "alerts" then
    _handle_alerts_query H parsed_query context
  else if String.eqb query_type "health" || String.eqb intent "health" then
    _handle_health_query H parsed_query context
  else if String.eqb query_type "services"
          || str_in "service" (lower (NLP.original_query parsed_query)) then
    _handle_services_query H parsed_query context
  else _handle_metrics_query H parsed_query context.

Definition str_list (xs : list string) : obj := VList (VStr <$> xs).

(** The descriptor as the dict it is. *)
Definition components_obj (c : NLP.Components) : obj :=
  jobj [ ("intent", VStr (NLP.intent c));
         ("metrics", str_list (NLP.metrics c));
         ("services", str_list (NLP.services c));
         ("time_range", VStr (NLP.time_range c));
         ("aggregation", VStr (NLP.aggregation c));
         ("filters", str_dict_obj (NLP.filters c));
         ("query_type", VStr (NLP.query_type c));
         ("original_query", VStr (NLP.original_query c)) ].

(** What one turn meets: the connectors with what their calls come to,
    the outcome of the language-model stage of the parser, the handlers,
    and the clock. *)
Record turn := {
  connectors : list (string * Manager.BaseConnector);
  ai : NLP.ai_outcome;
  H : handlers;
  now : string
}.

(** The [except] branch of [process_message] (lines 78-88). *)
Definition error_path (L : stdlib) (t : turn) (r : redis)
    (session_id : string) (e : exn) : result ChatMessage * redis :=
  match ChatMessage_new (now t)
          [ ("content",
             VStr ("I encountered an error processing your request: "
                   +:+ exn_str L e
                   +:+ ". Please try rephrasing your question."));
            ("sender", VStr "assistant");
            ("timestamp", VDatetime (now t));
            ("metadata", jobj [("error", VStr (exn_str L e))]) ] with
  | Ok error_message =>
      (Ok error_message, _store_message L r session_id error_message)
  | Raise e' => (Raise e', r)
  end.

(** [process_message]: what the call returns or raises, and the store
    after it. [user_context or {}] is [context]. *)
Definition process_message (L : stdlib) (t : turn) (r : redis)
    (message session_id : string) (user_context : obj)
    : result ChatMessage * redis :=
  match ChatMessage_new (now t)
          [ ("content", VStr message); ("sender", VStr "user");
            ("timestamp", VDatetime (now t)) ] with
  | Raise e => error_path L t r session_id e
  | Ok user_message =>
      let r1 := _store_message L r session_id user_message in
      let conversation_history :=
        _get_conversation_history L (now t) r1 session_id 10 in
      let all_services :=
        concat (snd <$> Manager.get_all_services (connectors t)) in
      let all_metrics :=
        concat ((λ s, Manager.s_metric_names (snd s))
                  <$> Manager.get_all_metrics_summary (connectors t)) in
      let parsed_query :=
        NLP.parse_user_query (ai t) message all_services all_metrics in
      let response_content :=
        _execute_query_and_respond (H t) parsed_query conversation_history
          (py_or user_context (VDict [])) in
      match ChatMessage_new (now t)
              [ ("content", VStr response_content);
                ("sender", VStr "assistant");
                ("timestamp", VDatetime (now t));
                ("metadata",
                 jobj [ ("parsed_query", components_obj parsed_query);
                        ("connectors_used",
                         str_list (Manager.list_connectors (connectors t))) ]) ]
      with
      | Raise e => error_path L t r1 session_id e
      | Ok assistant_message =>
          (Ok assistant_message,
           _store_message L r1 session_id assistant_message)
      end
  end.

End Engine.

(* ===================================================================== *)
(** * More of the language                                                *)
(* ===================================================================== *)
Module Builtins.
Import Py Models.

(** [xs[-1]] *)
Definition last_item (xs : list string) : result string :=
  match last xs with Some x => Ok x | None => Raise IndexError end.

(** [sorted(xs)] for texts, by insertion. *)
Fixpoint insert_sorted (x : string) (xs : list string) : list string :=
  match xs with
  | [] => [x]
  | y :: r => if String.leb x y then x :: xs else y :: insert_sorted x r
  end.

Definition sorted (xs : list string) : list string :=
  foldr insert_sorted [] xs.

(** [v[i]] for an index [i] that is not negative. *)
Definition index (v : obj) (i : nat) : result obj :=
  match v with
  | VList l =>
      match l !! i with Some x => Ok x | None => Raise IndexError end
  | VStr s =>
      match String.get i s with
      | Some c => Ok (VStr (String c EmptyString))
      | None => Raise IndexError
      end
  | VDict kv =>
      match assoc (VNum (inject_Z (Z.of_nat i))) kv with
      | Some x => Ok x
      | None => Raise KeyError
      end
  | _ => Raise TypeError
  end.

(** [len(v)] *)
Definition len (v : obj) : result nat :=
  match v with
  | VList l => Ok (length l)
  | VStr s => Ok (String.length s)
  | VDict kv => Ok (length kv)
  | _ => Raise TypeError
  end.

(** [enumerate(xs)] *)
Definition enumerate {A} (xs : list A) : list (nat * A) :=
  zip (seq 0 (length xs)) xs.

End Builtins.

(* ===================================================================== *)
(** * Calls                                                               *)
(* ===================================================================== *)
Module Call.
Import Py Models.

(** The parameters of a [def] after [self], each with its default
    ([None] here for a parameter that has none), and whether the [def]
    ends in a [**kwargs] parameter. *)
Record signature := {
  params : list (string * option obj);
  var_keyword : bool
}.

(** The positional arguments go to the first parameters; one argument too
    many raises [TypeError]. *)
Fixpoint bind_positional (params : list (string * option obj))
    (args : list obj) : result kwargs :=
  match args, params with
  | [], _ => Ok []
  | a :: args', (p, _) :: params' =>
      rest ← bind_positional params' args';
      Ok ((p, a) :: rest)
  | _ :: _, [] => Raise TypeError
  end.

Definition mem (k : string) (ks : list string) : bool :=
  existsb (String.eqb k) ks.

(** A call [f(a1, ..., k1=v1, ...)]: the values of the parameters by
    name, and the keywords left for [**kwargs]. The call raises
    [TypeError] when a keyword names a parameter that a positional
    argument has filled, when a keyword names no parameter and the [def]
    has no [**kwargs], and when a parameter without a default gets no
    value. *)
Definition bind (sg : signature) (args : list obj) (kw : kwargs)
    : result (kwargs * kwargs) :=
  positional ← bind_positional (params sg) args;
  if existsb (λ k, mem k (fst <$> positional)) (fst <$> kw) then Raise TypeError
  else
    let extra :=
      List.filter (λ p, negb (mem (fst p) (fst <$> params sg))) kw in
    if negb (var_keyword sg) && negb (is_empty extra) then Raise TypeError
    else
      bound ← for_each (λ '(p, dflt),
        match positional !! p, kw !! p, dflt with
        | Some v, _, _ => Ok [(p, v)]
        | None, Some v, _ => Ok [(p, v)]
        | None, None, Some v => Ok [(p, v)]
        | None, None, None => Raise TypeError
        end) (params sg);
      Ok (bound, extra).

(** The value of a parameter after binding. *)
Definition arg (bound : kwargs) (p : string) : obj :=
  default VNone (bound !! p).

End Call.

(* ===================================================================== *)
(** * connectors/azure_monitor.py: token, queries and services            *)
(* ===================================================================== *)
Module AzureMonitor.
Import Py Models.

(** ** The access token

    The two attributes [_get_access_token] reads and writes. A datetime
    is taken here as the seconds since some epoch, so that
    [timedelta(seconds=x)] is [x]. *)
Record token_cache := {
  access_token : obj;
  token_expires : option Q
}.

(** The attributes after [__init__]. *)
Definition fresh : token_cache :=
  {| access_token := VNone; token_expires := None |}.

(** [a < b] *)
Definition Qlt_bool (a b : Q) : bool := negb (Qle_bool b a).

(** [expires_in - 300]: defined on numbers, [TypeError] otherwise. *)
Definition minus_300 (expires_in : obj) : result Q :=
  match as_number expires_in with
  | Some q => Ok (q - 300)%Q
  | None => Raise TypeError
  end.

(** The [try] block of [_get_access_token] with its handler: the value
    returned and the attributes afterwards. [http] is what the POST to
    the token endpoint comes to, [now] the clock when the response is
    handled, and [plus t x] is [t + timedelta(seconds=x)], which raises
    outside the range of a datetime. *)
Definition request_token (self : token_cache) (now : Q)
    (plus : Q → Q → result Q) (http : http_outcome) : obj * token_cache :=
  match http with
  | HttpFail _ => (VNone, self)
  | HttpResp status body =>
      if (status =? 200)%nat then
        match body ≫= (λ token_data, get token_data "access_token" VNone
                         ≫= (λ tok, Ok (token_data, tok))) with
        | Raise _ => (VNone, self)
        | Ok (token_data, tok) =>
            let self1 :=
              {| access_token := tok; token_expires := token_expires self |} in
            match (expires_in ← get token_data "expires_in" (VNum 3600);
                   seconds ← minus_300 expires_in;
                   plus now seconds) with
            | Ok t =>
                (tok, {| access_token := tok; token_expires := Some t |})
            | Raise _ => (VNone, self1)
            end
        end
      else (VNone, self)
  end.

(** [_get_access_token]; [now0] is the clock at the test of the cached
    token. *)
Definition _get_access_token (self : token_cache) (now0 now : Q)
    (plus : Q → Q → result Q) (http : http_outcome) : obj * token_cache :=
  if truthy (access_token self)
     && match token_expires self with
        | Some t => Qlt_bool now0 t
        | None => false
        end
  then (access_token self, self)
  else request_token self now plus http.

(** ** Results of a log query *)

(** [col_type == 'datetime'] and [col_type in ['real', 'long', 'int']] *)
Definition is_datetime (col_type : obj) : bool :=
  Prometheus.eq_str col_type "datetime".

Definition is_numeric (col_type : obj) : bool :=
  existsb (Prometheus.eq_str col_type) ["real"; "long"; "int"].

(** ['time' not in col_name], for the lower-cased name. *)
Definition lacks_time (col_name : obj) : bool :=
  match col_name with VStr s => negb (str_in "time" s) | _ => true end.

(** The search for the time and the value column (lines 299-307):
    [time_col] and [value_col] after the loop. *)
Definition select_columns (columns : list obj)
    : result (option nat * option nat) :=
  for_fold (λ '(time_col, value_col) '(i, col),
      col_name ← get col "name" (VStr EmptyString) ≫= lower_obj;
      col_type ← get col "type" (VStr EmptyString);
      if is_datetime col_type && bool_decide (time_col = None)
      then Ok (Some i, value_col)
      else if is_numeric col_type && lacks_time col_name
      then Ok (time_col, Some i)
      else Ok (time_col, value_col))
    (None, None) (Builtins.enumerate columns).

(** The two tests of the search, on one column: whether it counts as a
    time column, and as a value column. *)
Definition time_column (col : obj) : bool :=
  match get col "type" (VStr EmptyString) with
  | Ok col_type => is_datetime col_type
  | Raise _ => false
  end.

Definition value_column (col : obj) : bool :=
  match get col "name" (VStr EmptyString) ≫= lower_obj,
        get col "type" (VStr EmptyString) with
  | Ok col_name, Ok col_type => is_numeric col_type && lacks_time col_name
  | _, _ => false
  end.

(** The labels of one row (lines 315-318). The right-hand side of the
    assignment is evaluated before the key. *)
Definition row_labels (L : stdlib) (columns : list obj) (row : obj)
    (time_col value_col : nat) : result (list (obj * obj)) :=
  for_fold (λ labels '(i, col),
      if (i =? time_col)%nat || (i =? value_col)%nat then Ok labels
      else
        n ← Builtins.len row;
        if (i <? n)%nat then
          v ← Builtins.index row i;
          key ← get col "name" (VStr ("col_" +:+ str_of_nat i));
          setitem key (VStr (py_str L v)) labels
        else Ok labels)
    [] (Builtins.enumerate columns).

(** The [try] block around one row (lines 311-328). *)
Definition row_sample (L : stdlib) (now : string) (columns : list obj)
    (time_col value_col : nat) (row : obj) : result (list MetricData) :=
  try_except_only [ValueError; TypeError; IndexError]
    (timestamp ← (Builtins.index row time_col ≫= replace_obj "Z" "+00:00")
                   ≫= py_fromisoformat L;
     value ← Builtins.index row value_col ≫= py_float L;
     labels ← row_labels L columns row time_col value_col;
     m ← MetricData_new now
           [ ("name", VStr "kql_result"); ("value", value);
             ("timestamp", timestamp); ("labels", VDict labels);
             ("unit", VStr "count") ];
     Ok [m])
    (λ _, Ok []).

Definition _parse_kql_results (L : stdlib) (now : string) (data : obj)
    : result (list MetricData) :=
  tables ← get data "tables" (VList []) ≫= iter;
  for_each (λ table,
    columns ← get table "columns" (VList []);
    rows ← get table "rows" (VList []);
    columns ← iter columns;
    '(time_col, value_col) ← select_columns columns;
    match time_col, value_col with
    | Some time_col, Some value_col =>
        rows ← iter rows;
        for_each (row_sample L now columns time_col value_col) rows
    | _, _ => Ok []
    end) tables.

(** ** Queries

    What [query_metrics] meets: the token [_get_access_token] returns,
    what the body of [_get_resource_metrics] comes to on its arguments,
    the outcome of the POST to the Log Analytics endpoint, and the clock a
    default factory of the model would read. *)
Record world := {
  token : obj;
  resource_metrics : obj → obj → obj → kwargs → result (list MetricData);
  kql_http : http_outcome;
  now_iso : string
}.

(** [def _get_resource_metrics(self, resource_id, metric_names, headers,
                               **kwargs)] *)
Definition _get_resource_metrics_signature : Call.signature :=
  {| Call.params := [("resource_id", None); ("metric_names", None);
                     ("headers", None)];
     Call.var_keyword := true |}.

(** [def _execute_kql_query(self, query, headers, **kwargs)] *)
Definition _execute_kql_query_signature : Call.signature :=
  {| Call.params := [("query", None); ("headers", None)];
     Call.var_keyword := true |}.

(** [def _search_and_query_resources(self, search_term, headers,
                                     **kwargs)] *)
Definition _search_and_query_resources_signature : Call.signature :=
  {| Call.params := [("search_term", None); ("headers", None)];
     Call.var_keyword := true |}.

Definition _execute_kql_query (L : stdlib) (w : world) (query headers : obj)
    (kwargs : kwargs) : result (list MetricData) :=
  try_except
    (let workspace_id := default VNone (kwargs !! "workspace_id") in
     if negb (truthy workspace_id) then Ok []
     else
       match kql_http w with
       | HttpFail e => Raise e
       | HttpResp status body =>
           if (status =? 200)%nat
           then data ← body; _parse_kql_results L (now_iso w) data
           else Ok []
       end)
    (λ _, Ok []).

Definition _search_and_query_resources (search_term headers : obj)
    (kwargs : kwargs) : result (list MetricData) :=
  Ok [].

(** [query_metrics(query, **kwargs)] *)
Definition query_metrics (L : stdlib) (w : world) (query : string)
    (kwargs : kwargs) : result (list MetricData) :=
  try_except
    (let token := token w in
     if negb (truthy token) then Ok []
     else
       let headers :=
         jobj [ ("Authorization", VStr ("Bearer " +:+ py_str L token));
                ("Content-Type", VStr "application/json") ] in
       let resource_id := default VNone (kwargs !! "resource_id") in
       if truthy resource_id then
         '(bound, extra) ←
           Call.bind _get_resource_metrics_signature
             [resource_id; VStr query; headers] kwargs;
         resource_metrics w (Call.arg bound "resource_id")
           (Call.arg bound "metric_names") (Call.arg bound "headers") extra
       else if String.prefix "Heartbeat" query || has_char "|" query then
         '(bound, extra) ←
           Call.bind _execute_kql_query_signature [VStr query; headers] kwargs;
         _execute_kql_query L w (Call.arg bound "query")
           (Call.arg bound "headers") extra
       else
         '(bound, extra) ←
           Call.bind _search_and_query_resources_signature
             [VStr query; headers] kwargs;
         _search_and_query_resources (Call.arg bound "search_term")
           (Call.arg bound "headers") extra)
    (λ _, Ok []).

(** ** Services *)

(** The entry one resource adds to the set of [get_services]. *)
Definition service_entry (L : stdlib) (resource : obj) : result (list string) :=
  resource_type ← get resource "type" (VStr EmptyString);
  name ← get resource "name" (VStr EmptyString);
  if truthy resource_type && truthy name then
    match resource_type with
    | VStr t =>
        kind ← Builtins.last_item (split_char "/" t);
        Ok [kind +:+ ": " +:+ py_str L name]
    | _ => Raise AttributeError
    end
  else Ok [].

(** [get_services]; [token] is what [_get_access_token] returns and
    [http] what the request for the resources comes to. *)
Definition get_services (L : stdlib) (token : obj) (http : http_outcome)
    : result (list string) :=
  try_except
    (if negb (truthy token) then Ok []
     else
       services ←
         match http with
         | HttpFail e => Raise e
         | HttpResp status body =>
             if (status =? 200)%nat then
               data ← body;
               resources ← get data "value" (VList []) ≫= iter;
               for_each (service_entry L) resources
             else Ok []
         end;
       Ok (take 50 (Builtins.sorted (list_set services))))
    (λ _, Ok []).

End AzureMonitor.

(* ===================================================================== *)
(** * connectors/prometheus.py: services                                  *)
(* ===================================================================== *)
Module PrometheusServices.
Import Py Models.

Definition services_query : string :=
  "group by (job) ({__name__=~" +:+ dq +:+ ".+" +:+ dq +:+ "})".

(** [get_services] *)
Definition get_services (L : stdlib) (self : Prometheus.PrometheusConnector)
    (w : Prometheus.world) : result (list string) :=
  try_except
    (metrics ← Prometheus.query_metrics L self w services_query [];
     services ← for_each (λ metric,
       labels ← MetricData_getattr metric "labels";
       job ← get labels "job" VNone;
       if truthy job then Ok [py_str L job] else Ok []) metrics;
     Ok (Builtins.sorted (list_set services)))
    (λ _, Ok []).

End PrometheusServices.

(* ===================================================================== *)
(** * ai/conversation_engine.py: the handlers                             *)
(* ===================================================================== *)
Module Handlers.
Import Py Models.

(** [_no_data_response] *)
Definition _no_data_response (parsed_query : NLP.Components) : string :=
  let query := NLP.original_query parsed_query in
  let services := NLP.services parsed_query in
  let metrics := NLP.metrics parsed_query in
  let suggestions :=
    ((if is_empty services then []
      else ["Check if the service " +:+ sq +:+ join ", " services +:+ sq
            +:+ " is running"])
     ++
     (if is_empty metrics then []
      else ["Verify that metrics " +:+ sq +:+ join ", " metrics +:+ sq
            +:+ " are being collected"]))%list in
  let base_response :=
    "No data found for your query: " +:+ sq +:+ query +:+ sq in
  if is_empty suggestions then
    base_response +:+ nl +:+ nl
      +:+ "Try asking about available services or check system health."
  else
    base_response +:+ nl +:+ nl +:+ "Suggestions:" +:+ nl
      +:+ join nl ((λ s, "- " +:+ s) <$> suggestions).

(** [_handle_metrics_query]. The connectors are taken from the manager by
    name with [get_connector]; [all_results] is a dict, kept as its items
    in insertion order. *)
Definition _handle_metrics_query (L : stdlib) (llm : string → result string)
    (connectors : list (string * Manager.BaseConnector))
    (parsed_query : NLP.Components) (context : obj) : string :=
  match
    (let metrics := NLP.metrics parsed_query in
     let time_range := NLP.time_range parsed_query in
     let all_results : list (string * list MetricData) := [] in
     all_results ←
       match Manager.get_connector connectors "prometheus" with
       | Some prometheus_conn =>
           match NLP.generate_prometheus_query parsed_query with
           | Some prom_query =>
               if NLP.nonempty prom_query then
                 prom_results ←
                   Manager.query_metrics prometheus_conn prom_query
                     [("time_range", VStr time_range)];
                 Ok (if is_empty prom_results then all_results
                     else Manager.dict_set "prometheus" prom_results all_results)
               else Ok all_results
           | None => Ok all_results
           end
       | None => Ok all_results
       end;
     all_results ←
       match Manager.get_connector connectors "azure_monitor" with
       | Some azure_conn =>
           if negb (is_empty metrics) then
             azure_results ←
               Manager.query_metrics azure_conn (join "," metrics)
                 [("timespan",
                   VNum (if String.eqb time_range "1h" then 1 else 24))];
             Ok (if is_empty azure_results then all_results
                 else Manager.dict_set "azure_monitor" azure_results all_results)
           else Ok all_results
       | None => Ok all_results
       end;
     let all_metrics_data := concat (snd <$> all_results) in
     if is_empty all_metrics_data then Ok (_no_data_response parsed_query)
     else
       Ok (NLP.generate_response L llm (NLP.original_query parsed_query)
             all_metrics_data []
             (jobj [ ("time_range", VStr time_range);
                     ("connectors", Engine.str_list (fst <$> all_results)) ])))
  with
  | Ok response => response
  | Raise e => "I couldn" +:+ sq +:+ "t retrieve the metrics data. Error: "
               +:+ exn_str L e
  end.

(** The dict [get_all_alerts] returns, as its items in insertion order. *)
Definition all_alerts_results (connectors : list (string * Manager.BaseConnector))
    : list (string * list AlertData) :=
  foldl (λ results connector,
           Manager.dict_set (Manager.name connector)
             (Manager.entry (Manager.get_active_alerts connector) []) results)
        [] (Manager.get_healthy_connectors connectors).

(** [_handle_alerts_query]. [get_all_alerts] does not raise, and neither
    does [generate_response], so the [except] branch does not appear. *)
Definition _handle_alerts_query (L : stdlib) (llm : string → result string)
    (connectors : list (string * Manager.BaseConnector))
    (parsed_query : NLP.Components) (context : obj) : string :=
  let all_alerts_results := all_alerts_results connectors in
  let all_alerts := concat (snd <$> all_alerts_results) in
  if is_empty all_alerts then
    "Great news! No active alerts found in your monitoring systems."
  else
    NLP.generate_response L llm (NLP.original_query parsed_query) []
      all_alerts
      (jobj [("connectors", Engine.str_list (fst <$> all_alerts_results))]).

End Handlers.

(* ===================================================================== *)
(** * main.py                                                             *)
(* ===================================================================== *)
Module Api.
Import Py Models.

(** [class HealthResponse(BaseModel)]; the endpoint sets [status],
    [timestamp], [checks] and [version], which are all the required
    fields. [checks] is a dict, kept as its items in insertion order. *)
Record HealthResponse := {
  h_status : string;
  h_timestamp : string;
  checks : list (string * string);
  version : string
}.

(** The dict [health_check_all] returns, as its items in insertion
    order. *)
Definition connector_health (connectors : list (string * Manager.BaseConnector))
    : list (string * bool) :=
  foldl (λ results '(n, c), Manager.dict_set n (Manager.passed c) results)
        [] connectors.

(** [health_check] of the [/health] endpoint. [ping] is what
    [get_redis_client()] followed by [ping()] comes to,
    [connector_manager] the manager's connectors, or [None] before
    initialization, [conversation_engine] whether the engine is set.
    [health_check_all] does not raise, so the handler around the connector
    checks does not appear, and neither does the outer one. *)
Definition health_check (L : stdlib) (utcnow : string) (ping : result Datatypes.unit)
    (connector_manager : option (list (string * Manager.BaseConnector)))
    (conversation_engine : bool) : HealthResponse :=
  let checks : list (string * string) := [] in
  let overall_status := "healthy" in
  let '(checks, overall_status) :=
    match ping with
    | Ok _ => (Manager.dict_set "redis" "healthy" checks, overall_status)
    | Raise e =>
        (Manager.dict_set "redis" ("unhealthy: " +:+ exn_str L e) checks,
         "unhealthy")
    end in
  let '(checks, overall_status) :=
    match connector_manager with
    | Some connectors =>
        let connector_health := connector_health connectors in
        let '(checks, overall_status) :=
          foldl (λ '(checks, overall_status) '(name, healthy),
                   if healthy : bool then
                     (Manager.dict_set ("connector_" +:+ name) "healthy" checks,
                      overall_status)
                   else
                     (Manager.dict_set ("connector_" +:+ name) "unhealthy" checks,
                      "degraded"))
                (checks, overall_status) connector_health in
        if is_empty connector_health then
          (Manager.dict_set "connectors" "none_configured" checks, "degraded")
        else (checks, overall_status)
    | None =>
        (Manager.dict_set "connectors" "not_initialized" checks, "unhealthy")
    end in
  let '(checks, overall_status) :=
    if conversation_engine then
      (Manager.dict_set "conversation_engine" "healthy" checks, overall_status)
    else
      (Manager.dict_set "conversation_engine" "not_configured" checks,
       "degraded") in
  {| h_status := overall_status; h_timestamp := utcnow; checks := checks;
     version := "1.0.0" |}.

(** [def process_message(self, message: str, session_id: str,
                         user_context: Dict[str, Any] = None)] *)
Definition process_message_signature : Call.signature :=
  {| Call.params := [("message", None); ("session_id", None);
                     ("user_context", Some VNone)];
     Call.var_keyword := false |}.

(** [conversation_engine.process_message(...)] called with the keywords
    [kw]. The endpoint passes texts for the first two parameters. *)
Definition call_process_message (L : stdlib) (t : Engine.turn)
    (r : Engine.redis) (kw : kwargs) : result ChatMessage * Engine.redis :=
  match Call.bind process_message_signature [] kw with
  | Ok (bound, _) =>
      match Call.arg bound "message", Call.arg bound "session_id" with
      | VStr message, VStr session_id =>
          Engine.process_message L t r message session_id
            (Call.arg bound "user_context")
      | _, _ => (Raise TypeError, r)
      end
  | Raise e => (Raise e, r)
  end.

(** [class ChatRequest(BaseModel)] *)
Record ChatRequest := {
  message : string;
  session_id : option string;
  context : option (list (obj * obj))
}.

(** [class ChatResponse(BaseModel)], with the fields the endpoint sets;
    the others take their defaults. *)
Record ChatResponse := {
  r_message : string;
  r_session_id : string;
  r_query_type : option string;
  r_timestamp : string;
  r_processing_time : option Q
}.

(** [request.session_id or "default"] *)
Definition session_or_default (request : ChatRequest) : string :=
  match session_id request with
  | Some s => if NLP.nonempty s then s else "default"
  | None => "default"
  end.

(** The [chat] endpoint: the response and the session store after it.
    [conversation_engine] is the engine with what its turn meets, or
    [None]; [current_user] is the user dict or [None]. Whatever the call
    of the engine comes to, the [try] block raises: the call raises [e],
    or it returns a [ChatMessage], which has no field [processing_time],
    and the assignment to it raises [ValueError]. *)
Definition chat (L : stdlib) (utcnow : string)
    (conversation_engine : option Engine.turn) (r : Engine.redis)
    (request : ChatRequest) (current_user : option (list (obj * obj)))
    : ChatResponse * Engine.redis :=
  match conversation_engine with
  | None =>
      ({| r_message :=
            "I" +:+ sq +:+ "m not fully configured yet. Please check that your OpenAI API key and monitoring sources are set up correctly in the .env file.";
          r_session_id := session_or_default request;
          r_query_type := None; r_timestamp := utcnow;
          r_processing_time := Some 0%Q |}, r)
  | Some engine =>
      let user_id :=
        match current_user with
        | Some (_ :: _ as d) => default VNone (assoc (VStr "user_id") d)
        | _ => VStr "anonymous"
        end in
      let '(response, r') :=
        call_process_message L engine r
          [ ("message", VStr (message request));
            ("session_id", VStr (session_or_default request));
            ("user_id", user_id);
            ("context", VDict (default [] (context request))) ] in
      let e := match response with Ok _ => ValueError | Raise e => e end in
      ({| r_message :=
            "I encountered an error processing your request: "
            +:+ exn_str L e
            +:+ ". Please try again or check your configuration.";
          r_session_id := session_or_default request;
          r_query_type := None; r_timestamp := utcnow;
          r_processing_time := Some 0%Q |}, r')
  end.

End Api.

(* ===================================================================== *)
(** * Values used in the examples                                         *)
(* ===================================================================== *)
Module Examples.
Import Py Models.

Definition digits_only (s : string) : bool :=
  match s with
  | EmptyString => false
  | _ => String.eqb (fst (span is_digit s)) s
  end.

(** A text whose first ten characters read YYYY-MM-DD. *)
Definition date_prefix (s : string) : bool :=
  match split_char "-" (String.substring 0 10 s) with
  | [y; m; d] =>
      digits_only y && digits_only m && digits_only d
      && (String.length y =? 4)%nat && (String.length m =? 2)%nat
  | _ => false
  end.

(** A library for the examples: texts that start with a date parse as a
    datetime, a non-empty run of digits parses as a number, every value prints as
    [?] and every document decodes to an empty object. *)
Definition lib : stdlib :=
  {| fromisoformat := λ s, if date_prefix s then Some s else None;
     float_of_str := λ s,
       if digits_only s
       then (λ u, inject_Z (Z.of_N (N.of_uint u))) <$> NilEmpty.uint_of_string s
       else None;
     fromtimestamp := λ _, Ok "1970-01-01T00:00:00";
     format_2f := λ _, "0.00";
     json_dumps := λ _, Ok "{}";
     json_loads := λ _, Ok (VDict []);
     repr := λ _, "?";
     exn_str := λ _, "error" |}.

(** A connector by name, with what its health check and its metric query
    come to. *)
Definition connector (n : string) (h : result bool)
    (q : result (list MetricData)) : Manager.BaseConnector :=
  {| Manager.name := n; Manager.health_check := h;
     Manager.query_metrics := λ _ _, q;
     Manager.get_active_alerts := Ok [];
     Manager.get_services := Ok [];
     Manager.get_metrics_list := Ok [] |}.

Definition up_sample : MetricData :=
  {| metric_name := "up"; values := []; m_labels := [("job", "api")];
     query := "up"; m_timestamp := "2024-01-01T00:00:00"; unit := None;
     description := None |}.

(** Four connectors: healthy with data, healthy but the query times out,
    health check false, health check raising. *)
Definition four_connectors : list (string * Manager.BaseConnector) :=
  [ ("a", connector "a" (Ok true) (Ok [up_sample]));
    ("b", connector "b" (Ok true) (Raise TimeoutError));
    ("c", connector "c" (Ok false) (Ok [up_sample]));
    ("d", connector "d" (Raise OtherError) (Ok [up_sample])) ].

(** An Azure metrics response with one metric, one time series and the
    given data points. *)
Definition metrics_payload (points : list obj) : obj :=
  jobj [ ("value", VList [
    jobj [ ("name", jobj [("value", VStr "Percentage CPU")]);
           ("unit", VStr "Percent");
           ("timeseries", VList [ jobj [ ("data", VList points) ] ]) ] ]) ].

(** A point whose only aggregate is an average of 0.0. *)
Definition zero_average_point : obj :=
  jobj [ ("timeStamp", VStr "2024-01-01T00:00:00Z"); ("average", VNum 0) ].

(** A point with an average of 0.0 and a maximum of 5.0. *)
Definition zero_average_max_point : obj :=
  jobj [ ("timeStamp", VStr "2024-01-01T00:00:00Z");
         ("average", VNum 0); ("maximum", VNum 5) ].

Definition resource_id : string :=
  "/subscriptions/s1/resourceGroups/rg/providers/Microsoft.Compute/virtualMachines/vm1".

(** A message as [models.py] declares it. *)
Definition hello : ChatMessage :=
  {| type := USER; content := "hello";
     timestamp := "2024-01-01T00:00:00"; metadata := None |}.

(** A reachable, empty session store. *)
Definition empty_store : Engine.redis :=
  {| Engine.up := true; Engine.lists := ∅; Engine.expiry := ∅ |}.



(** A language model whose call times out. *)
Definition failing_llm (prompt : string) : result string := Raise TimeoutError.

(** The question of the scenario: what's the memory usage for service
    'checkout', with its three apostrophes. *)
Definition memory_question : string :=
  "what" +:+ sq +:+ "s the memory usage for service " +:+ sq +:+ "checkout" +:+ sq.


(** A health descriptor without metric names. *)
Definition health_descriptor : NLP.Components :=
  {| NLP.intent := "health"; NLP.metrics := []; NLP.services := [];
     NLP.time_range := "1h"; NLP.aggregation := "avg"; NLP.filters := [];
     NLP.query_type := "health"; NLP.original_query := "is everything healthy" |}.


Definition cpu_alert : AlertData :=
  {| alert_name := "HighCPU"; severity := "critical"; status := "firing";
     a_labels := [("job", "api")]; annotations := [];
     active_at := "2024-01-01T00:00:00"; value := None; fingerprint := None |}.

(** A connector by name, with what its health check, its alert call and
    its two enumerations come to. *)
Definition source (n : string) (h : result bool)
    (alerts : result (list AlertData)) (services names : result (list string))
    : Manager.BaseConnector :=
  {| Manager.name := n; Manager.health_check := h;
     Manager.query_metrics := λ _ _, Ok [];
     Manager.get_active_alerts := alerts;
     Manager.get_services := services;
     Manager.get_metrics_list := names |}.

(** Three sources: healthy with one alert and two services; healthy, but
    the alert call and the service enumeration time out; unhealthy. *)
Definition three_sources : list (string * Manager.BaseConnector) :=
  [ ("prometheus",
     source "prometheus" (Ok true) (Ok [cpu_alert]) (Ok ["api"; "db"]) (Ok ["up"]));
    ("azure_monitor",
     source "azure_monitor" (Ok true) (Raise TimeoutError) (Raise TimeoutError)
            (Ok Azure.common_metrics));
    ("spare",
     source "spare" (Ok false) (Ok [cpu_alert]) (Ok ["cache"]) (Ok [])) ].

End Examples.

(* ===================================================================== *)
(** * Notions of the specification                                        *)
(* ===================================================================== *)
Module Spec.


(** The deterministic baseline of the parser: what the keyword stage alone
    gives, with the fixed values of the fields only the model can set. *)
Definition baseline (query : string)
    (available_services available_metrics : list string) : NLP.Components :=
  {| NLP.intent := "unknown";
     NLP.metrics := NLP._extract_metrics query available_metrics;
     NLP.services := NLP._extract_services query available_services;
     NLP.time_range := NLP._extract_time_range query;
     NLP.aggregation := NLP._extract_aggregation query;
     NLP.filters := [];
     NLP.query_type := "metrics";
     NLP.original_query := query |}.




(** The firing-alerts selector and the liveness metric. *)
Definition firing_alerts : string :=
  "ALERTS{alertstate=" +:+ Py.dq +:+ "firing" +:+ Py.dq +:+ "}".


(** The regex-alternation matcher on the job label. *)
Definition job_matcher (services : list string) : string :=
  "job=~" +:+ Py.dq +:+ Py.join "|" services +:+ Py.dq.

End Spec.

(* ===================================================================== *)
(** * Properties                                                          *)
(* ===================================================================== *)
Import Py Models.

(** ** Fan-out over the healthy connectors *)

Section FanOut.
Context {B V : Type} (f : B → string) (g : B → V).
#[local] Abbreviation fan := (Manager.fan f g).

Lemma fan_lookup_other l : ∀ m n,
  n ∉ f <$> l → fan m l !! n = m !! n.
Proof.
  induction l as [|c l IH]; intros m n Hn; [done|].
  cbn in *. apply not_elem_of_cons in Hn as [Hne Hn].
  unfold fan in IH. rewrite IH by done. by rewrite lookup_insert_ne.
Qed.

Lemma fan_lookup_elem l : ∀ m c,
  NoDup (f <$> l) → c ∈ l → fan m l !! f c = Some (g c).
Proof.
  induction l as [|d l IH]; intros m c Hnd Hc; [by apply elem_of_nil in Hc|].
  cbn in *. apply NoDup_cons in Hnd as [Hd Hnd].
  apply elem_of_cons in Hc as [->|Hc].
  - fold (fan (<[f d:=g d]> m) l). rewrite fan_lookup_other by done.
    apply lookup_insert_eq.
  - by apply IH.
Qed.

Lemma fan_lookup_inv l m n :
  is_Some (fan m l !! n) → is_Some (m !! n) ∨ ∃ c, c ∈ l ∧ f c = n.
Proof.
  intros Hs. destruct (decide (n ∈ f <$> l)) as [Hin|Hout].
  - right. apply list_elem_of_fmap in Hin as (c & -> & Hc). eauto.
  - left. by rewrite fan_lookup_other in Hs.
Qed.

Lemma fan_size l : ∀ m,
  NoDup (f <$> l) → (∀ c, c ∈ l → m !! f c = None) →
  size (fan m l) = (size m + length l)%nat.
Proof.
  induction l as [|d l IH]; intros m Hnd Hm; cbn.
  - lia.
  - apply NoDup_cons in Hnd as [Hd Hnd].
    fold (fan (<[f d:=g d]> m) l). rewrite IH; [|done|].
    + rewrite map_size_insert_None; [lia|]. apply Hm. by left.
    + intros c Hc. rewrite lookup_insert_ne; [apply Hm; by right|].
      intros Heq. apply Hd. rewrite Heq. by apply list_elem_of_fmap_2.
Qed.
End FanOut.

Lemma elem_of_bfilter {A} (p : A → bool) (l : list A) (x : A) :
  x ∈ List.filter p l ↔ x ∈ l ∧ p x = true.
Proof. rewrite !list_elem_of_In. apply filter_In. Qed.

Lemma NoDup_fmap_bfilter {A K} (f : A → K) (p : A → bool) (l : list A) :
  NoDup (f <$> l) → NoDup (f <$> List.filter p l).
Proof.
  induction l as [|x l IH]; cbn; [done|].
  intros [Hx Hl]%NoDup_cons. destruct (p x); cbn; [|by apply IH].
  apply NoDup_cons. split; [|by apply IH].
  intros (y & Hy & Hin)%list_elem_of_fmap. apply Hx.
  rewrite Hy. apply list_elem_of_fmap_2. by apply elem_of_bfilter in Hin as [? _].
Qed.

Lemma NoDup_fmap_inj {A K} (f : A → K) (l : list A) (x y : A) :
  NoDup (f <$> l) → x ∈ l → y ∈ l → f x = f y → x = y.
Proof.
  induction l as [|z l IH]; [by intros _ ?%elem_of_nil|].
  cbn. intros [Hz Hl]%NoDup_cons Hx Hy Heq.
  apply elem_of_cons in Hx as [->|Hx]; apply elem_of_cons in Hy as [->|Hy];
    [done| | |by apply IH].
  - exfalso. apply Hz. rewrite Heq. by apply list_elem_of_fmap_2.
  - exfalso. apply Hz. rewrite <- Heq. by apply list_elem_of_fmap_2.
Qed.

(** The entry of a configured connector in the fan-out of metric queries. *)
Lemma fanout_lookup_connector
    (connectors : list (string * Manager.BaseConnector))
    (query : string) (kw : kwargs) (c : Manager.BaseConnector) :
  NoDup (Manager.name <$> (snd <$> connectors)) →
  c ∈ snd <$> connectors →
  Manager.query_all_connectors connectors query kw !! Manager.name c
  = if Manager.passed c
    then Some (Manager.entry (Manager.query_metrics c query kw) [])
    else None.
Proof.
  intros Hnd Hc.
  set (g := λ c, Manager.entry (Manager.query_metrics c query kw) []).
  destruct (Manager.passed c) eqn:Hp.
  - apply (fan_lookup_elem Manager.name g).
    + by apply NoDup_fmap_bfilter.
    + by apply elem_of_bfilter.
  - apply eq_None_not_Some. intros Hs.
    apply (fan_lookup_inv Manager.name g) in Hs as [Hs|(d & Hd & Heq)].
    + rewrite lookup_empty in Hs. by destruct Hs.
    + apply elem_of_bfilter in Hd as [Hd Hpd].
      assert (d = c) as ->
        by (by apply (NoDup_fmap_inj Manager.name (snd <$> connectors))).
      congruence.
Qed.

(** Every entry of the fan-out belongs to a healthy connector. *)
Lemma fanout_lookup_is_Some
    (connectors : list (string * Manager.BaseConnector))
    (query : string) (kw : kwargs) (n : string) :
  is_Some (Manager.query_all_connectors connectors query kw !! n) →
  ∃ c, c ∈ snd <$> connectors ∧ Manager.passed c = true ∧ Manager.name c = n.
Proof.
  intros Hs.
  apply (fan_lookup_inv Manager.name
           (λ c, Manager.entry (Manager.query_metrics c query kw) []))
    in Hs as [Hs|(d & Hd & Heq)].
  - rewrite lookup_empty in Hs. by destruct Hs.
  - apply elem_of_bfilter in Hd as [Hd Hpd]. eauto.
Qed.

(** C1. [query_all_connectors] returns a map with exactly one entry per
    connector whose health check passed. The entry of a healthy connector
    is what its own [query_metrics] returned, and the empty list when that
    call raised or timed out, whatever the other connectors did; a
    connector whose health check returned false or raised has no entry;
    every entry belongs to a healthy connector; and the map has as many
    entries as there are healthy connectors. The names of the configured
    connectors are distinct, as the keys of [self.connectors] are. *)
Theorem query_all_connectors_one_entry_per_healthy
    (connectors : list (string * Manager.BaseConnector))
    (query : string) (kw : kwargs) :
  NoDup (Manager.name <$> (snd <$> connectors)) →
  let results := Manager.query_all_connectors connectors query kw in
  (∀ c, c ∈ snd <$> connectors → Manager.passed c = true →
        results !! Manager.name c
        = Some (Manager.entry (Manager.query_metrics c query kw) []))
  ∧ (∀ c e, c ∈ snd <$> connectors → Manager.passed c = true →
        Manager.query_metrics c query kw = Raise e →
        results !! Manager.name c = Some [])
  ∧ (∀ c, c ∈ snd <$> connectors → Manager.passed c = false →
        results !! Manager.name c = None)
  ∧ (∀ n, is_Some (results !! n) →
        ∃ c, c ∈ snd <$> connectors ∧ Manager.passed c = true
             ∧ Manager.name c = n)
  ∧ size results = length (Manager.get_healthy_connectors connectors).
Proof.
  intros Hnd results.
  assert (H1 : ∀ c, c ∈ snd <$> connectors → Manager.passed c = true →
                    results !! Manager.name c
                    = Some (Manager.entry (Manager.query_metrics c query kw) [])).
  { intros c Hc Hp. unfold results.
    rewrite fanout_lookup_connector by done. by rewrite Hp. }
  split; [exact H1|]. split.
  { intros c e Hc Hp He. rewrite H1 by done. by rewrite He. }
  split.
  { intros c Hc Hp. unfold results.
    rewrite fanout_lookup_connector by done. by rewrite Hp. }
  split; [apply fanout_lookup_is_Some|].
  unfold results, Manager.query_all_connectors.
  etrans; [apply (fan_size Manager.name
                    (λ c, Manager.entry (Manager.query_metrics c query kw) []) _ ∅)|].
  - by apply NoDup_fmap_bfilter.
  - intros. apply lookup_empty.
  - by rewrite map_size_empty.
Qed.

Lemma query_all_connectors_witness :
  NoDup (Manager.name <$> (snd <$> Examples.four_connectors))
  ∧ Manager.query_all_connectors Examples.four_connectors "up" [] !! "a"
    = Some [Examples.up_sample]
  ∧ Manager.query_all_connectors Examples.four_connectors "up" [] !! "b"
    = Some []
  ∧ Manager.query_all_connectors Examples.four_connectors "up" [] !! "c" = None
  ∧ Manager.query_all_connectors Examples.four_connectors "up" [] !! "d" = None
  ∧ size (Manager.query_all_connectors Examples.four_connectors "up" []) = 2.
Proof.
  assert (Hnd : NoDup (Manager.name <$> (snd <$> Examples.four_connectors))).
  { apply (bool_decide_unpack _). vm_compute. exact I. }
  split; [exact Hnd|].
  destruct (query_all_connectors_one_entry_per_healthy
              Examples.four_connectors "up" [] Hnd) as (H1 & H2 & H3 & _ & H5).
  split.
  { apply (H1 (Examples.connector "a" (Ok true) (Ok [Examples.up_sample])));
      [|reflexivity].
    apply list_elem_of_In. cbn. tauto. }
  split.
  { apply (H2 (Examples.connector "b" (Ok true) (Raise TimeoutError)) TimeoutError);
      [|reflexivity|reflexivity].
    apply list_elem_of_In. cbn. tauto. }
  split.
  { apply (H3 (Examples.connector "c" (Ok false) (Ok [Examples.up_sample])));
      [|reflexivity].
    apply list_elem_of_In. cbn. tauto. }
  split.
  { apply (H3 (Examples.connector "d" (Raise OtherError) (Ok [Examples.up_sample])));
      [|reflexivity].
    apply list_elem_of_In. cbn. tauto. }
  exact H5.
Defined.

(** The connector set [_initialize_connectors] builds has distinct names,
    whatever the settings. *)
Lemma initialize_connectors_names_distinct (s : Manager.Settings)
    (prom azure : Manager.BaseConnector) :
  NoDup (Manager.name <$> (snd <$> Manager._initialize_connectors s prom azure)).
Proof.
  unfold Manager._initialize_connectors.
  destruct (negb _), (_ && _); cbn;
    repeat (apply NoDup_cons; split); try apply NoDup_nil;
    rewrite ?elem_of_cons, ?elem_of_nil; intuition congruence.
Qed.

(** X1. A failing query of one connector leaves every other entry as it is:
    two connector sets that differ in what the query of one connector
    comes to give the same entry to every other name. *)
Lemma query_all_connectors_isolated
    (connectors connectors' : list (string * Manager.BaseConnector))
    (query : string) (kw : kwargs) (n : string) :
  NoDup (Manager.name <$> (snd <$> connectors)) →
  NoDup (Manager.name <$> (snd <$> connectors')) →
  Forall2 (λ c c', Manager.name c = Manager.name c'
                   ∧ Manager.passed c = Manager.passed c'
                   ∧ (Manager.name c ≠ n →
                      Manager.query_metrics c query kw
                      = Manager.query_metrics c' query kw))
          (snd <$> connectors) (snd <$> connectors') →
  ∀ k, k ≠ n →
    Manager.query_all_connectors connectors query kw !! k
    = Manager.query_all_connectors connectors' query kw !! k.
Proof.
  intros Hnd Hnd' Hrel k Hk.
  destruct (Manager.query_all_connectors connectors query kw !! k) as [v|] eqn:E.
  - destruct (fanout_lookup_is_Some connectors query kw k) as (c & Hc & Hp & <-);
      [by rewrite E|].
    apply list_elem_of_lookup in Hc as [i Hi].
    eapply Forall2_lookup_l in Hrel as (c' & Hi' & Hn' & Hp' & Hq); [|exact Hi].
    rewrite fanout_lookup_connector in E; [|done|by eapply list_elem_of_lookup_2].
    rewrite Hn', fanout_lookup_connector; [|done|by eapply list_elem_of_lookup_2].
    rewrite <- Hp', <- Hq by done. congruence.
  - destruct (Manager.query_all_connectors connectors' query kw !! k)
      as [v'|] eqn:E'; [|done].
    destruct (fanout_lookup_is_Some connectors' query kw k) as (c' & Hc' & Hp' & <-);
      [by rewrite E'|].
    apply list_elem_of_lookup in Hc' as [i Hi'].
    eapply Forall2_lookup_r in Hrel as (c & Hi & Hn & Hp & Hq); [|exact Hi'].
    rewrite <- Hn in E.
    rewrite fanout_lookup_connector in E; [|done|by eapply list_elem_of_lookup_2].
    rewrite Hp, Hp' in E. done.
Qed.

(** ** The metric names of the Azure connector *)

(** C10. [get_metrics_list] of the Azure connector returns the same list
    of fourteen names, the first of them [Percentage CPU], for every
    connector state (credentials, cached token) and every state of the
    world: it never raises and its result depends on no remote answer. *)
Theorem azure_get_metrics_list_constant
    (self self' : Azure.AzureMonitorConnector) (w w' : Azure.world) :
  Azure.get_metrics_list self w = Ok Azure.common_metrics
  ∧ Azure.get_metrics_list self w = Azure.get_metrics_list self' w'
  ∧ length Azure.common_metrics = 14
  ∧ head Azure.common_metrics = Some "Percentage CPU"
  ∧ NoDup Azure.common_metrics.
Proof.
  repeat split; try reflexivity.
  apply (bool_decide_unpack _). vm_compute. exact I.
Qed.

(** ** Construction of the pydantic models *)

(** [type] is a required field of [ChatMessage]. *)
Lemma ChatMessage_new_requires_type (now : string) (kw : kwargs) :
  kw !! "type" = None → ChatMessage_new now kw = Raise ValidationError.
Proof.
  intros H. unfold ChatMessage_new, field at 1. rewrite H. reflexivity.
Qed.

(** [metric_name] is a required field of [MetricData]. *)
Lemma MetricData_new_requires_metric_name (now : string) (kw : kwargs) :
  kw !! "metric_name" = None → MetricData_new now kw = Raise ValidationError.
Proof.
  intros H. unfold MetricData_new, field at 1. rewrite H. reflexivity.
Qed.

(** [alert_name] is a required field of [AlertData]. *)
Lemma AlertData_new_requires_alert_name (kw : kwargs) :
  kw !! "alert_name" = None → AlertData_new kw = Raise ValidationError.
Proof.
  intros H. unfold AlertData_new, field at 1. rewrite H. reflexivity.
Qed.

Lemma bind_raise {A B} (m : result A) (f : A → result B) :
  (∀ a, ∃ e, f a = Raise e) → ∃ e, m ≫= f = Raise e.
Proof.
  intros Hf. destruct m as [a|e]; cbn; [apply Hf|eauto].
Qed.

Lemma for_each_nothing {A B} (f : A → result (list B)) (l : list A) :
  (∀ x, f x = Ok [] ∨ ∃ e, f x = Raise e) →
  for_each f l = Ok [] ∨ ∃ e, for_each f l = Raise e.
Proof.
  intros Hf. induction l as [|x l IH]; cbn; [by left|].
  destruct (Hf x) as [->|[e ->]]; [|eauto].
  destruct IH as [->|[e ->]]; eauto.
Qed.

(** ** The conversation engine *)

(** C8. [process_message] does not return a message: the first statement
    builds [ChatMessage(content=..., sender=..., timestamp=...)], the model
    requires [type], the call raises [ValidationError]; the [except] branch
    builds its message the same way and raises in turn. For every text,
    session, store and turn the call raises and the store is left as it
    was. *)
Theorem process_message_always_raises (L : stdlib) (t : Engine.turn)
    (r : Engine.redis) (message session_id : string) (user_context : obj) :
  Engine.process_message L t r message session_id user_context
  = (Raise ValidationError, r).
Proof.
  unfold Engine.process_message.
  rewrite ChatMessage_new_requires_type by reflexivity.
  unfold Engine.error_path.
  rewrite ChatMessage_new_requires_type by reflexivity.
  reflexivity.
Qed.

(** [_store_message] reads [message.sender]; a [ChatMessage] has no such
    attribute, the [AttributeError] is caught and logged, and nothing is
    written. *)
Lemma store_message_no_effect (L : stdlib) (r : Engine.redis)
    (session_id : string) (message : ChatMessage) :
  Engine._store_message L r session_id message = r.
Proof.
  unfold Engine._store_message.
  destruct (ChatMessage_getattr message "content"); reflexivity.
Qed.

(** [_get_conversation_history] rebuilds each entry with
    [ChatMessage(content=..., sender=..., ...)]: an entry that decodes makes
    the call raise [ValidationError], which the inner [except] does not
    catch and the outer one turns into the empty list. *)
Lemma history_empty (L : stdlib) (now : string) (r : Engine.redis)
    (session_id : string) (limit : Z) :
  Engine._get_conversation_history L now r session_id limit = [].
Proof.
  unfold Engine._get_conversation_history.
  destruct (Engine.lrange _ _ r) as [msgs|e]; [|reflexivity]. cbn.
  match goal with |- context [for_each ?f msgs] =>
    destruct (for_each_nothing f msgs) as [->|[e ->]] end; try reflexivity.
  intros x.
  match goal with |- context [try_except_only _ ?b _] =>
    assert (∃ e, b = Raise e) as [e ->] end.
  { do 5 (apply bind_raise; intros ?). by exists ValidationError. }
  unfold try_except_only. destruct (existsb (isa e) _); eauto.
Qed.

(** C5. A message handed to [_store_message] is not retrievable: the store
    is the same after the call, and [_get_conversation_history] returns
    the empty list, for every session, message, store and limit. *)
Theorem stored_message_not_retrievable (L : stdlib) (now : string)
    (r : Engine.redis) (session_id : string) (message : ChatMessage)
    (limit : Z) :
  Engine._store_message L r session_id message = r
  ∧ Engine._get_conversation_history L now
      (Engine._store_message L r session_id message) session_id limit = [].
Proof.
  split; [apply store_message_no_effect|apply history_empty].
Qed.

(** On the example: after storing [hello] in the empty store the session
    has no list, and the history read is empty. *)
Example hello_is_lost :
  Engine.lists (Engine._store_message Examples.lib Examples.empty_store
                  "s1" Examples.hello) !! "conversation:s1" = None
  ∧ Engine._get_conversation_history Examples.lib "2024-01-01T00:00:01"
      (Engine._store_message Examples.lib Examples.empty_store "s1" Examples.hello)
      "s1" 10 = [].
Proof. split; reflexivity. Qed.


(** ** Azure metric points *)

(** A zero average is never the selected value of a point: the selection
    goes on to the maximum, and a point with no other aggregate selects
    [None]. *)
Lemma point_value_zero_average (kv : list (obj * obj)) :
  assoc (VStr "average") kv = Some (VNum 0) →
  Azure.point_value (VDict kv)
  = Ok (py_or (default VNone (assoc (VStr "maximum") kv))
          (py_or (default VNone (assoc (VStr "minimum") kv))
                 (default VNone (assoc (VStr "total") kv)))).
Proof.
  intros Ha. unfold Azure.point_value, get. cbn. rewrite Ha. cbn.
  unfold py_or.
  destruct (truthy (default VNone (assoc (VStr "maximum") kv))); [done|].
  by destruct (truthy (default VNone (assoc (VStr "minimum") kv))).
Qed.

(** C6. A point whose average is 0.0 is not kept: [0.0 or ...] moves on to
    the next aggregate. With no other aggregate the selected value is
    [None] and the point yields no sample; with a maximum of 5.0 the
    selected value is 5.0, not the average. *)
Theorem azure_zero_average_not_selected :
  Azure.point_value Examples.zero_average_point = Ok VNone
  ∧ Azure._parse_azure_metrics Examples.lib "2024-01-01T00:00:01"
      (Examples.metrics_payload [Examples.zero_average_point])
      Examples.resource_id = Ok []
  ∧ Azure.point_value Examples.zero_average_max_point = Ok (VNum 5).
Proof. repeat split; vm_compute; reflexivity. Qed.

(** ** Synthesis *)

(** C7. When the call to the language model fails, [generate_response]
    returns the text of [_fallback_response], which is built from the two
    counts alone and is never empty: with an alert present the alerts
    sentence, with metrics and no alert the metrics sentence (with three
    metrics it reads [Retrieved 3 metrics ...]), with neither the no-data
    sentence. The call itself never raises: it returns a text. *)
Theorem generate_response_falls_back (L : stdlib)
    (llm : string → result string) (query : string)
    (metrics : list MetricData) (alerts : list AlertData) (context : obj) :
  (∀ prompt, ∃ e, llm prompt = Raise e) →
  let text := NLP.generate_response L llm query metrics alerts context in
  text = NLP._fallback_response query metrics alerts
  ∧ text ≠ EmptyString
  ∧ (alerts ≠ [] →
       text = "Found " +:+ str_of_nat (length alerts)
              +:+ " active alerts. The most critical ones need attention.")
  ∧ (alerts = [] → metrics ≠ [] →
       text = "Retrieved " +:+ str_of_nat (length metrics)
              +:+ " metrics for your query. The data shows recent activity across your monitored services.")
  ∧ (alerts = [] → length metrics = 3 →
       text = "Retrieved 3 metrics for your query. The data shows recent activity across your monitored services.")
  ∧ (alerts = [] → metrics = [] →
       text = "No data found for query " +:+ sq +:+ query +:+ sq
              +:+ ". Please check if the services are running and metrics are available.").
Proof.
  intros Hllm text.
  assert (Ht : text = NLP._fallback_response query metrics alerts).
  { unfold text, NLP.generate_response.
    destruct (NLP.data_summary L metrics alerts context) as [d|]; [|done]. cbn.
    destruct (NLP._build_response_prompt L query d _ _) as [prompt|]; [|done]. cbn.
    destruct (Hllm prompt) as [e ->]. done. }
  split; [exact Ht|]. rewrite Ht. clear Ht text.
  split; [|split; [|split; [|split]]].
  - destruct alerts, metrics; discriminate.
  - destruct alerts; [done|]. reflexivity.
  - intros -> Hm. destruct metrics; [done|]. reflexivity.
  - intros -> Hm. do 4 (destruct metrics as [|? metrics]; try discriminate). reflexivity.
  - intros -> ->. reflexivity.
Qed.

Lemma generate_response_witness :
  (∀ prompt, ∃ e, Examples.failing_llm prompt = Raise e)
  ∧ NLP.generate_response Examples.lib Examples.failing_llm "cpu usage"
      [Examples.up_sample; Examples.up_sample; Examples.up_sample] [] VNone
    = "Retrieved 3 metrics for your query. The data shows recent activity across your monitored services.".
Proof.
  assert (H : ∀ prompt, ∃ e, Examples.failing_llm prompt = Raise e)
    by (intros; exists TimeoutError; reflexivity).
  split; [exact H|].
  destruct (generate_response_falls_back Examples.lib Examples.failing_llm
              "cpu usage"
              [Examples.up_sample; Examples.up_sample; Examples.up_sample]
              [] VNone H) as (_ & _ & _ & _ & H3 & _).
  apply H3; reflexivity.
Defined.

(** With the model as [models.py] declares it, the summary step reads
    [m.name] and raises as soon as a metric is present, so the fallback is
    returned whatever the language model would have answered. *)
Lemma generate_response_with_metrics (L : stdlib)
    (llm : string → result string) (query : string) (m : MetricData)
    (metrics : list MetricData) (alerts : list AlertData) (context : obj) :
  NLP.generate_response L llm query (m :: metrics) alerts context
  = NLP._fallback_response query (m :: metrics) alerts.
Proof.
  unfold NLP.generate_response.
  assert (∃ e, NLP.data_summary L (m :: metrics) alerts context = Raise e)
    as [e ->]; [|done].
  unfold NLP.data_summary.
  apply bind_raise. intros svcs. by exists AttributeError.
Qed.

(** ** Alert severities *)

Lemma bind_Ok {A B} (m : result A) (f : A → result B) (b : B) :
  m ≫= f = Ok b → ∃ a, m = Ok a ∧ f a = Ok b.
Proof. destruct m as [a|e]; cbn; [eauto|discriminate]. Qed.





(** ** What the connectors return

    The connectors build their records with the keywords [name], [value],
    [description], [service], [timestamp]; the models of [models.py]
    require [metric_name], [values], [query] and [alert_name], [status],
    [active_at]. Every construction raises. *)

(** A keyword that is not written is not passed. *)
Lemma kwargs_lookup_None (kw : kwargs) (k : string) :
  k ∉ kw.*1 → kw !! k = None.
Proof.
  induction kw as [|[k' v] kw IH]; [done|].
  intros [Hne Hk]%not_elem_of_cons.
  change (((k', v) :: kw) !! k) with (if String.eqb k k' then Some v else kw !! k).
  destruct (String.eqb_spec k k'); [done|]. by apply IH.
Qed.

Lemma azure_alert_kwargs_keys L w alert kw :
  Azure.alert_kwargs L w alert = Ok kw →
  kw.*1 = ["name"; "severity"; "description"; "service"; "timestamp"; "labels"].
Proof.
  unfold Azure.alert_kwargs. intros H.
  do 7 (apply bind_Ok in H as (? & _ & H)). by injection H as <-.
Qed.

Lemma azure_parse_alerts_nothing L w data :
  Azure._parse_azure_alerts L w data = Ok []
  ∨ ∃ e, Azure._parse_azure_alerts L w data = Raise e.
Proof.
  unfold Azure._parse_azure_alerts.
  destruct (get data "value" (VList []) ≫= iter) as [alerts|e]; [|eauto]. cbn.
  apply for_each_nothing. intros alert. right.
  destruct (Azure.alert_kwargs L w alert) as [kw|e] eqn:Hkw; [|eauto]. cbn.
  rewrite AlertData_new_requires_alert_name; [eauto|].
  apply kwargs_lookup_None. rewrite (azure_alert_kwargs_keys _ _ _ _ Hkw).
  rewrite !elem_of_cons, elem_of_nil. intros [?|[?|[?|[?|[?|[?|[]]]]]]]; discriminate.
Qed.

(** The Azure connector reports no alert: a response that lists one makes
    the construction of its record raise, and [get_active_alerts] returns
    the empty list from its [except] branch. *)
Lemma azure_get_active_alerts_empty L self w :
  Azure.get_active_alerts L self w = Ok [].
Proof.
  unfold Azure.get_active_alerts.
  destruct (truthy (Azure.token w)); [|done]. cbn.
  destruct (Azure.alerts_http w) as [e|status body]; [done|].
  destruct (status =? 200)%nat; [|done].
  destruct body as [data|e]; [|done]. cbn.
  by destruct (azure_parse_alerts_nothing L w data) as [->|[e ->]].
Qed.

Lemma try_except_only_nothing {A} cls (b : result (list A)) :
  (∃ e, b = Raise e) →
  try_except_only cls b (λ _, Ok []) = Ok []
  ∨ ∃ e, try_except_only cls b (λ _, Ok []) = Raise e.
Proof.
  intros [e ->]. unfold try_except_only. destruct (existsb _ _); eauto.
Qed.

Lemma prometheus_sample_nothing L now metric_name labels timestamp value :
  Prometheus.sample L now metric_name labels timestamp value = Ok []
  ∨ ∃ e, Prometheus.sample L now metric_name labels timestamp value = Raise e.
Proof.
  apply try_except_only_nothing.
  do 3 (apply bind_raise; intros ?). by exists ValidationError.
Qed.

Lemma bind_nothing {A B} (m : result A) (f : A → result (list B)) :
  (∀ a, f a = Ok [] ∨ ∃ e, f a = Raise e) →
  m ≫= f = Ok [] ∨ ∃ e, m ≫= f = Raise e.
Proof. intros Hf. destruct m as [a|e]; cbn; [apply Hf|eauto]. Qed.

Lemma prometheus_parse_response_nothing L now data :
  Prometheus._parse_prometheus_response L now data = Ok []
  ∨ ∃ e, Prometheus._parse_prometheus_response L now data = Raise e.
Proof.
  unfold Prometheus._parse_prometheus_response.
  apply bind_nothing. intros st. destruct (negb _); [by left|].
  apply bind_nothing. intros rs. apply for_each_nothing. intros item.
  apply bind_nothing. intros metric_name. apply bind_nothing. intros labels.
  destruct item; eauto.
  destruct (has_key kv "value").
  { apply bind_nothing. intros [timestamp value].
    apply prometheus_sample_nothing. }
  destruct (has_key kv "values"); [|by left].
  apply bind_nothing. intros pairs. apply for_each_nothing. intros p.
  apply bind_nothing. intros [timestamp value].
  apply prometheus_sample_nothing.
Qed.

(** The Prometheus connector returns no sample: the construction of each
    record raises [ValidationError], a [ValueError], and the sample is
    skipped. *)
Lemma prometheus_query_metrics_empty L self w query kw :
  Prometheus.query_metrics L self w query kw = Ok [].
Proof.
  unfold Prometheus.query_metrics.
  destruct (Prometheus.query_http w _ query) as [e|status body]; [done|].
  destruct (negb _); [done|]. destruct body as [data|e]; [|done]. cbn.
  by destruct (prometheus_parse_response_nothing L (Prometheus.now_iso w) data)
    as [->|[e ->]].
Qed.

Lemma alertmanager_kwargs_keys L now alert kw :
  Prometheus.alertmanager_kwargs L now alert = Ok kw →
  kw.*1 = ["name"; "severity"; "description"; "service"; "timestamp"; "labels"].
Proof.
  unfold Prometheus.alertmanager_kwargs. intros H.
  do 9 (apply bind_Ok in H as (? & _ & H)). by injection H as <-.
Qed.

Lemma prometheus_parse_alertmanager_nothing L now data :
  Prometheus._parse_alertmanager_response L now data = Ok []
  ∨ ∃ e, Prometheus._parse_alertmanager_response L now data = Raise e.
Proof.
  unfold Prometheus._parse_alertmanager_response.
  apply bind_nothing. intros alerts. apply for_each_nothing. intros alert.
  apply bind_nothing. intros state. destruct (Prometheus.eq_str state "active"); [|by left].
  right.
  destruct (Prometheus.alertmanager_kwargs L now alert) as [kw|e] eqn:Hkw; [|eauto]. cbn.
  rewrite AlertData_new_requires_alert_name; [eauto|].
  apply kwargs_lookup_None. rewrite (alertmanager_kwargs_keys _ _ _ _ Hkw).
  rewrite !elem_of_cons, elem_of_nil. intros [?|[?|[?|[?|[?|[?|[]]]]]]]; discriminate.
Qed.

(** The Prometheus connector reports no alert either. *)
Lemma prometheus_get_active_alerts_empty L self w :
  Prometheus.get_active_alerts L self w = Ok [].
Proof.
  unfold Prometheus.get_active_alerts.
  destruct (Prometheus.alertmanager_http w) as [e|status body]; [done|].
  destruct (status =? 200)%nat.
  - destruct body as [data|e]; [|done]. cbn.
    by destruct (prometheus_parse_alertmanager_nothing L (Prometheus.now_iso w) data)
      as [->|[e ->]].
  - by rewrite prometheus_query_metrics_empty.
Qed.

Lemma azure_parse_point_nothing L now metric_name unit labels point :
  Azure.parse_point L now metric_name unit labels point = Ok []
  ∨ ∃ e, Azure.parse_point L now metric_name unit labels point = Raise e.
Proof.
  unfold Azure.parse_point.
  apply bind_nothing. intros ts. destruct (truthy ts); [|by left].
  apply bind_nothing. intros t. apply bind_nothing. intros v.
  destruct (is_none v); [by left|]. right.
  do 2 (apply bind_raise; intros ?). by exists ValidationError.
Qed.

(** [_parse_azure_metrics] returns no sample: it returns the empty list
    or raises. *)
Lemma azure_parse_metrics_nothing L now data resource_id :
  Azure._parse_azure_metrics L now data resource_id = Ok []
  ∨ ∃ e, Azure._parse_azure_metrics L now data resource_id = Raise e.
Proof.
  unfold Azure._parse_azure_metrics.
  apply bind_nothing. intros ms. apply for_each_nothing. intros metric.
  do 3 (apply bind_nothing; intros ?). apply for_each_nothing. intros ts.
  do 2 (apply bind_nothing; intros ?). apply for_each_nothing. intros point.
  apply azure_parse_point_nothing.
Qed.

(** ** The query parser *)



Lemma extract_aggregation_values (query : string) :
  NLP._extract_aggregation query ∈ ["avg"; "sum"; "max"; "min"].
Proof.
  unfold NLP._extract_aggregation.
  repeat destruct (NLP.any_in _ _); rewrite !elem_of_cons; tauto.
Qed.




(** ** The Prometheus translator *)

Lemma append_assoc (a b c : string) : (a +:+ b) +:+ c = a +:+ (b +:+ c).
Proof.
  induction a as [|x a IH]; [done|].
  change (String x ((a +:+ b) +:+ c) = String x (a +:+ (b +:+ c))).
  by rewrite IH.
Qed.

(** The service filter and the aggregation wrapper. *)
Lemma service_filter_and_aggregation (services : list string)
    (aggregation base : string) :
  (services = [] → NLP.add_service_filter services base = base)
  ∧ (services ≠ [] → has_char "{" base = false →
       NLP.add_service_filter services base
       = base +:+ "{" +:+ Spec.job_matcher services +:+ "}")
  ∧ (services ≠ [] → has_char "{" base = true →
       NLP.add_service_filter services base
       = replace_first "{" ("{" +:+ Spec.job_matcher services +:+ ",") base)
  ∧ (aggregation ∈ ["avg"; "sum"; "max"; "min"] → services = [] →
       NLP.add_aggregation aggregation services base
       = aggregation +:+ "(" +:+ base +:+ ")")
  ∧ (aggregation ∈ ["avg"; "sum"; "max"; "min"] → services ≠ [] →
       NLP.add_aggregation aggregation services base
       = aggregation +:+ " by (job) (" +:+ base +:+ ")")
  ∧ (aggregation = "raw" ∨ aggregation = EmptyString →
       NLP.add_aggregation aggregation services base = base)
  ∧ (aggregation ∉ ["avg"; "sum"; "max"; "min"; "raw"; EmptyString] →
       NLP.add_aggregation aggregation services base
       = NLP.add_aggregation "avg" services base).
Proof.
  repeat split.
  - by intros ->.
  - intros Hs Hb. unfold NLP.add_service_filter. rewrite Hb.
    destruct services; [done|]. unfold Spec.job_matcher.
    by rewrite !append_assoc.
  - intros Hs Hb. unfold NLP.add_service_filter. rewrite Hb.
    destruct services; [done|]. unfold Spec.job_matcher.
    by rewrite !append_assoc.
  - rewrite !elem_of_cons, elem_of_nil. intros [->|[->|[->|[->|[]]]]] ->; reflexivity.
  - rewrite !elem_of_cons, elem_of_nil.
    intros [->|[->|[->|[->|[]]]]] Hs; destruct services; done.
  - intros [-> | ->]; reflexivity.
  - rewrite !elem_of_cons, elem_of_nil. intros Hn.
    unfold NLP.add_aggregation, NLP.agg_func, NLP.nonempty.
    repeat match goal with
    | |- context [String.eqb aggregation ?s] =>
        destruct (String.eqb_spec aggregation s); [exfalso; tauto|]
    end.
    reflexivity.
Qed.





(** ** The scenario of the memory question *)

Lemma bfilter_none {A} (p : A → bool) (l : list A) :
  (∀ y, y ∈ l → p y = false) → List.filter p l = [].
Proof.
  induction l as [|y l IH]; [done|]. intros H. cbn.
  rewrite (H y) by by left. apply IH. intros z Hz. apply H. by right.
Qed.

Lemma bfilter_only (p : string → bool) (x : string) (l : list string) :
  x ∈ l → p x = true → (∀ y, y ∈ l → y ≠ x → p y = false) →
  ∃ n, List.filter p l = replicate (S n) x.
Proof.
  intros Hx Hp Hy.
  assert (Hall : ∀ y, y ∈ List.filter p l → y = x).
  { intros y [Hin Hpy]%elem_of_bfilter. destruct (decide (y = x)); [done|].
    rewrite (Hy y) in Hpy by done. discriminate. }
  assert (Hne : x ∈ List.filter p l) by by apply elem_of_bfilter.
  induction (List.filter p l) as [|z r IH]; [by apply elem_of_nil in Hne|].
  assert (z = x) as -> by (apply Hall; by left).
  destruct r as [|z' r]; [by exists 0%nat|].
  destruct IH as [n Hn].
  - intros y Hin. apply Hall. by right.
  - assert (z' = x) as -> by (apply Hall; right; by left). by left.
  - exists (S n). by rewrite Hn.
Qed.

Lemma list_set_replicate (x : string) (n : nat) :
  list_set (replicate (S n) x) = [x].
Proof.
  induction n as [|n IH]; [done|].
  change (list_set (replicate (S (S n)) x))
    with (x :: filter (λ y, y ≠ x) (list_set (replicate (S n) x))).
  rewrite IH. cbn. rewrite decide_False by (intros H; by apply H). done.
Qed.

Lemma take_replicate_S (k n : nat) (x : string) :
  ∃ m, take (S k) (replicate (S n) x) = replicate (S m) x.
Proof. exists (Nat.min k n). by rewrite take_replicate. Qed.

Lemma mem_elem_of (x : string) (l : list string) : NLP.mem x l = true ↔ x ∈ l.
Proof.
  unfold NLP.mem. rewrite existsb_exists. split.
  - intros (y & Hin & ->%String.eqb_eq). by apply list_elem_of_In.
  - intros H. exists x. split; [by apply list_elem_of_In|apply String.eqb_refl].
Qed.

(** The two extractions on the question of the scenario. *)
Lemma extract_metrics_memory_question (available_metrics : list string) :
  "memory_usage_percent" ∈ available_metrics →
  (∀ m, m ∈ available_metrics → m ≠ "memory_usage_percent" →
        str_in "memory" (lower m) = false
        ∧ str_in (lower m) (lower Examples.memory_question) = false) →
  NLP._extract_metrics Examples.memory_question available_metrics
  = ["memory_usage_percent"].
Proof.
  intros Hin Hother. unfold NLP._extract_metrics.
  rewrite (bfilter_none (λ metric, str_in (lower metric) (lower Examples.memory_question))).
  2: { intros m Hm. destruct (decide (m = "memory_usage_percent")) as [->|Hne].
       - vm_compute. reflexivity.
       - by apply Hother. }
  unfold NLP.metric_patterns. cbn [flat_map].
  repeat match goal with
  | |- context [NLP.any_in ?ps (lower Examples.memory_question)] =>
      let b := eval vm_compute in (NLP.any_in ps (lower Examples.memory_question)) in
      change (NLP.any_in ps (lower Examples.memory_question)) with b
  end.
  cbn [app]. rewrite app_nil_r.
  destruct (bfilter_only (λ m, str_in "memory" (lower m))
              "memory_usage_percent" available_metrics) as [n ->];
    [done|by vm_compute|intros; by apply Hother|].
  destruct (take_replicate_S 2 n "memory_usage_percent") as [m ->].
  apply list_set_replicate.
Qed.

Lemma extract_services_memory_question (available_services : list string) :
  "checkout" ∈ available_services →
  (∀ s, s ∈ available_services → s ≠ "checkout" →
        str_in (lower s) (lower Examples.memory_question) = false) →
  NLP._extract_services Examples.memory_question available_services = ["checkout"].
Proof.
  intros Hin Hother. unfold NLP._extract_services.
  destruct (bfilter_only (λ s, str_in (lower s) (lower Examples.memory_question))
              "checkout" available_services) as [n ->];
    [done|by vm_compute|done|].
  replace (findall_quoted Examples.memory_question)
    with ["s the memory usage for service "] by (vm_compute; reflexivity).
  cbn [List.filter].
  destruct (NLP.mem _ available_services) eqn:Hmem.
  { apply mem_elem_of in Hmem. apply Hother in Hmem; [|discriminate].
    vm_compute in Hmem. discriminate. }
  rewrite app_nil_r. apply list_set_replicate.
Qed.

(** C9, as the code has it. For the question about the memory usage of
    the service checkout, with the model stage contributing no field, with
    [memory_usage_percent] among the available metrics and [checkout] among
    the available services, and when no other available metric has
    [memory] in its name or its name in the text and no other available
    service has its name in the text: the descriptor has the metrics
    [memory_usage_percent], the services [checkout] and the aggregation
    avg, and the query is the avg by (job) of [memory_usage_percent]
    filtered on the job label by checkout. *)
Theorem memory_usage_scenario (o : NLP.ai_outcome)
    (available_services available_metrics : list string) :
  NLP._analyze_intent_with_ai o = NLP.no_intent →
  "memory_usage_percent" ∈ available_metrics →
  "checkout" ∈ available_services →
  (∀ m, m ∈ available_metrics → m ≠ "memory_usage_percent" →
        str_in "memory" (lower m) = false
        ∧ str_in (lower m) (lower Examples.memory_question) = false) →
  (∀ s, s ∈ available_services → s ≠ "checkout" →
        str_in (lower s) (lower Examples.memory_question) = false) →
  let c := NLP.parse_user_query o Examples.memory_question
             available_services available_metrics in
  NLP.metrics c = ["memory_usage_percent"]
  ∧ NLP.services c = ["checkout"]
  ∧ NLP.aggregation c = "avg"
  ∧ NLP.generate_prometheus_query c
    = Some ("avg by (job) (memory_usage_percent{job=~" +:+ dq +:+ "checkout"
            +:+ dq +:+ "})").
Proof.
  intros Ho Hm Hs Hms Hss c.
  assert (Hcm : NLP.metrics c = ["memory_usage_percent"]).
  { unfold c, NLP.parse_user_query. rewrite Ho. cbn.
    by apply extract_metrics_memory_question. }
  assert (Hcs : NLP.services c = ["checkout"]).
  { unfold c, NLP.parse_user_query. rewrite Ho. cbn.
    by apply extract_services_memory_question. }
  assert (Hca : NLP.aggregation c = "avg").
  { unfold c, NLP.parse_user_query. rewrite Ho. vm_compute. reflexivity. }
  assert (Hci : NLP.intent c = "unknown").
  { unfold c, NLP.parse_user_query. by rewrite Ho. }
  assert (Hcq : NLP.original_query c = Examples.memory_question) by reflexivity.
  repeat split; try done.
  unfold NLP.generate_prometheus_query, NLP.select_query.
  rewrite Hcm, Hcs, Hca, Hci, Hcq. vm_compute. reflexivity.
Qed.

Lemma memory_usage_scenario_witness :
  NLP.parse_user_query (NLP.AIRaises TimeoutError) Examples.memory_question
    ["checkout"; "cart"] ["cpu_usage_percent"; "memory_usage_percent"]
  = {| NLP.intent := "unknown";
       NLP.metrics := ["memory_usage_percent"];
       NLP.services := ["checkout"];
       NLP.time_range := "1h";
       NLP.aggregation := "avg";
       NLP.filters := [];
       NLP.query_type := "metrics";
       NLP.original_query := Examples.memory_question |}
  ∧ NLP.generate_prometheus_query
      (NLP.parse_user_query (NLP.AIRaises TimeoutError) Examples.memory_question
         ["checkout"; "cart"] ["cpu_usage_percent"; "memory_usage_percent"])
    = Some ("avg by (job) (memory_usage_percent{job=~" +:+ dq +:+ "checkout"
            +:+ dq +:+ "})").
Proof.
  destruct (memory_usage_scenario (NLP.AIRaises TimeoutError)
              ["checkout"; "cart"] ["cpu_usage_percent"; "memory_usage_percent"])
    as (Hm & Hs & Ha & Hq).
  - reflexivity.
  - rewrite !elem_of_cons. tauto.
  - rewrite !elem_of_cons. tauto.
  - intros m Hin Hne. rewrite !elem_of_cons, elem_of_nil in Hin.
    destruct Hin as [->|[->|[]]]; [split; reflexivity|done].
  - intros sv Hin Hne. rewrite !elem_of_cons, elem_of_nil in Hin.
    destruct Hin as [->|[->|[]]]; [done|reflexivity].
  - split; [reflexivity|exact Hq].
Defined.

(** C9 as stated fails: with a second available metric that has [memory]
    in its name, the descriptor holds both names. *)
Lemma second_memory_metric_is_requested_too :
  "memory_usage_percent"
    ∈ ["memory_usage_percent"; "memory_working_set_bytes"]
  ∧ "memory_working_set_bytes"
      ∈ NLP.metrics
          (NLP.parse_user_query (NLP.AIRaises TimeoutError)
             Examples.memory_question ["checkout"]
             ["memory_usage_percent"; "memory_working_set_bytes"])
  ∧ NLP.metrics
      (NLP.parse_user_query (NLP.AIRaises TimeoutError) Examples.memory_question
         ["checkout"] ["memory_usage_percent"; "memory_working_set_bytes"])
    ≠ ["memory_usage_percent"].
Proof.
  split; [rewrite elem_of_cons; tauto|].
  assert (H : NLP.metrics
                (NLP.parse_user_query (NLP.AIRaises TimeoutError)
                   Examples.memory_question ["checkout"]
                   ["memory_usage_percent"; "memory_working_set_bytes"])
              = ["memory_usage_percent"; "memory_working_set_bytes"])
    by (vm_compute; reflexivity).
  rewrite H. split; [rewrite !elem_of_cons; tauto|discriminate].
Qed.

(* ===================================================================== *)
(** * Further properties of the code                                      *)
(* ===================================================================== *)

(** ** Texts *)

Lemma append_cons (c : ascii) (a b : string) :
  String c a +:+ b = String c (a +:+ b).
Proof. reflexivity. Qed.

Lemma append_nil_l (a : string) : EmptyString +:+ a = a.
Proof. reflexivity. Qed.

Lemma append_nil_r (a : string) : a +:+ EmptyString = a.
Proof. induction a as [|c a IH]; [done|]. by rewrite append_cons, IH. Qed.








(** ** [list(set(...))] *)



(** ** The keyword stage of the parser *)






(** X6. With the model stage contributing nothing, the translated query is
    decided by the keyword stage alone: no query when no metric name was
    found, the liveness metric when the text mentions health, and in
    every other case an expression wrapped in avg, sum, max or min; the
    keyword stage never asks for raw data, and never for the alerts
    selector. *)
Theorem baseline_query_is_aggregated (o : NLP.ai_outcome) (query : string)
    (available_services available_metrics : list string) :
  (∀ d, o ≠ NLP.AIObject d) →
  let c := NLP.parse_user_query o query available_services available_metrics in
  let found := NLP._extract_metrics query available_metrics in
  (found = [] → NLP.generate_prometheus_query c = None)
  ∧ (found ≠ [] → str_in "health" (lower query) = true →
       NLP.generate_prometheus_query c = Some "up")
  ∧ (found ≠ [] → str_in "health" (lower query) = false →
       ∃ agg base,
         agg ∈ ["avg"; "sum"; "max"; "min"]
         ∧ NLP.generate_prometheus_query c
           = Some (agg +:+ (if is_empty (NLP.services c) then "("
                            else " by (job) (") +:+ base +:+ ")"))
  ∧ NLP.generate_prometheus_query c ≠ Some Spec.firing_alerts.
Proof.
  intros Ho c found.
  assert (Hc : c = Spec.baseline query available_services available_metrics).
  { unfold c, NLP.parse_user_query.
    destruct o as [e| |d]; [done|done|by destruct (Ho d)]. }
  assert (Hagg : ∀ base,
    ∃ agg, agg ∈ ["avg"; "sum"; "max"; "min"]
      ∧ NLP.add_aggregation (NLP.aggregation c) (NLP.services c) base
        = agg +:+ (if is_empty (NLP.services c) then "(" else " by (job) (")
              +:+ base +:+ ")").
  { intros base. exists (NLP.aggregation c).
    assert (Hin : NLP.aggregation c ∈ ["avg"; "sum"; "max"; "min"])
      by (rewrite Hc; apply extract_aggregation_values).
    split; [done|].
    destruct (service_filter_and_aggregation (NLP.services c)
                (NLP.aggregation c) base) as (_ & _ & _ & H1 & H2 & _).
    destruct (NLP.services c) eqn:Es; cbn [is_empty]; [by apply H1|by apply H2]. }
  assert (Hcases :
    (found = [] ∧ NLP.generate_prometheus_query c = None)
    ∨ (found ≠ [] ∧ str_in "health" (lower query) = true
       ∧ NLP.generate_prometheus_query c = Some "up")
    ∨ (found ≠ [] ∧ str_in "health" (lower query) = false
       ∧ ∃ agg base, agg ∈ ["avg"; "sum"; "max"; "min"]
           ∧ NLP.generate_prometheus_query c
             = Some (agg +:+ (if is_empty (NLP.services c) then "("
                              else " by (job) (") +:+ base +:+ ")"))).
  { unfold NLP.generate_prometheus_query, NLP.select_query.
    replace (NLP.intent c) with "unknown" by by rewrite Hc.
    replace (NLP.metrics c) with found by by rewrite Hc.
    replace (NLP.original_query c) with query by by rewrite Hc.
    cbn [String.eqb Ascii.eqb Bool.eqb negb orb andb].
    destruct found as [|m ms]; [left; by rewrite andb_true_r|].
    right. cbn [is_empty andb].
    destruct (str_in "health" (lower query)); [left; done|right].
    split; [done|]. split; [done|].
    repeat match goal with
    | |- context [if ?b then NLP.Base _ else _] => destruct b
    end;
    match goal with
    | |- context [NLP.add_aggregation _ _ ?b] =>
        destruct (Hagg b) as (agg & Hin & ->); by exists agg, b
    end. }
  split; [|split; [|split]].
  - intros Hf. destruct Hcases as [[_ H]|[(Hn & _)|(Hn & _)]]; done.
  - intros Hf Hh. destruct Hcases as [[Hn _]|[(_ & _ & H)|(_ & Hh' & _)]];
      [done|done|congruence].
  - intros Hf Hh. destruct Hcases as [[Hn _]|[(_ & Hh' & _)|(_ & _ & H)]];
      [done|congruence|done].
  - destruct Hcases as [[_ ->]|[(_ & _ & ->)|(_ & _ & agg & base & Hin & ->)]];
      [done|done|].
    rewrite !elem_of_cons, elem_of_nil in Hin.
    destruct Hin as [->|[->|[->|[->|[]]]]]; discriminate.
Qed.

Lemma baseline_query_witness :
  (∀ d, NLP.AIRaises TimeoutError ≠ NLP.AIObject d)
  ∧ NLP.generate_prometheus_query
      (NLP.parse_user_query (NLP.AIRaises TimeoutError)
         "peak request_latency of checkout" ["checkout"] ["request_latency"])
    = Some ("max by (job) (request_latency{job=~" +:+ dq +:+ "checkout" +:+ dq +:+ "})").
Proof.
  assert (Ho : ∀ d, NLP.AIRaises TimeoutError ≠ NLP.AIObject d) by (intros d; discriminate).
  split; [exact Ho|].
  destruct (baseline_query_is_aggregated (NLP.AIRaises TimeoutError)
              "peak request_latency of checkout" ["checkout"] ["request_latency"] Ho)
    as (_ & _ & H & _).
  destruct H as (agg & base & _ & H); [vm_compute; discriminate|reflexivity|].
  vm_compute. reflexivity.
Defined.

(** Without metrics and with an alert, the sample lines read
    [alert.name] and the fallback is returned. *)
Lemma generate_response_with_alerts (L : stdlib)
    (llm : string → result string) (query : string) (a : AlertData)
    (alerts : list AlertData) (context : obj) :
  NLP.generate_response L llm query [] (a :: alerts) context
  = NLP._fallback_response query [] (a :: alerts).
Proof.
  unfold NLP.generate_response.
  match goal with |- match ?b with _ => _ end = _ =>
    assert (∃ e, b = Raise e) as [e ->]; [|done] end.
  apply bind_raise. intros d.
  assert (∃ e, NLP._build_response_prompt L query d (take 5 [])
                 (take 3 (a :: alerts)) = Raise e) as [e ->];
    [exists AttributeError; reflexivity|exists e; reflexivity].
Qed.

(** X7. As soon as a metric or an alert is handed to [generate_response], the
    answer is the fallback sentence, whatever the language model would
    reply: the summary reads [m.name], the sample lines read [alert.name],
    which the models do not declare, before the model is called. *)
Theorem generate_response_never_asks_model_with_data (L : stdlib)
    (llm : string → result string) (query : string)
    (metrics : list MetricData) (alerts : list AlertData) (context : obj) :
  metrics ≠ [] ∨ alerts ≠ [] →
  NLP.generate_response L llm query metrics alerts context
  = NLP._fallback_response query metrics alerts.
Proof.
  intros Hdata. destruct metrics as [|m metrics].
  - destruct alerts as [|a alerts]; [by destruct Hdata|].
    apply generate_response_with_alerts.
  - apply generate_response_with_metrics.
Qed.

Lemma generate_response_with_data_witness :
  NLP.generate_response Examples.lib (λ _, Ok "All systems nominal.")
    "how is the api" [Examples.up_sample] [] (VDict [])
  = "Retrieved 1 metrics for your query. The data shows recent activity across your monitored services.".
Proof.
  rewrite (generate_response_never_asks_model_with_data Examples.lib
             (λ _, Ok "All systems nominal.") "how is the api"
             [Examples.up_sample] [] (VDict [])); [reflexivity|].
  left. discriminate.
Defined.

(** ** The connector manager *)

Lemma health_check_all_fan (connectors : list (string * Manager.BaseConnector)) :
  Manager.health_check_all connectors
  = Manager.fan fst (λ p, Manager.passed p.2) ∅ connectors.
Proof.
  unfold Manager.health_check_all, Manager.fan. generalize (∅ : gmap string bool).
  induction connectors as [|[n c] l IH]; intros m; [done|]. cbn. apply IH.
Qed.

(** X8. [health_check_all] reports every configured connector under its key:
    true when its health check returned true, false when it returned
    false or raised; it reports nothing else. *)
Theorem health_check_all_reports_every_connector
    (connectors : list (string * Manager.BaseConnector)) :
  NoDup connectors.*1 →
  (∀ n c, (n, c) ∈ connectors →
      Manager.health_check_all connectors !! n = Some (Manager.passed c)
      ∧ (∀ e, Manager.health_check c = Raise e →
              Manager.health_check_all connectors !! n = Some false))
  ∧ (∀ n, is_Some (Manager.health_check_all connectors !! n) → n ∈ connectors.*1)
  ∧ size (Manager.health_check_all connectors) = length connectors.
Proof.
  intros Hnd. rewrite health_check_all_fan. split; [|split].
  - intros n c Hin.
    assert (H : Manager.fan fst (λ p, Manager.passed p.2) ∅ connectors !! n
                = Some (Manager.passed c))
      by exact (fan_lookup_elem fst (λ p, Manager.passed p.2) connectors ∅ (n, c) Hnd Hin).
    split; [exact H|]. intros e He. rewrite H. unfold Manager.passed. by rewrite He.
  - intros n Hs. apply fan_lookup_inv in Hs as [Hs|(p & Hp & <-)].
    + rewrite lookup_empty in Hs. by destruct Hs.
    + by apply list_elem_of_fmap_2.
  - etrans; [apply fan_size; [done|intros; apply lookup_empty]|].
    by rewrite map_size_empty.
Qed.

Lemma health_check_all_witness :
  Manager.health_check_all Examples.four_connectors !! "a" = Some true
  ∧ Manager.health_check_all Examples.four_connectors !! "c" = Some false
  ∧ Manager.health_check_all Examples.four_connectors !! "d" = Some false
  ∧ size (Manager.health_check_all Examples.four_connectors) = 4.
Proof.
  assert (Hnd : NoDup Examples.four_connectors.*1).
  { apply (bool_decide_unpack _). vm_compute. exact I. }
  destruct (health_check_all_reports_every_connector Examples.four_connectors Hnd)
    as (H1 & _ & H3).
  split.
  { apply (H1 "a" (Examples.connector "a" (Ok true) (Ok [Examples.up_sample]))).
    apply list_elem_of_In. cbn. tauto. }
  split.
  { apply (H1 "c" (Examples.connector "c" (Ok false) (Ok [Examples.up_sample]))).
    apply list_elem_of_In. cbn. tauto. }
  split.
  { apply (H1 "d" (Examples.connector "d" (Raise OtherError) (Ok [Examples.up_sample]))).
    apply list_elem_of_In. cbn. tauto. }
  exact H3.
Defined.

(** X9. The alert fan-out has one entry per healthy connector: the alerts its
    own call returned, the empty list when that call raised; unhealthy
    connectors have no entry. *)
Theorem get_all_alerts_one_entry_per_healthy
    (connectors : list (string * Manager.BaseConnector)) :
  NoDup (Manager.name <$> connectors.*2) →
  let results := Manager.get_all_alerts connectors in
  (∀ c, c ∈ connectors.*2 → Manager.passed c = true →
        results !! Manager.name c
        = Some (Manager.entry (Manager.get_active_alerts c) []))
  ∧ (∀ c, c ∈ connectors.*2 → Manager.passed c = false →
        results !! Manager.name c = None)
  ∧ (∀ n, is_Some (results !! n) →
        ∃ c, c ∈ connectors.*2 ∧ Manager.passed c = true ∧ Manager.name c = n)
  ∧ size results = length (Manager.get_healthy_connectors connectors).
Proof.
  intros Hnd results.
  set (g := λ c, Manager.entry (Manager.get_active_alerts c) []).
  assert (Hh : NoDup (Manager.name <$> Manager.get_healthy_connectors connectors))
    by by apply NoDup_fmap_bfilter.
  split; [|split; [|split]].
  - intros c Hc Hp. apply (fan_lookup_elem Manager.name g); [done|].
    by apply elem_of_bfilter.
  - intros c Hc Hp. apply eq_None_not_Some. intros Hs.
    apply (fan_lookup_inv Manager.name g) in Hs as [Hs|(d & Hd & Heq)].
    + rewrite lookup_empty in Hs. by destruct Hs.
    + apply elem_of_bfilter in Hd as [Hd Hpd].
      assert (d = c) as ->
        by (by apply (NoDup_fmap_inj Manager.name connectors.*2)).
      congruence.
  - intros n Hs.
    apply (fan_lookup_inv Manager.name g) in Hs as [Hs|(d & Hd & Heq)].
    + rewrite lookup_empty in Hs. by destruct Hs.
    + apply elem_of_bfilter in Hd as [Hd Hpd]. eauto.
  - unfold results, Manager.get_all_alerts.
    etrans; [apply (fan_size Manager.name g _ ∅);
             [done|intros; apply lookup_empty]|].
    by rewrite map_size_empty.
Qed.

Lemma get_all_alerts_witness :
  Manager.get_all_alerts Examples.three_sources !! "prometheus"
  = Some [Examples.cpu_alert]
  ∧ Manager.get_all_alerts Examples.three_sources !! "azure_monitor" = Some []
  ∧ Manager.get_all_alerts Examples.three_sources !! "spare" = None
  ∧ size (Manager.get_all_alerts Examples.three_sources) = 2.
Proof.
  assert (Hnd : NoDup (Manager.name <$> Examples.three_sources.*2)).
  { apply (bool_decide_unpack _). vm_compute. exact I. }
  destruct (get_all_alerts_one_entry_per_healthy Examples.three_sources Hnd)
    as (H1 & H2 & _ & H4).
  split.
  { apply (H1 (Examples.source "prometheus" (Ok true) (Ok [Examples.cpu_alert])
                 (Ok ["api"; "db"]) (Ok ["up"]))); [|reflexivity].
    apply list_elem_of_In. cbn. tauto. }
  split.
  { apply (H1 (Examples.source "azure_monitor" (Ok true) (Raise TimeoutError)
                 (Raise TimeoutError) (Ok Azure.common_metrics))); [|reflexivity].
    apply list_elem_of_In. cbn. tauto. }
  split.
  { apply (H2 (Examples.source "spare" (Ok false) (Ok [Examples.cpu_alert])
                 (Ok ["cache"]) (Ok []))); [|reflexivity].
    apply list_elem_of_In. cbn. tauto. }
  exact H4.
Defined.

Lemma dict_set_fresh {A} (k : string) (v : A) (d : list (string * A)) :
  k ∉ d.*1 → Manager.dict_set k v d = (d ++ [(k, v)])%list.
Proof.
  induction d as [|[k' v'] d IH]; [done|]. cbn.
  intros [Hne Hk]%not_elem_of_cons.
  destruct (String.eqb_spec k k'); [done|]. by rewrite IH.
Qed.

Lemma fold_dict_set {B A} (f : B → string) (g : B → A) (l : list B) :
  ∀ acc : list (string * A),
    NoDup (acc.*1 ++ (f <$> l))%list →
    foldl (λ results c, Manager.dict_set (f c) (g c) results) acc l
    = (acc ++ ((λ c, (f c, g c)) <$> l))%list.
Proof.
  induction l as [|c l IH]; intros acc Hnd; cbn.
  - by rewrite app_nil_r.
  - rewrite dict_set_fresh.
    + rewrite IH.
      * by rewrite <- app_assoc.
      * rewrite fmap_app. cbn. rewrite <- app_assoc. exact Hnd.
    + apply NoDup_app in Hnd as (_ & Hd & _). intros Hin.
      apply (Hd _ Hin). by left.
Qed.

(** X10. The service fan-out lists the healthy connectors in the order they
    were configured, each with the services its own call returned, the
    empty list when that call raised. *)
Theorem get_all_services_in_configured_order
    (connectors : list (string * Manager.BaseConnector)) :
  NoDup (Manager.name <$> connectors.*2) →
  Manager.get_all_services connectors
  = (λ c, (Manager.name c, Manager.entry (Manager.get_services c) []))
      <$> Manager.get_healthy_connectors connectors.
Proof.
  intros Hnd. unfold Manager.get_all_services.
  rewrite fold_dict_set; [done|]. cbn. by apply NoDup_fmap_bfilter.
Qed.

Lemma get_all_services_witness :
  Manager.get_all_services Examples.three_sources
  = [("prometheus", ["api"; "db"]); ("azure_monitor", [])].
Proof.
  rewrite (get_all_services_in_configured_order Examples.three_sources);
    [reflexivity|].
  apply (bool_decide_unpack _). vm_compute. exact I.
Defined.

(** X11. [get_metrics_summary] never raises. When both enumerations return, it
    carries the first 50 services and the first 100 metric names together
    with the full counts; when either raises, it carries the error and two
    empty lists, also when the other enumeration would have returned. *)
Theorem get_metrics_summary_bounds (c : Manager.BaseConnector) :
  ∃ s, Manager.get_metrics_summary c = Ok s
    ∧ Manager.s_connector s = Manager.name c
    ∧ (length (Manager.s_services s) ≤ 50)%nat
    ∧ (length (Manager.s_metric_names s) ≤ 100)%nat
    ∧ (∀ services metrics,
         Manager.get_services c = Ok services →
         Manager.get_metrics_list c = Ok metrics →
         Manager.s_error s = None
         ∧ Manager.s_services s = take 50 services
         ∧ Manager.s_metric_names s = take 100 metrics
         ∧ Manager.s_service_count s = Some (length services)
         ∧ Manager.s_metric_count s = Some (length metrics))
    ∧ (∀ e, Manager.get_services c = Raise e
            ∨ ((∃ services, Manager.get_services c = Ok services)
               ∧ Manager.get_metrics_list c = Raise e) →
         Manager.s_error s = Some e
         ∧ Manager.s_services s = []
         ∧ Manager.s_metric_names s = []).
Proof.
  unfold Manager.get_metrics_summary.
  destruct (Manager.get_services c) as [sv|e1] eqn:Es;
    [destruct (Manager.get_metrics_list c) as [ms|e2] eqn:Em|]; cbn;
    eexists; (split; [reflexivity|]); cbn.
  - split; [done|]. split; [rewrite length_take; lia|].
    split; [rewrite length_take; lia|]. split.
    + intros ?? [= <-] [= <-]. done.
    + intros e [[=]|[_ [=]]].
  - split; [done|]. split; [lia|]. split; [lia|]. split.
    + intros ?? _ [=].
    + intros e [[=]|[_ [= <-]]]. done.
  - split; [done|]. split; [lia|]. split; [lia|]. split.
    + intros ?? [=].
    + intros e [[= <-]|[[? [=]] _]]. done.
Qed.


Lemma query_all_connectors_isolated_witness :
  Manager.query_all_connectors Examples.four_connectors "up" [] !! "a"
  = Manager.query_all_connectors
      [ ("a", Examples.connector "a" (Ok true) (Ok [Examples.up_sample]));
        ("b", Examples.connector "b" (Ok true) (Ok [Examples.up_sample]));
        ("c", Examples.connector "c" (Ok false) (Ok [Examples.up_sample]));
        ("d", Examples.connector "d" (Raise OtherError) (Ok [Examples.up_sample])) ]
      "up" [] !! "a".
Proof.
  apply (query_all_connectors_isolated _ _ "up" [] "b").
  - apply (bool_decide_unpack _). vm_compute. exact I.
  - apply (bool_decide_unpack _). vm_compute. exact I.
  - cbn. repeat constructor; cbn; try reflexivity; intros H; by destruct H.
  - discriminate.
Defined.

(** ** The session store *)


(** ** The handlers of the conversation engine *)

(** X13. Without an object from the language model the descriptor has
    intent unknown and query type metrics, so only two of the four
    handlers are reachable: a text that contains the word service goes to
    the services handler and every other text, a question about alerts or
    health included, to the metrics handler. *)
Theorem keyword_stage_reaches_two_handlers (H : Engine.handlers)
    (o : NLP.ai_outcome) (query : string)
    (available_services available_metrics : list string)
    (history : list ChatMessage) (context : obj) :
  (∀ d, o ≠ NLP.AIObject d) →
  let parsed_query :=
    NLP.parse_user_query o query available_services available_metrics in
  Engine._execute_query_and_respond H parsed_query history context
  = if str_in "service" (lower query)
    then Engine._handle_services_query H parsed_query context
    else Engine._handle_metrics_query H parsed_query context.
Proof.
  intros Ho parsed_query.
  assert (Hc : parsed_query
               = Spec.baseline query available_services available_metrics).
  { unfold parsed_query, NLP.parse_user_query.
    destruct o as [e| |d]; [done|done|by destruct (Ho d)]. }
  unfold Engine._execute_query_and_respond.
  replace (NLP.intent parsed_query) with "unknown" by by rewrite Hc.
  replace (NLP.query_type parsed_query) with "metrics" by by rewrite Hc.
  replace (NLP.original_query parsed_query) with query by by rewrite Hc.
  reflexivity.
Qed.

Lemma keyword_stage_witness :
  Engine._execute_query_and_respond
    {| Engine._handle_alerts_query := λ _ _, "alerts";
       Engine._handle_health_query := λ _ _, "health";
       Engine._handle_services_query := λ _ _, "services";
       Engine._handle_metrics_query := λ _ _, "metrics" |}
    (NLP.parse_user_query NLP.AINoObject "are any alerts firing" [] [])
    [] (VDict [])
  = "metrics".
Proof.
  rewrite (keyword_stage_reaches_two_handlers _ NLP.AINoObject
             "are any alerts firing" [] [] [] (VDict []));
    [reflexivity|].
  intros d. discriminate.
Defined.

Lemma all_alerts_results_healthy
    (connectors : list (string * Manager.BaseConnector)) :
  NoDup (Manager.name <$> connectors.*2) →
  Handlers.all_alerts_results connectors
  = (λ c, (Manager.name c, Manager.entry (Manager.get_active_alerts c) []))
      <$> Manager.get_healthy_connectors connectors.
Proof.
  intros Hnd. unfold Handlers.all_alerts_results.
  rewrite fold_dict_set; [done|]. cbn. by apply NoDup_fmap_bfilter.
Qed.

(** X14. The alerts handler answers from the alert lists of the healthy
    connectors alone: the good-news sentence when they hold no alert,
    which is also the case when every alert call raised or no connector
    is healthy, and otherwise the sentence that counts the alerts. The
    language model has no part in the answer. *)
Theorem handle_alerts_query_answers (L : stdlib)
    (llm : string → result string)
    (connectors : list (string * Manager.BaseConnector))
    (parsed_query : NLP.Components) (context : obj) :
  NoDup (Manager.name <$> connectors.*2) →
  let all_alerts :=
    concat ((λ c, Manager.entry (Manager.get_active_alerts c) [])
              <$> Manager.get_healthy_connectors connectors) in
  Handlers._handle_alerts_query L llm connectors parsed_query context
  = if is_empty all_alerts
    then "Great news! No active alerts found in your monitoring systems."
    else "Found " +:+ str_of_nat (length all_alerts)
         +:+ " active alerts. The most critical ones need attention.".
Proof.
  intros Hnd all_alerts. unfold Handlers._handle_alerts_query.
  rewrite all_alerts_results_healthy by done.
  rewrite <- !list_fmap_compose.
  change (concat (snd ∘ _ <$> _)) with all_alerts.
  destruct all_alerts as [|a rest]; [done|]. cbn [is_empty].
  by rewrite generate_response_with_alerts.
Qed.

Lemma handle_alerts_query_witness :
  Handlers._handle_alerts_query Examples.lib (λ _, Ok "Nothing to report.")
    Examples.three_sources Examples.health_descriptor (VDict [])
  = "Found 1 active alerts. The most critical ones need attention.".
Proof.
  rewrite (handle_alerts_query_answers Examples.lib (λ _, Ok "Nothing to report.")
             Examples.three_sources Examples.health_descriptor (VDict []));
    [reflexivity|].
  apply (bool_decide_unpack _). vm_compute. exact I.
Defined.

(** X15. The metrics handler asks the connector registered as prometheus
    with the translated query and the one registered as azure_monitor with
    the metric names, without consulting their health checks. A raise of
    either call replaces the whole answer by the error sentence, also when
    the other connector returned samples. Otherwise the answer is the
    no-data text when both gave nothing, and the sentence that counts the
    samples when there are some; the language model has no part in it. *)
Theorem handle_metrics_query_answers (L : stdlib)
    (llm : string → result string)
    (connectors : list (string * Manager.BaseConnector))
    (parsed_query : NLP.Components) (context : obj) :
  let prometheus : result (list MetricData) :=
    match Manager.get_connector connectors "prometheus",
          NLP.generate_prometheus_query parsed_query with
    | Some conn, Some q =>
        if NLP.nonempty q
        then Manager.query_metrics conn q
               [("time_range", VStr (NLP.time_range parsed_query))]
        else Ok []
    | _, _ => Ok []
    end in
  let azure : result (list MetricData) :=
    match Manager.get_connector connectors "azure_monitor" with
    | Some conn =>
        if is_empty (NLP.metrics parsed_query) then Ok []
        else Manager.query_metrics conn (join "," (NLP.metrics parsed_query))
               [("timespan",
                 VNum (if String.eqb (NLP.time_range parsed_query) "1h"
                       then 1 else 24))]
    | None => Ok []
    end in
  let error e :=
    "I couldn" +:+ sq +:+ "t retrieve the metrics data. Error: " +:+ exn_str L e in
  Handlers._handle_metrics_query L llm connectors parsed_query context
  = match prometheus, azure with
    | Raise e, _ => error e
    | Ok _, Raise e => error e
    | Ok ps, Ok zs =>
        if is_empty (ps ++ zs)%list
        then Handlers._no_data_response parsed_query
        else "Retrieved " +:+ str_of_nat (length (ps ++ zs)%list)
             +:+ " metrics for your query. The data shows recent activity across your monitored services."
    end.
Proof.
  intros prometheus azure error.
  unfold Handlers._handle_metrics_query, prometheus, azure.
  destruct (Manager.get_connector connectors "prometheus") as [p|];
    destruct (Manager.get_connector connectors "azure_monitor") as [a|];
    destruct (NLP.generate_prometheus_query parsed_query) as [q|];
    try destruct (NLP.nonempty q);
    destruct (is_empty (NLP.metrics parsed_query)); cbn [negb];
    repeat match goal with
    | |- context [Manager.query_metrics ?c ?q ?kw] =>
        destruct (Manager.query_metrics c q kw) as [[|? ?]|?]
    end; cbn; try reflexivity;
    rewrite ?app_nil_r; try apply generate_response_with_metrics.
Qed.

(** ** The endpoints *)

Lemma connector_health_items (connectors : list (string * Manager.BaseConnector)) :
  NoDup connectors.*1 →
  Api.connector_health connectors
  = (λ p, (p.1, Manager.passed p.2)) <$> connectors.
Proof.
  intros Hnd. unfold Api.connector_health.
  transitivity (foldl (λ results p,
                         Manager.dict_set p.1 (Manager.passed p.2) results)
                      [] connectors).
  - clear Hnd. generalize (@nil (string * bool)).
    induction connectors as [|[n c] l IH]; intros acc; [done|]. cbn. apply IH.
  - by apply (fold_dict_set fst (λ p, Manager.passed p.2) connectors []).
Qed.

Lemma health_loop_status (items : list (string * bool)) :
  ∀ (checks : list (string * string)) (status : string),
    (foldl (λ '(checks, overall_status) '(name, healthy),
              if healthy : bool then
                (Manager.dict_set ("connector_" +:+ name) "healthy" checks,
                 overall_status)
              else
                (Manager.dict_set ("connector_" +:+ name) "unhealthy" checks,
                 "degraded"))
           (checks, status) items).2
    = if forallb snd items then status else "degraded".
Proof.
  induction items as [|[n [|]] l IH]; intros checks status; cbn; [done| |].
  - apply IH.
  - rewrite IH. by destruct (forallb snd l).
Qed.

(** X16. The status of [/health] is decided by the last check that
    failed, not by the worst one: degraded whenever the conversation
    engine is missing; otherwise unhealthy without a connector manager;
    otherwise degraded when no connector is configured or one fails its
    health check; and only otherwise does the Redis check count, unhealthy
    when it raised and healthy when it passed. A Redis failure is thus
    reported as degraded whenever a later check fails. *)
Theorem health_check_status_table (L : stdlib) (utcnow : string)
    (ping : result Datatypes.unit)
    (connector_manager : option (list (string * Manager.BaseConnector)))
    (conversation_engine : bool) :
  (∀ connectors, connector_manager = Some connectors → NoDup connectors.*1) →
  Api.h_status
    (Api.health_check L utcnow ping connector_manager conversation_engine)
  = if negb conversation_engine then "degraded"
    else match connector_manager with
         | None => "unhealthy"
         | Some connectors =>
             if is_empty connectors
                || negb (forallb Manager.passed connectors.*2)
             then "degraded"
             else match ping with Ok _ => "healthy" | Raise _ => "unhealthy" end
         end.
Proof.
  intros Hnd. unfold Api.health_check.
  destruct connector_manager as [connectors|].
  - rewrite connector_health_items by (by apply Hnd).
    set (start := match ping with
                  | Ok _ => (_, _)
                  | Raise e => (_, _)
                  end).
    assert (Hs : start.2 = match ping with Ok _ => "healthy" | Raise _ => "unhealthy" end)
      by (unfold start; by destruct ping).
    destruct start as [checks status]. cbn in Hs. subst status.
    match goal with |- context [foldl ?f (checks, ?st) ?items] =>
      pose proof (health_loop_status items checks st) as Hl;
      destruct (foldl f (checks, st) items) as [checks' status'] end.
    cbn in Hl. subst status'.
    assert (Hf : forallb snd ((λ p, (p.1, Manager.passed p.2)) <$> connectors)
                 = forallb Manager.passed connectors.*2).
    { clear. induction connectors as [|[n c] l IH]; [done|]. cbn. by rewrite IH. }
    rewrite Hf.
    destruct connectors as [|p l]; [by destruct conversation_engine|].
    cbn [fmap list_fmap is_empty orb].
    destruct conversation_engine; cbn [negb]; [|done].
    cbn. by destruct (_ && _).
  - destruct ping, conversation_engine; reflexivity.
Qed.

Lemma health_check_status_witness :
  Api.h_status
    (Api.health_check Examples.lib "2024-01-01T00:00:00" (Raise OtherError)
       (Some Examples.three_sources) true)
  = "degraded".
Proof.
  rewrite (health_check_status_table Examples.lib "2024-01-01T00:00:00"
             (Raise OtherError) (Some Examples.three_sources) true);
    [reflexivity|].
  intros connectors [= <-]. apply (bool_decide_unpack _). vm_compute. exact I.
Defined.

(** X17. The chat endpoint never returns an answer of the conversation
    engine. Without an engine it returns the not-configured text; with
    one, the call passes the keywords user_id and context, which
    [process_message] does not take, so the call raises [TypeError]
    before the engine runs: the reply is the error sentence built from
    that exception, for the session of the request, and the session store
    is left as it was. *)
Theorem chat_never_reaches_engine (L : stdlib) (utcnow : string)
    (conversation_engine : option Engine.turn) (r : Engine.redis)
    (request : Api.ChatRequest) (current_user : option (list (obj * obj))) :
  let '(response, r') :=
    Api.chat L utcnow conversation_engine r request current_user in
  r' = r
  ∧ Api.r_session_id response = Api.session_or_default request
  ∧ Api.r_message response
    = match conversation_engine with
      | None =>
          "I" +:+ sq +:+ "m not fully configured yet. Please check that your OpenAI API key and monitoring sources are set up correctly in the .env file."
      | Some _ =>
          "I encountered an error processing your request: "
          +:+ exn_str L TypeError
          +:+ ". Please try again or check your configuration."
      end.
Proof.
  unfold Api.chat. destruct conversation_engine as [engine|]; [|done].
  set (kw := [("message", _); _; _; _]).
  assert (Hcall : Api.call_process_message L engine r kw = (Raise TypeError, r))
    by reflexivity.
  rewrite Hcall. done.
Qed.

(** ** The Azure access token *)

(** X18. A token requested when none is cached or the cached one has
    expired, and answered with a numeric lifetime, is kept and served
    from the cache, whatever a request would come to, for as long as the
    clock is before the time of the response plus the lifetime less 300
    seconds; from that moment on a call requests a token again. *)
Theorem access_token_cached_until_margin (self : AzureMonitor.token_cache)
    (now0 now : Q) (plus : Q → Q → result Q) (body : obj)
    (tok : string) (lifetime : Q) :
  (∀ t, AzureMonitor.token_expires self = Some t → (t <= now0)%Q) →
  get body "access_token" VNone = Ok (VStr tok) →
  tok ≠ EmptyString →
  get body "expires_in" (VNum 3600) = Ok (VNum lifetime) →
  plus now (lifetime - 300)%Q = Ok (now + (lifetime - 300))%Q →
  let cached :=
    {| AzureMonitor.access_token := VStr tok;
       AzureMonitor.token_expires := Some (now + (lifetime - 300))%Q |} in
  AzureMonitor._get_access_token self now0 now plus (HttpResp 200 (Ok body))
  = (VStr tok, cached)
  ∧ (∀ now1 now2 http, (now1 < now + (lifetime - 300))%Q →
       AzureMonitor._get_access_token cached now1 now2 plus http
       = (VStr tok, cached))
  ∧ (∀ now1 now2 http, (now + (lifetime - 300) <= now1)%Q →
       AzureMonitor._get_access_token cached now1 now2 plus http
       = AzureMonitor.request_token cached now2 plus http).
Proof.
  intros Hfresh Htok Hne Hexp Hplus cached.
  assert (Ht : truthy (VStr tok) = true).
  { cbn. by destruct (String.eqb_spec tok EmptyString). }
  split; [|split].
  - unfold AzureMonitor._get_access_token.
    assert (Hmiss : match AzureMonitor.token_expires self with
                    | Some t => AzureMonitor.Qlt_bool now0 t
                    | None => false
                    end = false).
    { destruct (AzureMonitor.token_expires self) as [t|] eqn:Et; [|done].
      unfold AzureMonitor.Qlt_bool.
      by rewrite (proj2 (Qle_bool_iff t now0) (Hfresh t eq_refl)). }
    rewrite Hmiss, andb_false_r.
    unfold AzureMonitor.request_token. cbn [Nat.eqb mbind result_bind].
    rewrite Htok. cbn [mbind result_bind]. rewrite Hexp.
    cbn [mbind result_bind AzureMonitor.minus_300 as_number]. by rewrite Hplus.
  - intros now1 now2 http Hlt. unfold AzureMonitor._get_access_token.
    cbn [cached AzureMonitor.access_token AzureMonitor.token_expires].
    rewrite Ht. unfold AzureMonitor.Qlt_bool.
    destruct (Qle_bool _ now1) eqn:Hle; [|done].
    apply Qle_bool_iff in Hle. by apply Qle_not_lt in Hle.
  - intros now1 now2 http Hle. unfold AzureMonitor._get_access_token.
    cbn [cached AzureMonitor.access_token AzureMonitor.token_expires].
    unfold AzureMonitor.Qlt_bool.
    apply Qle_bool_iff in Hle. rewrite Hle. by rewrite andb_false_r.
Qed.

Lemma access_token_cached_witness :
  AzureMonitor._get_access_token
    {| AzureMonitor.access_token := VStr "t1";
       AzureMonitor.token_expires := Some (1000 + (3600 - 300))%Q |}
    4299 4300 (λ t x, Ok (t + x)%Q) (HttpFail TimeoutError)
  = (VStr "t1",
     {| AzureMonitor.access_token := VStr "t1";
        AzureMonitor.token_expires := Some (1000 + (3600 - 300))%Q |}).
Proof.
  destruct (access_token_cached_until_margin AzureMonitor.fresh 999 1000
              (λ t x, Ok (t + x)%Q)
              (jobj [("access_token", VStr "t1"); ("expires_in", VNum 3600)])
              "t1" 3600 ltac:(discriminate) eq_refl ltac:(discriminate)
              eq_refl eq_refl)
    as (_ & H & _).
  apply H. reflexivity.
Defined.

(** X19. When the token response carries its lifetime as anything but a
    number, a text for instance, [_get_access_token] returns [None]
    although the response held a token: the token is stored without an
    expiry time, so it is never served from the cache and the next call
    requests again. *)
Theorem access_token_lost_on_text_lifetime (self : AzureMonitor.token_cache)
    (now0 now : Q) (plus : Q → Q → result Q) (body tok expires_in : obj) :
  AzureMonitor.token_expires self = None →
  get body "access_token" VNone = Ok tok →
  get body "expires_in" (VNum 3600) = Ok expires_in →
  as_number expires_in = None →
  let stored :=
    {| AzureMonitor.access_token := tok;
       AzureMonitor.token_expires := None |} in
  AzureMonitor._get_access_token self now0 now plus (HttpResp 200 (Ok body))
  = (VNone, stored)
  ∧ (∀ now1 now2 http,
       AzureMonitor._get_access_token stored now1 now2 plus http
       = AzureMonitor.request_token stored now2 plus http).
Proof.
  intros Hfresh Htok Hexp Hnum stored. split.
  - unfold AzureMonitor._get_access_token. rewrite Hfresh, andb_false_r.
    unfold AzureMonitor.request_token. cbn [Nat.eqb mbind result_bind].
    rewrite Htok. cbn [mbind result_bind]. rewrite Hexp.
    cbn [mbind result_bind]. unfold AzureMonitor.minus_300. rewrite Hnum.
    cbn. by rewrite Hfresh.
  - intros now1 now2 http. unfold AzureMonitor._get_access_token.
    cbn [stored AzureMonitor.token_expires]. by rewrite andb_false_r.
Qed.

Lemma access_token_lost_witness :
  AzureMonitor._get_access_token AzureMonitor.fresh 999 1000
    (λ t x, Ok (t + x)%Q)
    (HttpResp 200 (Ok (jobj [ ("access_token", VStr "t1");
                              ("expires_in", VStr "3599") ])))
  = (VNone, {| AzureMonitor.access_token := VStr "t1";
               AzureMonitor.token_expires := None |}).
Proof.
  destruct (access_token_lost_on_text_lifetime AzureMonitor.fresh 999 1000
              (λ t x, Ok (t + x)%Q)
              (jobj [("access_token", VStr "t1"); ("expires_in", VStr "3599")])
              (VStr "t1") (VStr "3599") eq_refl eq_refl eq_refl eq_refl)
    as [H _].
  exact H.
Defined.

(** ** Results of a log query *)

Lemma row_sample_nothing (L : stdlib) (now : string) (columns : list obj)
    (time_col value_col : nat) (row : obj) :
  AzureMonitor.row_sample L now columns time_col value_col row = Ok []
  ∨ ∃ e, AzureMonitor.row_sample L now columns time_col value_col row = Raise e.
Proof.
  apply try_except_only_nothing.
  do 3 (apply bind_raise; intros ?). by exists ValidationError.
Qed.

(** [_parse_kql_results] returns no sample: the construction of the
    record of a row raises [ValidationError], a [ValueError], and the row
    is skipped. *)
Lemma parse_kql_results_nothing (L : stdlib) (now : string) (data : obj) :
  AzureMonitor._parse_kql_results L now data = Ok []
  ∨ ∃ e, AzureMonitor._parse_kql_results L now data = Raise e.
Proof.
  unfold AzureMonitor._parse_kql_results.
  apply bind_nothing. intros tables. apply for_each_nothing. intros table.
  do 3 (apply bind_nothing; intros ?).
  apply bind_nothing. intros [[time_col|] [value_col|]]; try by left.
  apply bind_nothing. intros rows. apply for_each_nothing. intros row.
  apply row_sample_nothing.
Qed.

(** The tests of the column search on one column. *)
Lemma select_columns_step (time_col value_col : option nat) (i : nat)
    (col : obj) (acc : option nat * option nat) :
  (col_name ← get col "name" (VStr EmptyString) ≫= lower_obj;
   col_type ← get col "type" (VStr EmptyString);
   if AzureMonitor.is_datetime col_type && bool_decide (time_col = None)
   then Ok (Some i, value_col)
   else if AzureMonitor.is_numeric col_type && AzureMonitor.lacks_time col_name
   then Ok (time_col, Some i)
   else Ok (time_col, value_col)) = Ok acc →
  ∃ n ty,
    get col "name" (VStr EmptyString) ≫= lower_obj = Ok (VStr n)
    ∧ get col "type" (VStr EmptyString) = Ok ty
    ∧ acc = (if AzureMonitor.is_datetime ty
             then match time_col with
                  | None => (Some i, value_col)
                  | Some _ => (time_col, value_col)
                  end
             else if AzureMonitor.is_numeric ty && negb (str_in "time" n)
             then (time_col, Some i)
             else (time_col, value_col)).
Proof.
  intros H. apply bind_Ok in H as (col_name & Hn & H).
  apply bind_Ok in H as (ty & Hty & H).
  assert (∃ n, col_name = VStr n) as [n ->].
  { apply bind_Ok in Hn as (v & _ & Hl). destruct v; try done.
    injection Hl as <-. eauto. }
  exists n, ty. split; [done|]. split; [done|].
  assert (Hdn : AzureMonitor.is_datetime ty = true →
                AzureMonitor.is_numeric ty = false).
  { unfold AzureMonitor.is_datetime, AzureMonitor.is_numeric, Prometheus.eq_str.
    destruct ty; try done. intros ->%String.eqb_eq. reflexivity. }
  cbn [AzureMonitor.lacks_time] in H.
  destruct (AzureMonitor.is_datetime ty) eqn:Hd.
  - rewrite (Hdn eq_refl) in H. destruct time_col; cbn in H; by injection H.
  - cbn in H. destruct (_ && _); by injection H.
Qed.

Lemma select_columns_step_tests (time_col value_col : option nat) (i : nat)
    (col : obj) (acc : option nat * option nat) :
  (col_name ← get col "name" (VStr EmptyString) ≫= lower_obj;
   col_type ← get col "type" (VStr EmptyString);
   if AzureMonitor.is_datetime col_type && bool_decide (time_col = None)
   then Ok (Some i, value_col)
   else if AzureMonitor.is_numeric col_type && AzureMonitor.lacks_time col_name
   then Ok (time_col, Some i)
   else Ok (time_col, value_col)) = Ok acc →
  acc.1 = (if AzureMonitor.time_column col
           then match time_col with None => Some i | Some _ => time_col end
           else time_col)
  ∧ acc.2 = (if AzureMonitor.value_column col then Some i else value_col).
Proof.
  intros H. apply select_columns_step in H as (n & ty & Hn & Hty & ->).
  unfold AzureMonitor.time_column, AzureMonitor.value_column.
  rewrite Hn, Hty. cbn [AzureMonitor.lacks_time].
  assert (Hdn : AzureMonitor.is_datetime ty = true →
                AzureMonitor.is_numeric ty = false).
  { unfold AzureMonitor.is_datetime, AzureMonitor.is_numeric, Prometheus.eq_str.
    destruct ty; try done. intros ->%String.eqb_eq. reflexivity. }
  destruct (AzureMonitor.is_datetime ty).
  - rewrite (Hdn eq_refl). by destruct time_col.
  - by destruct (_ && _).
Qed.

Lemma select_columns_loop (l : list obj) :
  ∀ (k : nat) (tc vc tc' vc' : option nat),
    for_fold (λ '(time_col, value_col) '(i, col),
        col_name ← get col "name" (VStr EmptyString) ≫= lower_obj;
        col_type ← get col "type" (VStr EmptyString);
        if AzureMonitor.is_datetime col_type && bool_decide (time_col = None)
        then Ok (Some i, value_col)
        else if AzureMonitor.is_numeric col_type
                && AzureMonitor.lacks_time col_name
        then Ok (time_col, Some i)
        else Ok (time_col, value_col))
      (tc, vc) (zip (seq k (length l)) l) = Ok (tc', vc') →
    (∀ i, tc' = Some i ↔
       tc = Some i
       ∨ (tc = None
          ∧ ∃ n col, i = (k + n)%nat ∧ l !! n = Some col
              ∧ AzureMonitor.time_column col = true
              ∧ ∀ m c, (m < n)%nat → l !! m = Some c →
                       AzureMonitor.time_column c = false))
    ∧ (∀ j, vc' = Some j ↔
         (∃ n col, j = (k + n)%nat ∧ l !! n = Some col
            ∧ AzureMonitor.value_column col = true
            ∧ ∀ m c, (n < m)%nat → l !! m = Some c →
                     AzureMonitor.value_column c = false)
         ∨ (vc = Some j
            ∧ ∀ m c, l !! m = Some c → AzureMonitor.value_column c = false)).
Proof.
  induction l as [|col r IH]; intros k tc vc tc' vc' H.
  - cbn in H. injection H as <- <-. split.
    + intros i. split; [by left|]. by intros [?|(_ & n & c & _ & [=] & _)].
    + intros j. split.
      * intros ->. right. split; [done|]. by intros m c [=].
      * by intros [(n & c & _ & [=] & _)|[? _]].
  - cbn [length seq zip zip_with for_fold] in H.
    match type of H with match ?b with _ => _ end = _ =>
      destruct b as [[tc1 vc1]|e] eqn:Hb; [|done] end.
    apply select_columns_step_tests in Hb as [Ht Hv]. cbn in Ht, Hv.
    apply IH in H as [IHt IHv]. split.
    + intros i. rewrite IHt. clear IHt IHv. subst tc1. split.
      * intros [Hi|(Hnone & n & c & -> & Hl & Hc & Hlt)].
        -- destruct (AzureMonitor.time_column col) eqn:Hcol; [|by left].
           destruct tc as [t|]; [by left|]. right. split; [done|].
           injection Hi as <-. exists 0%nat, col.
           split; [lia|]. split; [done|]. split; [done|]. intros; lia.
        -- destruct (AzureMonitor.time_column col) eqn:Hcol;
             [by destruct tc|].
           right. split; [done|]. exists (S n), c.
           split; [lia|]. split; [done|]. split; [done|].
           intros [|m] c' Hm Hl'; [by injection Hl' as <-|].
           apply (Hlt m c'); [lia|done].
      * intros [Hi|(Hnone & n & c & -> & Hl & Hc & Hlt)].
        -- left. rewrite Hi. by destruct (AzureMonitor.time_column col).
        -- subst tc. destruct n as [|n].
           ++ injection Hl as <-. rewrite Hc. left. f_equal. lia.
           ++ assert (Hcol : AzureMonitor.time_column col = false)
                by (apply (Hlt 0%nat col); [lia|done]).
              rewrite Hcol. right. split; [done|]. exists n, c.
              split; [lia|]. split; [done|]. split; [done|].
              intros m c' Hm Hl'. apply (Hlt (S m) c'); [lia|done].
    + intros j. rewrite IHv. clear IHt IHv. subst vc1. split.
      * intros [(n & c & -> & Hl & Hc & Hgt)|[Hj Hall]].
        -- left. exists (S n), c. split; [lia|]. split; [done|]. split; [done|].
           intros [|m] c' Hm Hl'; [lia|]. apply (Hgt m c'); [lia|done].
        -- destruct (AzureMonitor.value_column col) eqn:Hcol.
           ++ injection Hj as <-. left. exists 0%nat, col.
              split; [lia|]. split; [done|]. split; [done|].
              intros [|m] c' Hm Hl'; [lia|]. by apply (Hall m c').
           ++ right. split; [done|].
              intros [|m] c' Hl'; [by injection Hl' as <-|]. by apply (Hall m c').
      * intros [(n & c & -> & Hl & Hc & Hgt)|[Hj Hall]].
        -- destruct n as [|n].
           ++ injection Hl as <-. rewrite Hc. right. split; [f_equal; lia|].
              intros m c' Hl'. apply (Hgt (S m) c'); [lia|done].
           ++ left. exists n, c. split; [lia|]. split; [done|]. split; [done|].
              intros m c' Hm Hl'. apply (Hgt (S m) c'); [lia|done].
        -- right. rewrite (Hall 0%nat col eq_refl). split; [done|].
           intros m c' Hl'. by apply (Hall (S m) c').
Qed.

(** X20. The column search of the log-query parser takes the first
    column of type datetime as the time column and the last column of
    type real, long or int whose name does not contain the word time, in
    any letter case, as the value column: a numeric column named
    ResponseTime is never the value, and of several numeric columns the
    last one wins. *)
Theorem select_columns_first_time_last_value (columns : list obj)
    (time_col value_col : option nat) :
  AzureMonitor.select_columns columns = Ok (time_col, value_col) →
  (∀ i, time_col = Some i ↔
     ∃ col, columns !! i = Some col
       ∧ AzureMonitor.time_column col = true
       ∧ ∀ m c, (m < i)%nat → columns !! m = Some c →
                AzureMonitor.time_column c = false)
  ∧ (∀ j, value_col = Some j ↔
       ∃ col, columns !! j = Some col
         ∧ AzureMonitor.value_column col = true
         ∧ ∀ m c, (j < m)%nat → columns !! m = Some c →
                  AzureMonitor.value_column c = false).
Proof.
  unfold AzureMonitor.select_columns, Builtins.enumerate. intros H.
  apply select_columns_loop in H as [Ht Hv]. split.
  - intros i. rewrite Ht. split.
    + intros [[=]|(_ & n & c & -> & ?)]. by exists c.
    + intros (c & ?). right. split; [done|]. by exists i, c.
  - intros j. rewrite Hv. split.
    + intros [(n & c & -> & ?)|[[=] _]]. by exists c.
    + intros (c & ?). left. by exists j, c.
Qed.

Lemma select_columns_witness :
  ∃ col,
    [ jobj [("name", VStr "TimeGenerated"); ("type", VStr "datetime")];
      jobj [("name", VStr "Requests"); ("type", VStr "long")];
      jobj [("name", VStr "ResponseTime"); ("type", VStr "real")];
      jobj [("name", VStr "Computer"); ("type", VStr "string")] ] !! 1%nat
    = Some col
    ∧ AzureMonitor.value_column col = true
    ∧ ∀ m c, (1 < m)%nat →
        [ jobj [("name", VStr "TimeGenerated"); ("type", VStr "datetime")];
          jobj [("name", VStr "Requests"); ("type", VStr "long")];
          jobj [("name", VStr "ResponseTime"); ("type", VStr "real")];
          jobj [("name", VStr "Computer"); ("type", VStr "string")] ] !! m
        = Some c →
        AzureMonitor.value_column c = false.
Proof.
  destruct (select_columns_first_time_last_value
    [ jobj [("name", VStr "TimeGenerated"); ("type", VStr "datetime")];
      jobj [("name", VStr "Requests"); ("type", VStr "long")];
      jobj [("name", VStr "ResponseTime"); ("type", VStr "real")];
      jobj [("name", VStr "Computer"); ("type", VStr "string")] ]
    (Some 0%nat) (Some 1%nat) eq_refl) as [_ Hv].
  apply (Hv 1%nat). reflexivity.
Defined.

(** ** Calls *)

Lemma bind_filled (sg : Call.signature) (args : list obj) (kw : kwargs)
    (positional : kwargs) (k : string) :
  Call.bind_positional (Call.params sg) args = Ok positional →
  Call.mem k positional.*1 = true →
  is_Some (kw !! k) →
  Call.bind sg args kw = Raise TypeError.
Proof.
  intros Hp Hk Hs. unfold Call.bind. rewrite Hp. cbn.
  assert (He : existsb (λ k, Call.mem k positional.*1) kw.*1 = true); [|by rewrite He].
  apply existsb_exists. exists k. split; [|done].
  clear -Hs. induction kw as [|[k' v] kw IH]; [by destruct Hs as [? [=]]|].
  change (((k', v) :: kw) !! k) with (if String.eqb k k' then Some v else kw !! k) in Hs.
  cbn. destruct (String.eqb_spec k k'); [by left|right; by apply IH].
Qed.

(** ** Queries of the Azure connector *)

(** X21. [query_metrics] of the Azure connector returns the empty list
    on every route and never raises. With a resource_id keyword the call
    of [_get_resource_metrics] passes that identifier twice, by position
    and again within the keywords, so the call raises [TypeError] before
    any request is sent; a text that neither starts with Heartbeat nor
    contains a bar goes to the resource search, which finds nothing; a
    log query without a workspace_id keyword is not sent, and the parser
    of its result returns no sample. *)
Theorem azure_query_metrics_returns_nothing (L : stdlib)
    (w : AzureMonitor.world) (query : string) (kwargs : kwargs) :
  AzureMonitor.query_metrics L w query kwargs = Ok []
  ∧ (truthy (default VNone (kwargs !! "resource_id")) = true →
     ∀ headers,
       Call.bind AzureMonitor._get_resource_metrics_signature
         [default VNone (kwargs !! "resource_id"); VStr query; headers] kwargs
       = Raise TypeError).
Proof.
  assert (Hbind : truthy (default VNone (kwargs !! "resource_id")) = true →
    ∀ headers,
      Call.bind AzureMonitor._get_resource_metrics_signature
        [default VNone (kwargs !! "resource_id"); VStr query; headers] kwargs
      = Raise TypeError).
  { intros Hrid headers.
    apply (bind_filled _ _ _
             [ ("resource_id", default VNone (kwargs !! "resource_id"));
               ("metric_names", VStr query); ("headers", headers) ]
             "resource_id"); [reflexivity|reflexivity|].
    destruct (kwargs !! "resource_id"); [eauto|done]. }
  split; [|exact Hbind].
  unfold AzureMonitor.query_metrics.
  destruct (truthy (AzureMonitor.token w)); cbn [negb]; [|done].
  destruct (truthy (default VNone (kwargs !! "resource_id"))) eqn:Hrid.
  { by rewrite Hbind. }
  destruct (String.prefix "Heartbeat" query || has_char "|" query).
  2:{ by destruct (Call.bind _ _ _) as [[bound extra]|]. }
  destruct (Call.bind AzureMonitor._execute_kql_query_signature _ kwargs)
    as [[bound extra]|e]; [|done].
  cbn [mbind result_bind try_except].
  unfold AzureMonitor._execute_kql_query.
  destruct (truthy (default VNone (extra !! "workspace_id"))); cbn [negb];
    [|done].
  destruct (AzureMonitor.kql_http w) as [e|status body]; [done|].
  destruct (status =? 200)%nat; [|done].
  destruct body as [data|e]; [|done]. cbn [mbind result_bind].
  by destruct (parse_kql_results_nothing L (AzureMonitor.now_iso w) data)
    as [->|[e ->]].
Qed.

(** ** Services *)


Lemma insert_sorted_length (x : string) (xs : list string) :
  length (Builtins.insert_sorted x xs) = S (length xs).
Proof.
  induction xs as [|z r IH]; [done|]. cbn.
  destruct (String.leb x z); cbn; by rewrite ?IH.
Qed.








(** ** What the connectors return *)

(** X23. Whatever Prometheus and Alertmanager answer, the Prometheus
    connector returns no sample, no alert and no service name: every
    record it builds is given the keywords name and value, or name and
    description, where [models.py] requires metric_name, or alert_name,
    so each construction raises [ValidationError] and is skipped or
    caught, and the service names are read off the samples. None of the
    three calls raises. *)
Theorem prometheus_connector_returns_nothing (L : stdlib)
    (self : Prometheus.PrometheusConnector) (w : Prometheus.world) :
  (∀ query kw, Prometheus.query_metrics L self w query kw = Ok [])
  ∧ Prometheus.get_active_alerts L self w = Ok []
  ∧ PrometheusServices.get_services L self w = Ok [].
Proof.
  split; [intros; apply prometheus_query_metrics_empty|].
  split; [apply prometheus_get_active_alerts_empty|].
  unfold PrometheusServices.get_services.
  by rewrite prometheus_query_metrics_empty.
Qed.

(** X24. Whatever Azure answers, the Azure connector returns no alert,
    and its parsers of a metrics response and of a log-query result
    return no sample: each returns the empty list or raises. The records
    are built with the keywords name and value, or name and description,
    where [models.py] requires metric_name, or alert_name. *)
Theorem azure_connector_returns_nothing (L : stdlib)
    (self : Azure.AzureMonitorConnector) (w : Azure.world)
    (data : obj) (resource_id : string) :
  Azure.get_active_alerts L self w = Ok []
  ∧ (Azure._parse_azure_metrics L (Azure.now_iso w) data resource_id = Ok []
     ∨ ∃ e, Azure._parse_azure_metrics L (Azure.now_iso w) data resource_id
            = Raise e)
  ∧ (AzureMonitor._parse_kql_results L (Azure.now_iso w) data = Ok []
     ∨ ∃ e, AzureMonitor._parse_kql_results L (Azure.now_iso w) data
            = Raise e).
Proof.
  split; [apply azure_get_active_alerts_empty|].
  split; [apply azure_parse_metrics_nothing|apply parse_kql_results_nothing].
Qed.

(** ** The labels of an Azure time series *)

Lemma key_eqb_str (s : string) (k : obj) :
  key_eqb (VStr s) k = true → k = VStr s.
Proof.
  destruct k as [|b|q|t|l|kv|t]; cbn; try done.
  intros H. by apply String.eqb_eq in H as ->.
Qed.

Lemma assoc_setitem_eq (s : string) (v : obj) (kv : list (obj * obj)) :
  assoc (VStr s) (setitem_items (VStr s) v kv) = Some v.
Proof.
  induction kv as [|[k x] kv IH]; cbn [setitem_items assoc].
  - change (key_eqb (VStr s) (VStr s)) with (String.eqb s s).
    by rewrite String.eqb_refl.
  - destruct (key_eqb (VStr s) k) eqn:Hk; cbn [assoc]; by rewrite Hk.
Qed.

Lemma assoc_setitem_ne (a b : string) (v : obj) (kv : list (obj * obj)) :
  a ≠ b →
  assoc (VStr a) (setitem_items (VStr b) v kv) = assoc (VStr a) kv.
Proof.
  intros Hne. induction kv as [|[k x] kv IH]; cbn [setitem_items assoc].
  - change (key_eqb (VStr a) (VStr b)) with (String.eqb a b).
    by destruct (String.eqb_spec a b).
  - destruct (key_eqb (VStr b) k) eqn:Hk; cbn [assoc].
    + apply key_eqb_str in Hk as ->.
      change (key_eqb (VStr a) (VStr b)) with (String.eqb a b).
      by destruct (String.eqb_spec a b).
    + by rewrite IH.
Qed.

Lemma split_char_no_sep (c : ascii) (s : string) :
  has_char c s = false → split_char c s = [s].
Proof.
  induction s as [|d s IH]; [done|]. cbn.
  destruct (Ascii.eqb c d); [done|]. cbn. intros H. by rewrite IH.
Qed.

Lemma split_char_nonempty (c : ascii) (s : string) : split_char c s ≠ [].
Proof.
  induction s as [|d s IH]; [done|]. cbn.
  destruct (Ascii.eqb c d); [done|]. by destruct (split_char c s).
Qed.

Lemma split_char_app (c : ascii) (a b : string) :
  split_char c (a +:+ String c b) = (split_char c a ++ split_char c b)%list.
Proof.
  induction a as [|d a IH].
  - rewrite append_nil_l. cbn [split_char]. by rewrite Ascii.eqb_refl.
  - rewrite append_cons. cbn [split_char].
    destruct (Ascii.eqb c d); [by rewrite IH|].
    rewrite IH. destruct (split_char c a) as [|p ps] eqn:E; [|done].
    by destruct (split_char_nonempty c a).
Qed.

(** X25. The labels [timeseries_labels] returns always name the resource:
    resource_id is the identifier handed in and resource_type its
    next-to-last path segment, unknown for an identifier without a slash;
    a dimension of the series that bears one of these two names is
    overwritten. *)
Theorem timeseries_labels_name_the_resource (timeseries : obj)
    (resource_id : string) (labels : list (obj * obj)) :
  Azure.timeseries_labels timeseries resource_id = Ok labels →
  assoc (VStr "resource_id") labels = Some (VStr resource_id)
  ∧ (has_char "/" resource_id = false →
     assoc (VStr "resource_type") labels = Some (VStr "unknown"))
  ∧ (∀ parent kind name,
       resource_id = parent +:+ "/" +:+ kind +:+ "/" +:+ name →
       has_char "/" kind = false → has_char "/" name = false →
       assoc (VStr "resource_type") labels = Some (VStr kind)).
Proof.
  unfold Azure.timeseries_labels. intros H.
  apply bind_Ok in H as (dims & _ & H).
  apply bind_Ok in H as (labels0 & _ & H).
  cbn [setitem hashable mbind result_bind] in H.
  apply bind_Ok in H as (resource_type & Ht & H).
  injection H as <-.
  split; [|split].
  - rewrite assoc_setitem_ne by done. apply assoc_setitem_eq.
  - intros Hno. rewrite Hno in Ht. injection Ht as <-. apply assoc_setitem_eq.
  - intros parent kind name -> Hk Hn.
    rewrite assoc_setitem_eq. do 2 f_equal.
    assert (Hs : has_char "/" (parent +:+ "/" +:+ kind +:+ "/" +:+ name) = true).
    { clear. induction parent as [|d p IH]; [done|]. rewrite append_cons. cbn.
      rewrite IH. by rewrite orb_true_r. }
    rewrite Hs in Ht.
    change (parent +:+ "/" +:+ kind +:+ "/" +:+ name)
      with (parent +:+ String "/" (kind +:+ "/" +:+ name)) in Ht.
    rewrite split_char_app in Ht.
    change (kind +:+ "/" +:+ name) with (kind +:+ String "/" name) in Ht.
    rewrite split_char_app in Ht.
    rewrite (split_char_no_sep _ kind Hk), (split_char_no_sep _ name Hn) in Ht.
    unfold penultimate in Ht. rewrite !rev_app_distr in Ht. cbn in Ht.
    by injection Ht.
Qed.

Lemma timeseries_labels_witness :
  ∃ labels,
    Azure.timeseries_labels (VDict []) Examples.resource_id = Ok labels
    ∧ assoc (VStr "resource_type") labels = Some (VStr "virtualMachines").
Proof.
  eexists. split; [reflexivity|].
  destruct (timeseries_labels_name_the_resource (VDict []) Examples.resource_id
              _ eq_refl) as (_ & _ & H).
  apply (H "/subscriptions/s1/resourceGroups/rg/providers/Microsoft.Compute"
           "virtualMachines" "vm1"); reflexivity.
Defined.

(** ** The names offered to the parser *)

(** X26. The metric names a turn offers to the parser are, for each
    healthy connector in configured order, the first 100 names of its
    metric list, and none at all for a connector whose service or metric
    enumeration raises: a failing service enumeration also removes the
    metric names of that connector. *)
Theorem metric_names_offered_to_parser
    (connectors : list (string * Manager.BaseConnector)) :
  NoDup (Manager.name <$> connectors.*2) →
  concat ((λ s, Manager.s_metric_names s.2)
            <$> Manager.get_all_metrics_summary connectors)
  = concat ((λ c, match Manager.get_services c, Manager.get_metrics_list c with
                  | Ok _, Ok metrics => take 100 metrics
                  | _, _ => []
                  end) <$> Manager.get_healthy_connectors connectors).
Proof.
  intros Hnd. unfold Manager.get_all_metrics_summary.
  rewrite fold_dict_set by (cbn; by apply NoDup_fmap_bfilter).
  cbn [app]. rewrite <- list_fmap_compose. f_equal.
  apply list_fmap_ext. intros _ c _. cbn.
  unfold Manager.get_metrics_summary.
  by destruct (Manager.get_services c), (Manager.get_metrics_list c).
Qed.

Lemma metric_names_offered_witness :
  concat ((λ s, Manager.s_metric_names s.2)
            <$> Manager.get_all_metrics_summary Examples.three_sources)
  = ["up"].
Proof.
  rewrite (metric_names_offered_to_parser Examples.three_sources);
    [reflexivity|].
  apply (bool_decide_unpack _). vm_compute. exact I.
Defined.
